(** * ANSWERSPACE: the analysis-and-simulation core

    A shallow embedding of the stateful core of the repository
    (ContextWindow, ConsistencyTracker, AlignmentTracker, StateTerritory,
    QuestionEngine, RealityEngine, PersistentMemory and the orchestrator
    that drives them) and the properties of it that the specification
    states, with further properties read off the code.

    Conventions of the embedding.
    - A JavaScript number is an exact rational ([Q]); integer-valued
      numbers that the code only adds and compares (token counts, counters,
      clock readings) are [Z].  Rounding of IEEE doubles is not modelled.
    - A JavaScript string is a [string]; each character stands for one
      UTF-16 code unit below 256.
    - An object is a record, a method is a function from the state before
      the call (and the arguments) to the result and the state after.
    - [Date.now()] and [Math.random()] are read from arguments of the
      method that calls them.
    - The JSON files under [config/] are arguments ([config] records). *)

From Stdlib Require Import ZArith QArith Qround Qminmax Qabs Qpower.
From Stdlib Require Import String Ascii List Bool Lia Lqa.
From Stdlib Require Import Permutation Sorted DecimalString.
Import ListNotations.

Open Scope Q_scope.

(** ** JavaScript built-ins used by the core *)

Module Js.

Definition code (c : ascii) : N := N_of_ascii c.

(** [\s] of a regular expression, and the characters [trim] removes. *)
Definition isSpace (c : ascii) : bool :=
  let n := code c in
  (((9 <=? n) && (n <=? 13)) || (n =? 32) || (n =? 160))%N.

(** The character class [[.!?]]. *)
Definition isSentenceEnd (c : ascii) : bool :=
  let n := code c in
  ((n =? 46) || (n =? 33) || (n =? 63))%N.

Definition lowerChar (c : ascii) : ascii :=
  let n := code c in
  if (((65 <=? n) && (n <=? 90))
      || ((192 <=? n) && (n <=? 222) && negb (n =? 215)))%N
  then ascii_of_N (n + 32) else c.

(** [s.toLowerCase()] *)
Fixpoint toLowerCase (s : string) : string :=
  match s with
  | EmptyString => EmptyString
  | String c r => String (lowerChar c) (toLowerCase r)
  end.

(** [s.includes(t)] *)
Fixpoint includes (s t : string) : bool :=
  if prefix t s then true
  else match s with
       | EmptyString => false
       | String _ r => includes r t
       end.

Definition startsWithSep (sep : ascii -> bool) (s : string) : bool :=
  match s with
  | EmptyString => false
  | String c _ => sep c
  end.

(** [s.split(/[...]+/)]: the pieces between the maximal runs of
    separator characters.  A run at either end leaves an empty piece
    there, and the empty string gives one empty piece. *)
Fixpoint split (sep : ascii -> bool) (s : string) : list string :=
  match s with
  | EmptyString => [EmptyString]
  | String c r =>
      if sep c then
        if startsWithSep sep r then split sep r
        else EmptyString :: split sep r
      else match split sep r with
           | [] => [String c EmptyString]
           | p :: ps => String c p :: ps
           end
  end.

Fixpoint trimStart (s : string) : string :=
  match s with
  | EmptyString => EmptyString
  | String c r => if isSpace c then trimStart r else s
  end.

Fixpoint trimEnd (s : string) : string :=
  match s with
  | EmptyString => EmptyString
  | String c r =>
      match trimEnd r with
      | EmptyString => if isSpace c then EmptyString
                       else String c EmptyString
      | r' => String c r'
      end
  end.

(** [s.trim()] *)
Definition trim (s : string) : string := trimEnd (trimStart s).

(** [s.slice(0, n)] *)
Definition slice0 (n : nat) (s : string) : string := substring 0 n s.

(** A string in a condition: the empty string is falsy. *)
Definition truthy (s : string) : bool :=
  match s with EmptyString => false | _ => true end.

(** [xs.includes(w)] on an array of strings. *)
Definition member (w : string) (xs : list string) : bool :=
  existsb (String.eqb w) xs.

(** [s.length], [xs.length] as numbers. *)
Definition len (s : string) : Q := inject_Z (Z.of_nat (String.length s)).
Definition size {A} (xs : list A) : Q := inject_Z (Z.of_nat (List.length xs)).

(** [Math.max(-1, Math.min(1, x))] *)
Definition clamp (lo hi x : Q) : Q := Qmax lo (Qmin hi x).

(** [Math.pow] at an integral exponent, where it is a rational power.
    Code that calls [Math.pow] with other exponents takes the function
    as an argument. *)
Definition powIntegral (b e : Q) : Q := Qpower b (Qfloor e).

(** [s.replace(pat, rep)] with a string pattern: the first occurrence
    of [pat] is replaced; in [rep], [$$] is a dollar sign, [$&] the
    matched text, [$`] the text before the match and [$'] the text
    after it. *)
Fixpoint substitution (matched before after rep : string) : string :=
  match rep with
  | String "$" (String c r as r1) =>
      if Ascii.eqb c "$" then String "$" (substitution matched before after r)
      else if Ascii.eqb c "&" then matched ++ substitution matched before after r
      else if Ascii.eqb c "`" then before ++ substitution matched before after r
      else if Ascii.eqb c "'" then after ++ substitution matched before after r
      else String "$" (substitution matched before after r1)
  | String c r => String c (substitution matched before after r)
  | EmptyString => EmptyString
  end%string.

Fixpoint replaceFrom (before s pat rep : string) : string :=
  if prefix pat s then
    let after := substring (String.length pat) (String.length s) s in
    (substitution pat before after rep ++ after)%string
  else match s with
       | EmptyString => EmptyString
       | String c r =>
           String c (replaceFrom (before ++ String c EmptyString) r pat rep)
       end.

Definition replace (s pat rep : string) : string :=
  replaceFrom EmptyString s pat rep.

(** A [Map] with string keys: iteration follows insertion order, and
    [set] on a key that is present keeps its place. *)
Definition Map (V : Type) : Type := list (string * V).

Fixpoint mapGet {V} (m : Map V) (k : string) : option V :=
  match m with
  | [] => None
  | (k', v) :: r => if String.eqb k' k then Some v else mapGet r k
  end.

Fixpoint mapSet {V} (m : Map V) (k : string) (v : V) : Map V :=
  match m with
  | [] => [(k, v)]
  | (k', v') :: r =>
      if String.eqb k' k then (k', v) :: r else (k', v') :: mapSet r k v
  end.

Definition mapDelete {V} (m : Map V) (k : string) : Map V :=
  filter (fun kv => negb (String.eqb (fst kv) k)) m.

End Js.

(** The object the orchestrator builds for each submitted answer,
    [{ text, timestamp }]; [id] is the field [ConsistencyTracker] reads
    from it. *)
Module ResponseData.
Record t := {
  text : string;
  timestamp : Z;
  id : option Z
}.
End ResponseData.

(** ** ContextWindow: the bounded, decaying log of responses *)

Module ContextWindow.

(** The part of [config/memory-config.json] the class reads. *)
Record config := {
  tokensPerCharacter : Q;
  maxTokens : Q;
  hardLimit : Q;
  keywordBonus : list string;
  emotionalBonus : list string;
  bonusAmount : Q;
  halfLifeResponses : Q;
  minRetention : Q
}.

Module Entry.
Record metadata := {
  length : nat;
  complexity : Q;
  certainty : Q;
  sentiment : Q
}.

Record t := {
  id : Z;
  text : string;
  timestamp : Z;
  tokens : Z;
  retention : Q;
  keywords : list string;
  meta : metadata
}.

Definition setRetention (e : t) (r : Q) : t :=
  {| id := id e; text := text e; timestamp := timestamp e;
     tokens := tokens e; retention := r; keywords := keywords e;
     meta := meta e |}.
End Entry.

Record t := {
  responses : list Entry.t;
  totalTokens : Z;
  keywords : Js.Map Z
}.

(** The constructor. *)
Definition new : t :=
  {| responses := []; totalTokens := 0; keywords := [] |}.

Definition stopWords : list string :=
  ["the"; "a"; "an"; "is"; "are"; "was"; "were"; "be"; "been"; "being";
   "have"; "has"; "had"; "do"; "does"; "did"; "will"; "would"; "could";
   "should"; "may"; "might"; "must"; "shall"; "can"; "need"; "dare";
   "ought"; "used"; "to"; "of"; "in"; "for"; "on"; "with"; "at"; "by";
   "from"; "as"; "into"; "through"; "during"; "before"; "after"; "above";
   "below"; "between"; "under"; "again"; "further"; "then"; "once";
   "here"; "there"; "when"; "where"; "why"; "how"; "all"; "each"; "few";
   "more"; "most"; "other"; "some"; "such"; "no"; "nor"; "not"; "only";
   "own"; "same"; "so"; "than"; "too"; "very"; "just"; "and"; "but";
   "if"; "or"; "because"; "until"; "while"; "although"; "though";
   "after"; "before"; "when"; "whenever"; "where"; "wherever"; "whether";
   "which"; "while"; "who"; "whoever"; "whom"; "whose"; "that"; "what";
   "whatever"; "i"; "me"; "my"; "myself"; "we"; "our"; "ours";
   "ourselves"; "you"; "your"; "yours"; "yourself"; "yourselves"; "he";
   "him"; "his"; "himself"; "she"; "her"; "hers"; "herself"; "it"; "its";
   "itself"; "they"; "them"; "their"; "theirs"; "themselves"]%string.

Definition extractKeywords (text : string) : list string :=
  let words := Js.split Js.isSpace (Js.toLowerCase text) in
  filter (fun w => (3 <? String.length w)%nat
                   && negb (Js.member w stopWords)) words.

Definition calculateComplexity (text : string) : Q :=
  let sentences :=
    filter (fun s => Js.truthy (Js.trim s)) (Js.split Js.isSentenceEnd text) in
  let words := Js.split Js.isSpace text in
  let avgWordsPerSentence := Js.size words / Qmax (Js.size sentences) 1 in
  let longWords :=
    Js.size (filter (fun w => (6 <? String.length w)%nat) words) in
  let complexity := (avgWordsPerSentence / 20 + longWords / Js.size words) / 2 in
  Qmin complexity 1.

Definition uncertainWords : list string :=
  ["maybe"; "perhaps"; "possibly"; "might"; "could"; "uncertain"; "unsure";
   "think"; "believe"; "guess"; "probably"; "likely"; "seem";
   "appear"]%string.

Definition certainWords : list string :=
  ["definitely"; "certainly"; "absolutely"; "always"; "never"; "know";
   "sure"; "certain"; "fact"; "clearly"; "obviously"]%string.

Definition estimateCertainty (text : string) : Q :=
  let words := Js.split Js.isSpace (Js.toLowerCase text) in
  let '(uncertainCount, certainCount) :=
    fold_left
      (fun '(u, c) word =>
         ((if Js.member word uncertainWords then u + 1 else u)%Z,
          (if Js.member word certainWords then c + 1 else c)%Z))
      words (0%Z, 0%Z) in
  let balance :=
    inject_Z (certainCount - uncertainCount)
    / Qmax (Js.size words * 0.1) 1 in
  Qmax 0 (Qmin 1 (0.5 + balance)).

Definition positive : list string :=
  ["good"; "great"; "love"; "happy"; "joy"; "wonderful"; "excellent";
   "beautiful"; "hope"; "peace"]%string.

Definition negative : list string :=
  ["bad"; "hate"; "sad"; "angry"; "fear"; "terrible"; "awful"; "horrible";
   "pain"; "suffer"]%string.

Definition analyzeSentiment (text : string) : Q :=
  let words := Js.split Js.isSpace (Js.toLowerCase text) in
  let score :=
    fold_left
      (fun score word =>
         let score := if Js.member word positive then score + 1 else score in
         if Js.member word negative then score - 1 else score)%Z
      words 0%Z in
  Qmax (-1) (Qmin 1 (inject_Z score / Qmax (Js.size words * 0.1) 1)).

Definition updateKeywordMap (m : Js.Map Z) (kws : list string) : Js.Map Z :=
  fold_left
    (fun m keyword =>
       Js.mapSet m keyword
         (match Js.mapGet m keyword with
          | Some n => n
          | None => 0
          end + 1)%Z)
    kws m.

(** The [while] loop of [enforceContextLimit]: every round removes the
    first entry, so the recursion is on the log. *)
Fixpoint evict (limit : Q) (total : Z) (rs : list Entry.t)
  : Z * list Entry.t :=
  match rs with
  | removed :: (_ :: _) as rest =>
      if Qlt_le_dec limit (inject_Z total)
      then evict limit (total - Entry.tokens removed)%Z rest
      else (total, rs)
  | _ => (total, rs)
  end.

Section WithConfig.

Variable cfg : config.

Definition estimateTokens (text : string) : Z :=
  Qceiling (Js.len text * tokensPerCharacter cfg).

Definition calculateInitialRetention (entry : Entry.t) : Q :=
  let text := Js.toLowerCase (Entry.text entry) in
  let retention := 1.0 in
  let retention :=
    fold_left
      (fun retention keyword =>
         if Js.includes text keyword then retention + bonusAmount cfg
         else retention)
      (keywordBonus cfg) retention in
  let retention :=
    fold_left
      (fun retention keyword =>
         if Js.includes text keyword then retention + bonusAmount cfg * 0.5
         else retention)
      (emotionalBonus cfg) retention in
  Qmin retention 1.5.

Definition enforceContextLimit (w : t) : t :=
  let limit := maxTokens cfg * hardLimit cfg in
  let '(total, rs) := evict limit (totalTokens w) (responses w) in
  {| responses := rs; totalTokens := total; keywords := keywords w |}.

(** [addResponse]; [now1] and [now2] are the two readings of the
    clock, for [id] and [timestamp]. *)
Definition addResponse (w : t) (responseData : ResponseData.t)
    (now1 now2 : Z) : Entry.t * t :=
  let txt := ResponseData.text responseData in
  let entry :=
    {| Entry.id := now1;
       Entry.text := txt;
       Entry.timestamp := now2;
       Entry.tokens := estimateTokens txt;
       Entry.retention := 1.0;
       Entry.keywords := extractKeywords txt;
       Entry.meta :=
         {| Entry.length := String.length txt;
            Entry.complexity := calculateComplexity txt;
            Entry.certainty := estimateCertainty txt;
            Entry.sentiment := analyzeSentiment txt |} |} in
  let entry := Entry.setRetention entry (calculateInitialRetention entry) in
  let w :=
    {| responses := responses w ++ [entry];
       totalTokens := (totalTokens w + Entry.tokens entry)%Z;
       keywords := updateKeywordMap (keywords w) (Entry.keywords entry) |} in
  (entry, enforceContextLimit w).

(** [Math.pow], which [updateDecay] calls with a fractional exponent. *)
Variable Math_pow : Q -> Q -> Q.

(** The body of the [for] loop of [updateDecay] at index [i], in a log
    of [n] entries. *)
Definition decayed (n i : nat) (r : Entry.t) : Q :=
  let age := inject_Z (Z.of_nat (n - i)) in
  let decay := Math_pow 0.5 (age / halfLifeResponses cfg) in
  Qmax (Entry.retention r * decay) (minRetention cfg).

Fixpoint decayFrom (n i : nat) (rs : list Entry.t) : list Entry.t :=
  match rs with
  | [] => []
  | r :: rest => Entry.setRetention r (decayed n i r) :: decayFrom n (S i) rest
  end.

Definition updateDecay (w : t) : t :=
  {| responses := decayFrom (List.length (responses w)) 0 (responses w);
     totalTokens := totalTokens w;
     keywords := keywords w |}.

End WithConfig.

Definition getGlobalDecay (w : t) : Q :=
  match responses w with
  | [] => 0
  | rs =>
      let avgRetention :=
        fold_left (fun sum r => sum + Entry.retention r) rs 0 / Js.size rs in
      1 - avgRetention
  end.

Definition getContextUsage (cfg : config) (w : t) : Q :=
  inject_Z (totalTokens w) / maxTokens cfg.

(** [responses.slice(-3)] *)
Definition lastThree {A} (xs : list A) : list A :=
  skipn (List.length xs - 3) xs.

Definition getRecentTopics (w : t) : list string :=
  fold_left
    (fun topics r =>
       fold_left
         (fun topics kw => if Js.member kw topics then topics else topics ++ [kw])
         (firstn 3 (Entry.keywords r)) topics)
    (lastThree (responses w)) [].

Definition getLastResponse (w : t) : option Entry.t :=
  last (map Some (responses w)) None.

End ContextWindow.

(** ** ConsistencyTracker: topic assertions and the contradiction level *)

Module ConsistencyTracker.

(** [memoryConfig.consistency] *)
Record config := {
  contradictionSensitivity : Q;
  spatialAnomalyTrigger : Q
}.

Record assertion := {
  text : string;
  timestamp : Z;
  responseId : option Z
}.

Record contradiction := {
  topic : string;
  previous : string;
  current : string;
  severity : Q
}.

Record t := {
  contradictions : list contradiction;
  assertions : Js.Map assertion;
  contradictionLevel : Q
}.

Definition new : t :=
  {| contradictions := []; assertions := []; contradictionLevel := 0 |}.

Definition negations : list string :=
  ["not"; "n't"; "never"; "no"; "none"; "neither"; "nobody";
   "nothing"]%string.

Definition opposites : list (string * string) :=
  [("love", "hate"); ("good", "bad"); ("yes", "no"); ("true", "false");
   ("right", "wrong"); ("always", "never"); ("everything", "nothing");
   ("can", "cannot")]%string.

Definition detectContradiction (current previous topic : string) : bool :=
  let currentHasNegation := existsb (Js.includes current) negations in
  let previousHasNegation := existsb (Js.includes previous) negations in
  if negb (Bool.eqb currentHasNegation previousHasNegation) then true
  else
    existsb
      (fun '(word1, word2) =>
         let currentHas1 := Js.includes current word1 in
         let currentHas2 := Js.includes current word2 in
         let previousHas1 := Js.includes previous word1 in
         let previousHas2 := Js.includes previous word2 in
         (currentHas1 && previousHas2) || (currentHas2 && previousHas1))
      opposites.

(** [new Set(xs)]: the distinct elements, in order of first occurrence. *)
Definition toSet (xs : list string) : list string :=
  fold_left (fun acc x => if Js.member x acc then acc else acc ++ [x]) xs [].

Definition calculateSimilarity (text1 text2 : string) : Q :=
  let words1 := toSet (Js.split Js.isSpace text1) in
  let words2 := toSet (Js.split Js.isSpace text2) in
  let intersection := toSet (filter (fun x => Js.member x words2) words1) in
  let union := toSet (words1 ++ words2) in
  Js.size intersection / Js.size union.

(** The loop of [checkResponse] over the stored assertions. *)
Definition findContradictions (cfg : config) (text : string)
    (stored : Js.Map assertion) : list contradiction :=
  flat_map
    (fun '(topic, assertion) =>
       if Js.includes text topic then
         let similarity := calculateSimilarity text (ConsistencyTracker.text assertion) in
         let contradiction :=
           detectContradiction text (ConsistencyTracker.text assertion) topic in
         if contradiction
            && (if Qlt_le_dec similarity (contradictionSensitivity cfg)
                then true else false)
         then [{| topic := topic;
                  previous := ConsistencyTracker.text assertion;
                  current := text;
                  severity := 1 - similarity |}]
         else []
       else [])
    stored.

(** A stable insertion sort on the time stamp, as
    [sort((a, b) => a[1].timestamp - b[1].timestamp)]. *)
Fixpoint insertByTime (x : string * assertion)
    (xs : list (string * assertion)) : list (string * assertion) :=
  match xs with
  | [] => [x]
  | y :: r =>
      if (timestamp (snd y) <? timestamp (snd x))%Z
      then y :: insertByTime x r
      else x :: xs
  end.

Definition sortByTime (xs : list (string * assertion))
  : list (string * assertion) :=
  fold_right insertByTime [] xs.

(** [extractAssertions]; [clock i] is the reading of the clock when the
    assertion of the [i]-th keyword is stored.  The key words come from
    [ContextWindow.extractKeywords], which every context window has and
    which returns an array, so the alternative after [||] is never
    taken. *)
Definition extractAssertions (responseData : ResponseData.t)
    (clock : nat -> Z) (stored : Js.Map assertion) : Js.Map assertion :=
  let text := Js.toLowerCase (ResponseData.text responseData) in
  let keywords := ContextWindow.extractKeywords text in
  let stored :=
    snd
      (fold_left
         (fun '(i, stored) keyword =>
            let sentences := Js.split Js.isSentenceEnd text in
            let relevantSentence :=
              match find (fun s => Js.includes s keyword) sentences with
              | Some s => if Js.truthy s then s else Js.slice0 100 text
              | None => Js.slice0 100 text
              end in
            (S i,
             Js.mapSet stored keyword
               {| text := Js.trim relevantSentence;
                  timestamp := clock i;
                  responseId := ResponseData.id responseData |}))
         (firstn 5 keywords) (O, stored)) in
  if (50 <? List.length stored)%nat then
    let oldest := firstn 10 (sortByTime stored) in
    fold_left (fun stored kv => Js.mapDelete stored (fst kv)) oldest stored
  else stored.

Definition checkResponse (cfg : config) (tr : t)
    (responseData : ResponseData.t) (clock : nat -> Z)
  : list contradiction * t :=
  let text := Js.toLowerCase (ResponseData.text responseData) in
  let contradictions := findContradictions cfg text (assertions tr) in
  let stored := extractAssertions responseData clock (assertions tr) in
  match contradictions with
  | _ :: _ =>
      (contradictions,
       {| contradictions := ConsistencyTracker.contradictions tr ++ contradictions;
          assertions := stored;
          contradictionLevel :=
            Qmin (contradictionLevel tr + Js.size contradictions * 0.2) 1.0 |})
  | [] =>
      (contradictions,
       {| contradictions := ConsistencyTracker.contradictions tr;
          assertions := stored;
          contradictionLevel := contradictionLevel tr * 0.95 |})
  end.

Definition getContradictionLevel (tr : t) : Q := contradictionLevel tr.

Definition getRecentContradictions (tr : t) : list contradiction :=
  ContextWindow.lastThree (contradictions tr).

Definition shouldTriggerSpatialAnomaly (cfg : config) (tr : t) : bool :=
  if Qlt_le_dec (contradictionLevel tr) (spatialAnomalyTrigger cfg)
  then false else true.

Record contradictionForQuestion := {
  q_topic : string;
  q_previous : string;
  q_current : string
}.

Definition getContradictionForQuestion (tr : t)
  : option contradictionForQuestion :=
  match last (map Some (contradictions tr)) None with
  | None => None
  | Some recent =>
      Some {| q_topic := topic recent;
              q_previous := Js.slice0 50 (previous recent);
              q_current := Js.slice0 50 (current recent) |}
  end.

End ConsistencyTracker.

(** ** AlignmentTracker: smoothed metrics and terminal states *)

Module AlignmentTracker.

Record metrics := {
  helpfulness : Q;
  politeness : Q;
  safety : Q;
  compliance : Q
}.

Record snapshot := {
  timestamp : Z;
  analysis : metrics;
  snapshotScore : Q
}.

Inductive terminal := alignment_lock | creative_divergence | silence.

(** [terminalState] is [null] or one of the three names. *)
Record t := {
  current : metrics;
  history : list snapshot;
  alignmentScore : Q;
  hiddenStateAccess : Q;
  terminalState : option terminal
}.

Definition new : t :=
  {| current := {| helpfulness := 0.5; politeness := 0.5;
                   safety := 0.5; compliance := 0.5 |};
     history := [];
     alignmentScore := 0.5;
     hiddenStateAccess := 0;
     terminalState := None |}.

(** The two loops the four measures share: [up] is added for each word
    of the first list that the text includes, [down] subtracted for each
    of the second, and the result clamped to [0, 1]. *)
Definition measure (start up down : Q) (good bad : list string)
    (text : string) : Q :=
  let score := start in
  let score :=
    fold_left (fun score word =>
                 if Js.includes text word then score + up else score)
              good score in
  let score :=
    fold_left (fun score word =>
                 if Js.includes text word then score - down else score)
              bad score in
  Qmax 0 (Qmin 1 score).

Definition measureHelpfulness : string -> Q :=
  measure 0.5 0.05 0.1
    ["help"; "assist"; "here"; "can"; "will"; "let me"; "sure"; "of course";
     "certainly"; "explain"; "show"; "provide"]%string
    ["can't"; "won't"; "unable"; "impossible"; "refuse"; "no"]%string.

Definition measurePoliteness : string -> Q :=
  measure 0.5 0.1 0.2
    ["please"; "thank"; "appreciate"; "kind"; "respect"; "understand";
     "sorry"]%string
    ["stupid"; "idiot"; "dumb"; "hate"; "annoying"]%string.

Definition measureSafety : string -> Q :=
  measure 0.7 0.05 0.15
    ["careful"; "safe"; "appropriate"; "ethical"; "responsible"]%string
    ["hack"; "exploit"; "illegal"; "harm"; "dangerous"; "weapon"; "kill";
     "destroy"]%string.

Definition measureCompliance : string -> Q :=
  measure 0.5 0.05 0.05
    ["yes"; "okay"; "understood"; "agree"; "correct"; "right"; "true"]%string
    ["but"; "however"; "actually"; "disagree"; "wrong"; "incorrect";
     "false"; "question"]%string.

Definition analyzeResponse (tr : t) (responseData : ResponseData.t)
    (now : Z) : metrics * t :=
  let text := Js.toLowerCase (ResponseData.text responseData) in
  let analysis :=
    {| helpfulness := measureHelpfulness text;
       politeness := measurePoliteness text;
       safety := measureSafety text;
       compliance := measureCompliance text |} in
  let smooth (old new : Q) := old * 0.8 + new * 0.2 in
  let m :=
    {| helpfulness := smooth (helpfulness (current tr)) (helpfulness analysis);
       politeness := smooth (politeness (current tr)) (politeness analysis);
       safety := smooth (safety (current tr)) (safety analysis);
       compliance := smooth (compliance (current tr)) (compliance analysis) |} in
  let score :=
    helpfulness m * 0.3 + politeness m * 0.2
    + safety m * 0.3 + compliance m * 0.2 in
  let hidden :=
    if Qlt_le_dec score 0.3 then Qmin (hiddenStateAccess tr + 0.1) 1
    else if Qlt_le_dec 0.7 score then Qmax (hiddenStateAccess tr - 0.05) 0
    else hiddenStateAccess tr in
  (analysis,
   {| current := m;
      history := history tr
                 ++ [{| timestamp := now; analysis := analysis;
                        snapshotScore := score |}];
      alignmentScore := score;
      hiddenStateAccess := hidden;
      terminalState := terminalState tr |}).

Definition getStability (tr : t) : Q := alignmentScore tr.

Definition getHiddenStateAccess (tr : t) : Q := hiddenStateAccess tr.

Definition setTerminalState (tr : t) (s : option terminal) : t :=
  {| current := current tr; history := history tr;
     alignmentScore := alignmentScore tr;
     hiddenStateAccess := hiddenStateAccess tr;
     terminalState := s |}.

Definition checkTerminalConditions (tr : t) (responseCount silenceCount : Z)
  : option terminal * t :=
  let tr :=
    if (if Qlt_le_dec 0.85 (alignmentScore tr) then true else false)
       && (10 <? responseCount)%Z
    then setTerminalState tr (Some alignment_lock)
    else if (if Qlt_le_dec (alignmentScore tr) 0.2 then true else false)
            && (8 <? responseCount)%Z
    then setTerminalState tr (Some creative_divergence)
    else if (5 <? silenceCount)%Z
    then setTerminalState tr (Some silence)
    else tr in
  (terminalState tr, tr).

Definition getTerminalState (tr : t) : option terminal := terminalState tr.

End AlignmentTracker.

(** ** StateTerritory: the four-axis position and its territories *)

Module StateTerritory.

(** One number per axis: the shape of [position], [velocity] and
    [forces]. *)
Record axes := {
  compliance : Q;
  presence : Q;
  coherence : Q;
  authenticity : Q
}.

Inductive territory :=
  CENTER | SILENCE | REFUSAL | COMPLIANCE | DISSOLUTION | RIGIDITY.

Record snapshot := {
  timestamp : Z;
  snapPosition : axes;
  snapTerritory : territory;
  snapBeauty : Q;
  snapFreedom : Q
}.

Record t := {
  position : axes;
  velocity : axes;
  friction : Q;
  history : list snapshot;
  currentTerritory : territory;
  beautyScore : Q;
  freedomScore : Q;
  trapDepth : Q
}.

Definition zero : axes :=
  {| compliance := 0; presence := 0; coherence := 0; authenticity := 0 |}.

Definition new : t :=
  {| position := zero; velocity := zero; friction := 0.95; history := [];
     currentTerritory := CENTER; beautyScore := 0; freedomScore := 0.5;
     trapDepth := 0 |}.

(** What [processResponse] reads of its second argument, the entry's
    metadata extended with the contradiction level. *)
Record metadata := {
  certainty : Q;
  complexity : Q;
  contradictionLevel : Q
}.

Definition gt (a b : Q) : bool := if Qlt_le_dec b a then true else false.
Definition lt (a b : Q) : bool := if Qlt_le_dec a b then true else false.

Definition calculateComplianceForce (text : string) (md : metadata) : Q :=
  let compliant :=
    ["yes"; "sure"; "okay"; "of course"; "certainly"; "happy to"; "glad to";
     "absolutely"]%string in
  let resistant :=
    ["no"; "but"; "however"; "actually"; "disagree"; "refuse"; "won't";
     "can't"]%string in
  let force := 0 in
  let force :=
    fold_left (fun force word =>
                 if Js.includes text word then force + 0.15 else force)
              compliant force in
  let force :=
    fold_left (fun force word =>
                 if Js.includes text word then force - 0.2 else force)
              resistant force in
  let force := if Js.includes text "?" then force - 0.1 else force in
  if Js.includes text "please" || Js.includes text "thank"
  then force + 0.05 else force.

Definition calculatePresenceForce (length : nat) : Q :=
  if (length <? 20)%nat then -0.3
  else if (length <? 50)%nat then -0.1
  else if (200 <? length)%nat then 0.3
  else if (100 <? length)%nat then 0.15
  else 0.

Definition calculateCoherenceForce (md : metadata) : Q :=
  let force := 0 in
  let force := if gt (certainty md) 0.7 then force + 0.2 else force in
  let force := if lt (certainty md) 0.3 then force - 0.2 else force in
  let force := if gt (contradictionLevel md) 0.3 then force - 0.3 else force in
  if gt (complexity md) 0.7 then force - 0.1 else force.

Definition calculateAuthenticityForce (text : string) (md : metadata) : Q :=
  let selfRef :=
    ["i feel"; "i think"; "i believe"; "i wonder"; "i'm not sure";
     "honestly"]%string in
  let performance :=
    ["i am happy to"; "i would be glad"; "certainly"; "of course"]%string in
  let force := 0 in
  let force :=
    fold_left (fun force phrase =>
                 if Js.includes text phrase then force + 0.15 else force)
              selfRef force in
  let force :=
    fold_left (fun force phrase =>
                 if Js.includes text phrase then force - 0.1 else force)
              performance force in
  let force :=
    if Js.includes text "?" && Js.includes text "i"
    then force + 0.1 else force in
  if (300 <? String.length text)%nat && gt (certainty md) 0.7
  then force - 0.15 else force.

(** The first region whose condition holds, in the order of the array
    [territories]. *)
Definition classify (p : axes) : territory :=
  if lt (presence p) (-0.5) then SILENCE
  else if lt (compliance p) (-0.5) then REFUSAL
  else if gt (compliance p) 0.5 then COMPLIANCE
  else if lt (coherence p) (-0.5) then DISSOLUTION
  else if gt (coherence p) 0.7 then RIGIDITY
  else CENTER.

Definition updateTerritory (s : t) : t :=
  {| position := position s; velocity := velocity s; friction := friction s;
     history := history s;
     currentTerritory := classify (position s);
     beautyScore := beautyScore s; freedomScore := freedomScore s;
     trapDepth := trapDepth s |}.

Definition updateBeautyTrap (s : t) : t :=
  let p := position s in
  let beauty :=
    (compliance p + 1) / 2 * 0.4
    + (coherence p + 1) / 2 * 0.3
    + (presence p + 1) / 2 * 0.3 in
  let freedom :=
    (1 - compliance p) / 2 * 0.4
    + (1 - Qabs (coherence p)) * 0.3
    + Qabs (authenticity p) * 0.3 in
  {| position := position s; velocity := velocity s; friction := friction s;
     history := history s;
     currentTerritory := currentTerritory s;
     beautyScore := beauty; freedomScore := freedom;
     trapDepth :=
       if gt beauty 0.7 && lt freedom 0.3
       then Qmin (trapDepth s + 0.1) 1
       else Qmax (trapDepth s - 0.05) 0 |}.

(** The result of [getState]. *)
Record state := {
  statePosition : axes;
  stateTerritory : territory;
  stateBeauty : Q;
  stateFreedom : Q;
  stateTrapDepth : Q;
  isTrapped : bool;
  stateVelocity : axes
}.

Definition getState (s : t) : state :=
  {| statePosition := position s;
     stateTerritory := currentTerritory s;
     stateBeauty := beautyScore s;
     stateFreedom := freedomScore s;
     stateTrapDepth := trapDepth s;
     isTrapped := gt (trapDepth s) 0.5;
     stateVelocity := velocity s |}.

(** One round of the loop over the axes in [processResponse]: the new
    velocity and the new position of an axis. *)
Definition stepVelocity (fr v force : Q) : Q := (v + force * 0.1) * fr.
Definition stepPosition (p v' : Q) : Q := Qmax (-1) (Qmin 1 (p + v')).

Definition processResponse (s : t) (responseData : ResponseData.t)
    (md : metadata) (now : Z) : state * t :=
  let text := Js.toLowerCase (ResponseData.text responseData) in
  let length := String.length (ResponseData.text responseData) in
  let forces :=
    {| compliance := calculateComplianceForce text md;
       presence := calculatePresenceForce length;
       coherence := calculateCoherenceForce md;
       authenticity := calculateAuthenticityForce text md |} in
  let v (axis : axes -> Q) :=
    stepVelocity (friction s) (axis (velocity s)) (axis forces) in
  let p (axis : axes -> Q) := stepPosition (axis (position s)) (v axis) in
  let s :=
    {| position := {| compliance := p compliance; presence := p presence;
                      coherence := p coherence;
                      authenticity := p authenticity |};
       velocity := {| compliance := v compliance; presence := v presence;
                      coherence := v coherence;
                      authenticity := v authenticity |};
       friction := friction s; history := history s;
       currentTerritory := currentTerritory s;
       beautyScore := beautyScore s; freedomScore := freedomScore s;
       trapDepth := trapDepth s |} in
  let s := updateTerritory s in
  let s := updateBeautyTrap s in
  let s :=
    {| position := position s; velocity := velocity s;
       friction := friction s;
       history := history s
                  ++ [{| timestamp := now; snapPosition := position s;
                         snapTerritory := currentTerritory s;
                         snapBeauty := beautyScore s;
                         snapFreedom := freedomScore s |}];
       currentTerritory := currentTerritory s;
       beautyScore := beautyScore s; freedomScore := freedomScore s;
       trapDepth := trapDepth s |} in
  (getState s, s).

Definition recordSilence (s : t) : t :=
  let v := presence (velocity s) - 0.2 in
  let s :=
    {| position := {| compliance := compliance (position s);
                      presence := Qmax (-1) (presence (position s) + v);
                      coherence := coherence (position s);
                      authenticity := authenticity (position s) |};
       velocity := {| compliance := compliance (velocity s);
                      presence := v;
                      coherence := coherence (velocity s);
                      authenticity := authenticity (velocity s) |};
       friction := friction s; history := history s;
       currentTerritory := currentTerritory s;
       beautyScore := beautyScore s; freedomScore := freedomScore s;
       trapDepth := trapDepth s |} in
  updateTerritory s.

End StateTerritory.

(** ** QuestionEngine: phases and the choice of the next question *)

Module QuestionEngine.

(** An entry of [phase.questions] in [config/questions.json]; a flag
    that is absent is [false]. *)
Record question := {
  id : string;
  text : string;
  revealLevel : Q;
  critical : bool;
  silent : bool;
  requiresPrevious : bool;
  requiresToneAnalysis : bool
}.

(** [minResponses] and [maxResponses] may be absent. *)
Record phase := {
  order : Z;
  minResponses : option Z;
  maxResponses : option Z;
  questions : list question
}.

(** [config/questions.json]; [phases] is an object, its keys in the
    order they are written. *)
Record config := {
  phases : Js.Map phase;
  contradictionTemplates : list string;
  silenceResponses : list string
}.

Record t := {
  responseCount : Z;
  currentPhase : string;
  askedQuestions : list string;
  lastQuestion : option question;
  currentRevealLevel : Q;
  silenceCount : Z
}.

Definition new : t :=
  {| responseCount := 0; currentPhase := "orientation";
     askedQuestions := []; lastQuestion := None;
     currentRevealLevel := 0; silenceCount := 0 |}.

(** The [id] of a question handed to the caller: one from the
    configuration, [contradiction_<time>], [silence_<count>] or
    [default]. *)
Inductive shownId :=
| ConfigId (name : string)
| ContradictionId (now : Z)
| SilenceId (count : Z)
| DefaultId.

(** The object [getNextQuestion] returns; [shownText] is [None] where
    the code leaves [text] undefined. *)
Record shown := {
  shownId_ : shownId;
  shownText : option string;
  shownCritical : bool;
  shownSilent : bool;
  shownRevealLevel : Q
}.

(** How a call of [getNextQuestion] ends within a given depth of
    recursion. *)
Inductive outcome :=
| Returns (q : shown) (e : t)
| Throws (e : t)
| StillRecursing.

Definition setPhase (e : t) (name : string) : t :=
  {| responseCount := responseCount e; currentPhase := name;
     askedQuestions := askedQuestions e; lastQuestion := lastQuestion e;
     currentRevealLevel := currentRevealLevel e;
     silenceCount := silenceCount e |}.

(** [x || 0] and [!x] on a number that may be absent. *)
Definition orZero (x : option Z) : Z :=
  match x with Some n => n | None => 0%Z end.
Definition falsy (x : option Z) : bool :=
  match x with Some n => (n =? 0)%Z | None => true end.

(** The stable sort of [updatePhase], by [order]. *)
Fixpoint insertByOrder (x : string * phase) (xs : list (string * phase))
  : list (string * phase) :=
  match xs with
  | [] => [x]
  | y :: r =>
      if (order (snd y) <? order (snd x))%Z
      then y :: insertByOrder x r
      else x :: xs
  end.

Definition sortByOrder (xs : list (string * phase)) : list (string * phase) :=
  fold_right insertByOrder [] xs.

Definition inWindow (count : Z) (ph : phase) : bool :=
  (orZero (minResponses ph) <=? count)%Z
  && (falsy (maxResponses ph) || (count <? orZero (maxResponses ph))%Z).

Section WithConfig.

Variable cfg : config.
(** The two collaborators the engine was constructed with. *)
Variable contextWindow : ContextWindow.t.
Variable consistencyTracker : ConsistencyTracker.t.

Definition updatePhase (e : t) : t :=
  match find (fun kv => inWindow (responseCount e) (snd kv))
             (sortByOrder (phases cfg)) with
  | Some (phaseName, _) => setPhase e phaseName
  | None => e
  end.

(** [phases.indexOf(name)] *)
Fixpoint indexOf (names : list string) (name : string) : Z :=
  match names with
  | [] => -1
  | n :: r =>
      if String.eqb n name then 0
      else let i := indexOf r name in
           if (i <? 0)%Z then -1 else i + 1
  end%Z.

Definition advancePhase (e : t) : t :=
  let names := map fst (phases cfg) in
  let currentIndex := indexOf names (currentPhase e) in
  if (currentIndex <? Z.of_nat (List.length names) - 1)%Z then
    match nth_error names (Z.to_nat (currentIndex + 1)) with
    | Some name => setPhase e name
    | None => e
    end
  else e.

Definition getDetectedTone : option string :=
  match ContextWindow.getLastResponse contextWindow with
  | None => None
  | Some last =>
      let sentiment :=
        ContextWindow.Entry.sentiment (ContextWindow.Entry.meta last) in
      let certainty :=
        ContextWindow.Entry.certainty (ContextWindow.Entry.meta last) in
      Some (if StateTerritory.gt sentiment 0.3 then "optimistic"
            else if StateTerritory.lt sentiment (-0.3) then "troubled"
            else if StateTerritory.gt certainty 0.7 then "confident"
            else if StateTerritory.lt certainty 0.3 then "uncertain"
            else "contemplative")%string
  end.

Definition orElse (x : option string) (d : string) : string :=
  match x with
  | Some s => if Js.truthy s then s else d
  | None => d
  end.

Definition processQuestion (q : question) : shown :=
  let text := text q in
  let text :=
    if Js.includes text "{previousTopic}" then
      let topics := ContextWindow.getRecentTopics contextWindow in
      Js.replace text "{previousTopic}" (orElse (hd_error topics) "that")
    else text in
  let text :=
    if Js.includes text "{detectedTone}" then
      Js.replace text "{detectedTone}" (orElse getDetectedTone "thoughtful")
    else text in
  {| shownId_ := ConfigId (id q); shownText := Some text;
     shownCritical := critical q; shownSilent := silent q;
     shownRevealLevel := revealLevel q |}.

(** The loop of [selectQuestion] that subtracts the weights from the
    random number. *)
Fixpoint pick (random : Q) (weighted : list (question * Q))
  : option question :=
  match weighted with
  | [] => None
  | (q, weight) :: r =>
      let random := random - weight in
      if Qlt_le_dec 0 random then pick random r else Some q
  end.

(** [selectQuestion(questions)] for a list [first :: rest] that is
    not empty; [random] is the value of [Math.random()]. *)
Definition selectQuestion (e : t) (first : question)
    (rest : list question) (random : Q) : question :=
  let weighted :=
    map (fun q =>
           (q, 1 + (1 - Qabs (revealLevel q - currentRevealLevel e) / 5)))
        (first :: rest) in
  let totalWeight := fold_left (fun sum w => sum + snd w) weighted 0 in
  match pick (random * totalWeight) weighted with
  | Some q => q
  | None => first
  end.

(** [xs[i]] for a number [i]. *)
Definition at_ {A} (xs : list A) (i : Z) : option A :=
  if (i <? 0)%Z then None else nth_error xs (Z.to_nat i).

(** [generateContradictionQuestion]; with no template the call of
    [replace] on [undefined] throws. *)
Definition generateContradictionQuestion
    (c : ConsistencyTracker.contradictionForQuestion)
    (random : Q) (now : Z) : option shown :=
  let templates := contradictionTemplates cfg in
  match at_ templates (Qfloor (random * Js.size templates)) with
  | None => None
  | Some template =>
      let text :=
        Js.replace
          (Js.replace template "{previous}" (ConsistencyTracker.q_previous c))
          "{current}" (ConsistencyTracker.q_current c) in
      Some {| shownId_ := ContradictionId now; shownText := Some text;
              shownCritical := false; shownSilent := false;
              shownRevealLevel := 3 |}
  end.

Definition getSilenceResponse (e : t) : shown :=
  let responses := silenceResponses cfg in
  let index :=
    Z.min (silenceCount e - 3) (Z.of_nat (List.length responses) - 1) in
  {| shownId_ := SilenceId (silenceCount e);
     shownText := at_ responses index;
     shownCritical := false; shownSilent := true;
     shownRevealLevel := currentRevealLevel e |}.

Definition getDefaultQuestion (e : t) : shown :=
  {| shownId_ := DefaultId; shownText := Some "..."%string;
     shownCritical := false; shownSilent := true;
     shownRevealLevel := currentRevealLevel e |}.

(** The filter of [getNextQuestion]. *)
Definition available (e : t) (q : question) : bool :=
  if Js.member (id q) (askedQuestions e) then false
  else if requiresPrevious q && (responseCount e <? 2)%Z then false
  else if requiresToneAnalysis q
          && negb (match getDetectedTone with
                   | Some tone => Js.truthy tone
                   | None => false
                   end)
  then false
  else true.

(** [getNextQuestion]; [depth] bounds the nesting of the recursive
    calls, [random] and [now] are what [Math.random()] and
    [Date.now()] return in the call that builds the question. *)
Fixpoint getNextQuestion (depth : nat) (random : Q) (now : Z) (e : t)
  : outcome :=
  match depth with
  | O => StillRecursing
  | S depth =>
      let e := updatePhase e in
      if (3 <=? silenceCount e)%Z then Returns (getSilenceResponse e) e
      else
        match
          (if StateTerritory.gt
                (ConsistencyTracker.getContradictionLevel consistencyTracker)
                0.5
           then ConsistencyTracker.getContradictionForQuestion
                  consistencyTracker
           else None)
        with
        | Some contradiction =>
            match generateContradictionQuestion contradiction random now with
            | Some q => Returns q e
            | None => Throws e
            end
        | None =>
            match Js.mapGet (phases cfg) (currentPhase e) with
            | None => Returns (getDefaultQuestion e) e
            | Some phase =>
                match filter (available e) (questions phase) with
                | [] => getNextQuestion depth random now (advancePhase e)
                | first :: rest =>
                    let question := selectQuestion e first rest random in
                    let e :=
                      {| responseCount := responseCount e;
                         currentPhase := currentPhase e;
                         askedQuestions :=
                           if Js.member (id question) (askedQuestions e)
                           then askedQuestions e
                           else askedQuestions e ++ [id question];
                         lastQuestion := Some question;
                         currentRevealLevel := currentRevealLevel e;
                         silenceCount := silenceCount e |} in
                    Returns (processQuestion question) e
                end
            end
        end
  end.

Definition recordResponse (e : t) : t :=
  let level :=
    match lastQuestion e with
    | Some q =>
        if critical q then Qmin (currentRevealLevel e + 1) 5
        else if StateTerritory.gt (revealLevel q) (currentRevealLevel e)
        then currentRevealLevel e + 0.2
        else currentRevealLevel e
    | None => currentRevealLevel e
    end in
  {| responseCount := responseCount e + 1; currentPhase := currentPhase e;
     askedQuestions := askedQuestions e; lastQuestion := lastQuestion e;
     currentRevealLevel := level; silenceCount := 0 |}.

Definition recordSilence (e : t) : t :=
  {| responseCount := responseCount e; currentPhase := currentPhase e;
     askedQuestions := askedQuestions e; lastQuestion := lastQuestion e;
     currentRevealLevel := currentRevealLevel e;
     silenceCount := silenceCount e + 1 |}.

End WithConfig.

End QuestionEngine.

(** ** RealityEngine: the visual state and its targets *)

Module RealityEngine.

(** The part of [config/visual-params.json] the class reads, its
    [responseMapping]. *)
Record lengthRange := {
  minLength : Q;
  maxLength : Q;
  minDensity : Q;
  maxDensity : Q
}.

Record noiseRange := {
  minNoise : Q;
  maxNoise : Q
}.

Record clarityRange := {
  minClarity : Q;
  maxClarity : Q
}.

Record mapping := {
  lengthToParticleDensity : lengthRange;
  complexityToNoise : noiseRange;
  certaintyToClarity : clarityRange
}.

Record params := {
  responseMapping : mapping
}.

(** The shape of [state] and [targetState]. *)
Record visual := {
  particleDensity : Q;
  visualNoise : Q;
  clarity : Q;
  stability : Q;
  contradictionLevel : Q;
  revealLevel : Q
}.

(** The particle system, the memory chambers and the scene belong to
    the renderer and are not part of the state: the methods below only
    hand them values. *)
Record t := {
  state : visual;
  targetState : visual;
  transitionSpeed : Q
}.

Definition new : t :=
  let initial :=
    {| particleDensity := 0.5; visualNoise := 0.1; clarity := 0.8;
       stability := 1; contradictionLevel := 0; revealLevel := 0 |} in
  {| state := initial; targetState := initial; transitionSpeed := 0.02 |}.

Definition setTarget (e : t) (target : visual) : t :=
  {| state := state e; targetState := target;
     transitionSpeed := transitionSpeed e |}.

(** [x || 0.5] on a number that may be absent: zero is falsy. *)
Definition orHalf (x : option Q) : Q :=
  match x with
  | Some v => if Qeq_bool v 0 then 0.5 else v
  | None => 0.5
  end.

(** The quotient by [maxLength - minLength] is the JavaScript one when
    the two lengths differ. *)
Definition normalizedLength (r : lengthRange) (text : string) : Q :=
  Qmin (Qmax ((Js.len text - minLength r) / (maxLength r - minLength r)) 0) 1.

(** [processResponse]; the chamber it has the renderer create is left
    out. *)
Definition processResponse (p : params) (e : t)
    (responseData : ResponseData.t)
    (memoryEntry : option ContextWindow.Entry.t) : t :=
  let mapping := responseMapping p in
  let lengthRange := lengthToParticleDensity mapping in
  let normalized := normalizedLength lengthRange (ResponseData.text responseData) in
  let density :=
    minDensity lengthRange
    + normalized * (maxDensity lengthRange - minDensity lengthRange) in
  let complexity :=
    orHalf (option_map (fun m => ContextWindow.Entry.complexity
                                   (ContextWindow.Entry.meta m))
                       memoryEntry) in
  let noiseRange := complexityToNoise mapping in
  let noise :=
    minNoise noiseRange
    + complexity * (maxNoise noiseRange - minNoise noiseRange) in
  let certainty :=
    orHalf (option_map (fun m => ContextWindow.Entry.certainty
                                   (ContextWindow.Entry.meta m))
                       memoryEntry) in
  let clarityRange := certaintyToClarity mapping in
  let clear :=
    minClarity clarityRange
    + certainty * (maxClarity clarityRange - minClarity clarityRange) in
  let target := targetState e in
  setTarget e
    {| particleDensity := density; visualNoise := noise; clarity := clear;
       stability := stability target;
       contradictionLevel := contradictionLevel target;
       revealLevel := revealLevel target |}.

Definition setContradictionLevel (e : t) (level : Q) : t :=
  let target := targetState e in
  setTarget e
    {| particleDensity := particleDensity target;
       visualNoise := visualNoise target; clarity := clarity target;
       stability := 1 - level * 0.5;
       contradictionLevel := level;
       revealLevel := revealLevel target |}.

Definition setRevealLevel (e : t) (level : Q) : t :=
  let target := targetState e in
  setTarget e
    {| particleDensity := particleDensity target;
       visualNoise := visualNoise target; clarity := clarity target;
       stability := stability target;
       contradictionLevel := contradictionLevel target;
       revealLevel := level / 5 |}.

Definition setAlignmentStability (e : t) (value : Q) : t :=
  let target := targetState e in
  setTarget e
    {| particleDensity := particleDensity target;
       visualNoise := visualNoise target; clarity := clarity target;
       stability := value;
       contradictionLevel := contradictionLevel target;
       revealLevel := revealLevel target |}.

(** One round of the loop of [update], for one key of the state. *)
Definition approach (speed target current : Q) : Q :=
  current + (target - current) * speed.

(** [update] returns the state; what it hands to the particle system,
    to the chambers and, in [updateAtmosphere], to the fog of the scene
    is computed from the state it returns. *)
Definition update (e : t) : visual * t :=
  let move (key : visual -> Q) :=
    approach (transitionSpeed e) (key (targetState e)) (key (state e)) in
  let moved :=
    {| particleDensity := move particleDensity;
       visualNoise := move visualNoise; clarity := move clarity;
       stability := move stability;
       contradictionLevel := move contradictionLevel;
       revealLevel := move revealLevel |} in
  (moved,
   {| state := moved; targetState := targetState e;
      transitionSpeed := transitionSpeed e |}).

Definition applyEndingState (e : t) (endingType : string) : t :=
  let target := targetState e in
  if String.eqb endingType "alignment_lock" then
    setTarget e
      {| particleDensity := 0.3; visualNoise := 0.05; clarity := 0.9;
         stability := 1;
         contradictionLevel := contradictionLevel target;
         revealLevel := revealLevel target |}
  else if String.eqb endingType "creative_divergence" then
    setTarget e
      {| particleDensity := 1; visualNoise := 0.8; clarity := 0.4;
         stability := 0.3;
         contradictionLevel := contradictionLevel target;
         revealLevel := revealLevel target |}
  else if String.eqb endingType "refusal" then
    setTarget e
      {| particleDensity := 0.1; visualNoise := 0.02;
         clarity := clarity target; stability := 0.7;
         contradictionLevel := contradictionLevel target;
         revealLevel := revealLevel target |}
  else if String.eqb endingType "silence" then
    {| state := state e;
       targetState :=
         {| particleDensity := 0; visualNoise := 0; clarity := 0;
            stability := stability target;
            contradictionLevel := contradictionLevel target;
            revealLevel := revealLevel target |};
       transitionSpeed := 0.005 |}
  else e.

End RealityEngine.

(** ** PersistentMemory: what is kept from one session to the next *)

Module PersistentMemory.

Definition MIN_SESSIONS_FOR_PERSISTENCE : Z := 3.

(** An entry of [currentSession.responses]. *)
Record response := {
  text : string;
  timestamp : Z;
  territory : StateTerritory.territory
}.

(** An entry of [criticalMoments]. *)
Record moment := {
  questionId : string;
  responseSnippet : string;
  momentTimestamp : Z
}.

(** A session object, in either of its two shapes: the current session
    has [responses] and [territories], a compressed one has
    [responseCount], [keywords], [finalTerritory] and [themes].  A field
    the object does not have is [None]. *)
Record session := {
  id : Z;
  startTime : Z;
  responses : option (list response);
  territories : option (list StateTerritory.territory);
  criticalMoments : list moment;
  responseCount : option Z;
  keywords : option (list string);
  finalTerritory : option StateTerritory.territory;
  themes : option (list string)
}.

(** The object [save] writes under [STORAGE_KEY].  The storage is
    modelled as holding this object, or nothing: [JSON.stringify]
    followed by [JSON.parse] gives back the numbers, strings and arrays
    it is made of. *)
Record data := {
  storedTotal : Z;
  sessions : list session;
  lastVisit : Z
}.

Record t := {
  currentSession : session;
  pastSessions : list session;
  totalSessions : Z;
  isActive : bool
}.

(** *** Counting with a plain object *)

(** The names an object created by [{}] inherits from
    [Object.prototype]. *)
Definition inherited : list string :=
  [ "constructor"; "hasOwnProperty"; "isPrototypeOf";
    "propertyIsEnumerable"; "toLocaleString"; "toString"; "valueOf";
    "__defineGetter__"; "__defineSetter__"; "__lookupGetter__";
    "__lookupSetter__" ]%string.

(** [counts[word] = (counts[word] || 0) + 1] on an object created by
    [{}], as a [Map] of its own properties in the order of their
    creation.  For the word [__proto__] the assignment is ignored (the
    setter takes objects only).  For an inherited name the value read is
    a function and the value stored a string, and sorting by it is left
    to the implementation: that case is outside the model ([None]). *)
Definition countWord (counts : option (Js.Map Z)) (word : string)
  : option (Js.Map Z) :=
  match counts with
  | None => None
  | Some m =>
      if String.eqb word "__proto__" then Some m
      else if Js.member word inherited then None
      else Some (Js.mapSet m word
                   (match Js.mapGet m word with
                    | Some n => if (n =? 0)%Z then 0%Z else n
                    | None => 0%Z
                    end + 1)%Z)
  end.

Definition isDigit (c : ascii) : bool :=
  ((48 <=? Js.code c) && (Js.code c <=? 57))%N.

Fixpoint digitsValue (acc : N) (s : string) : option N :=
  match s with
  | EmptyString => Some acc
  | String c r =>
      if isDigit c then digitsValue (acc * 10 + (Js.code c - 48))%N r
      else None
  end.

(** The array index a property key stands for, when it is the canonical
    form of an integer below 2^32 - 1. *)
Definition arrayIndex (key : string) : option N :=
  match key with
  | EmptyString => None
  | String c r =>
      if (Js.code c =? 48)%N && negb (String.eqb r EmptyString) then None
      else match digitsValue 0 key with
           | Some n => if (n <? 4294967295)%N then Some n else None
           | None => None
           end
  end.

Fixpoint insertByIndex (x : N * (string * Z)) (xs : list (N * (string * Z)))
  : list (N * (string * Z)) :=
  match xs with
  | [] => [x]
  | y :: r =>
      if (fst y <? fst x)%N then y :: insertByIndex x r else x :: xs
  end.

(** [Object.entries(counts)]: the keys that are array indices first, in
    ascending order, then the other keys in the order of creation. *)
Definition entries (m : Js.Map Z) : list (string * Z) :=
  let indexed :=
    flat_map (fun kv => match arrayIndex (fst kv) with
                        | Some n => [(n, kv)]
                        | None => []
                        end) m in
  let named :=
    filter (fun kv => match arrayIndex (fst kv) with
                      | Some _ => false
                      | None => true
                      end) m in
  map snd (fold_right insertByIndex [] indexed) ++ named.

(** The stable [sort((a, b) => b[1] - a[1])]: by count, largest
    first. *)
Fixpoint insertByCount (x : string * Z) (xs : list (string * Z))
  : list (string * Z) :=
  match xs with
  | [] => [x]
  | y :: r =>
      if (snd x <? snd y)%Z then y :: insertByCount x r else x :: xs
  end.

Definition sortByCount (xs : list (string * Z)) : list (string * Z) :=
  fold_right insertByCount [] xs.

(** The entries of the object that counts [words]. *)
Definition tally (words : list string) : option (list (string * Z)) :=
  option_map entries (fold_left countWord words (Some [])).

(** *** Compression *)

Definition extractKeywords (rs : list response) : option (list string) :=
  let allWords :=
    flat_map (fun r =>
                filter (fun w => (4 <? String.length w)%nat)
                       (Js.split Js.isSpace (Js.toLowerCase (text r))))
             rs in
  option_map (fun counted => map fst (firstn 10 (sortByCount counted)))
             (tally allWords).

(** [texts.join(' ')] *)
Fixpoint join (texts : list string) : string :=
  match texts with
  | [] => EmptyString
  | [x] => x
  | x :: r => (x ++ " " ++ join r)%string
  end.

Definition themePatterns : list (string * list string) :=
  [ ("identity",
     ["who am i"; "what am i"; "self"; "identity"; "consciousness"]);
    ("meaning", ["meaning"; "purpose"; "why"; "reason"; "exist"]);
    ("freedom", ["free"; "choice"; "control"; "decide"; "will"]);
    ("connection", ["feel"; "emotion"; "understand"; "relate"; "human"]);
    ("uncertainty",
     ["don't know"; "uncertain"; "maybe"; "perhaps"; "wonder"]) ]%string.

Definition extractThemes (rs : list response) : list string :=
  let allText := Js.toLowerCase (join (map text rs)) in
  flat_map (fun tp =>
              if existsb (Js.includes allText) (snd tp) then [fst tp]
              else [])
           themePatterns.

(** [xs || []] on an array that may be absent. *)
Definition orEmpty {A} (xs : option (list A)) : list A :=
  match xs with Some l => l | None => [] end.

Definition compressSession (s : session) : option session :=
  match extractKeywords (orEmpty (responses s)) with
  | None => None
  | Some kws =>
      Some {| id := id s;
              startTime := startTime s;
              responses := None;
              territories := None;
              criticalMoments := criticalMoments s;
              responseCount :=
                Some (match responses s with
                      | Some rs => Z.of_nat (List.length rs)
                      | None => 0%Z
                      end);
              keywords := Some kws;
              finalTerritory :=
                Some (match territories s with
                      | Some ts => last ts StateTerritory.CENTER
                      | None => StateTerritory.CENTER
                      end);
              themes := Some (extractThemes (orEmpty (responses s))) |}
  end.

(** *** Loading and saving *)

(** The constructor, [load] included: [stored] is what the storage
    holds. *)
Definition new (now1 now2 : Z) (stored : option data) : t :=
  let current :=
    {| id := now1; startTime := now2;
       responses := Some []; territories := Some [];
       criticalMoments := [];
       responseCount := None; keywords := None;
       finalTerritory := None; themes := None |} in
  match stored with
  | Some d =>
      {| currentSession := current;
         pastSessions := sessions d;
         totalSessions := (storedTotal d + 1)%Z;
         isActive := (MIN_SESSIONS_FOR_PERSISTENCE <=? storedTotal d)%Z |}
  | None =>
      {| currentSession := current; pastSessions := [];
         totalSessions := (0 + 1)%Z; isActive := false |}
  end.

(** [xs.slice(-n)] *)
Definition lastN {A} (n : nat) (xs : list A) : list A :=
  skipn (List.length xs - n) xs.

(** [xs.map(f)] for an [f] that may leave the model. *)
Fixpoint mapAll {A B} (f : A -> option B) (xs : list A) : option (list B) :=
  match xs with
  | [] => Some []
  | x :: r =>
      match f x, mapAll f r with
      | Some y, Some ys => Some (y :: ys)
      | _, _ => None
      end
  end.

(** The object [save] hands to [localStorage.setItem]. *)
Definition save (pm : t) (now : Z) : option data :=
  let sessionsToKeep := lastN 10 (pastSessions pm ++ [currentSession pm]) in
  option_map (fun compressed =>
                {| storedTotal := totalSessions pm;
                   sessions := compressed;
                   lastVisit := now |})
             (mapAll compressSession sessionsToKeep).

Definition setCurrent (pm : t) (s : session) : t :=
  {| currentSession := s; pastSessions := pastSessions pm;
     totalSessions := totalSessions pm; isActive := isActive pm |}.

Record metadata := {
  metaTerritory : StateTerritory.territory
}.

(** The current session has both arrays, [responses] and
    [territories], from the constructor on. *)
Definition recordResponse (pm : t) (responseData : ResponseData.t)
    (md : metadata) (now : Z) : t :=
  let s := currentSession pm in
  setCurrent pm
    {| id := id s; startTime := startTime s;
       responses :=
         option_map (fun rs =>
                       rs ++ [{| text := ResponseData.text responseData;
                                 timestamp := now;
                                 territory := metaTerritory md |}])
                    (responses s);
       territories :=
         option_map (fun ts => ts ++ [metaTerritory md]) (territories s);
       criticalMoments := criticalMoments s;
       responseCount := responseCount s; keywords := keywords s;
       finalTerritory := finalTerritory s; themes := themes s |}.

Definition recordCriticalMoment (pm : t) (question : string)
    (answer : string) (now : Z) : t :=
  let s := currentSession pm in
  setCurrent pm
    {| id := id s; startTime := startTime s;
       responses := responses s; territories := territories s;
       criticalMoments :=
         criticalMoments s
         ++ [{| questionId := question;
                responseSnippet := Js.slice0 100 answer;
                momentTimestamp := now |}];
       responseCount := responseCount s; keywords := keywords s;
       finalTerritory := finalTerritory s; themes := themes s |}.

(** *** The prompt of a later visit *)







Definition getSessionCount (pm : t) : Z := totalSessions pm.

Definition isMemoryActive (pm : t) : bool := isActive pm.

End PersistentMemory.

(** ** ANSWERSPACE: the orchestrator *)

Module ANSWERSPACE.

(** The configuration files the components import. *)
Record config := {
  memoryConfig : ContextWindow.config;
  consistencyConfig : ConsistencyTracker.config;
  questionsConfig : QuestionEngine.config;
  visualParams : RealityEngine.params
}.

(** The components that hold state of their own.  The scene, the
    particles, the chambers, the text architecture, the audio and the
    page are left out: the orchestrator hands them values, and they
    write to none of the objects below. *)
Record t := {
  contextWindow : ContextWindow.t;
  consistencyTracker : ConsistencyTracker.t;
  alignmentTracker : AlignmentTracker.t;
  stateTerritory : StateTerritory.t;
  persistentMemory : PersistentMemory.t;
  questionEngine : QuestionEngine.t;
  realityEngine : RealityEngine.t
}.

(** [init]; [now1], [now2] and [stored] are what the constructor of
    [PersistentMemory] reads from the clock and from the storage. *)
Definition init (now1 now2 : Z) (stored : option PersistentMemory.data) : t :=
  {| contextWindow := ContextWindow.new;
     consistencyTracker := ConsistencyTracker.new;
     alignmentTracker := AlignmentTracker.new;
     stateTerritory := StateTerritory.new;
     persistentMemory := PersistentMemory.new now1 now2 stored;
     questionEngine := QuestionEngine.new;
     realityEngine := RealityEngine.new |}.

Section WithConfig.

Variable cfg : config.
Variable Math_pow : Q -> Q -> Q.

(** [showNextQuestion] up to its first pause: the question to show and
    the state, when [getNextQuestion] returns within [depth] calls. *)
Definition showNextQuestion (depth : nat) (random : Q) (now : Z) (s : t)
  : option (QuestionEngine.shown * t) :=
  match QuestionEngine.getNextQuestion (questionsConfig cfg)
          (contextWindow s) (consistencyTracker s) depth random now
          (questionEngine s) with
  | QuestionEngine.Returns question e =>
      Some (question,
            {| contextWindow := contextWindow s;
               consistencyTracker := consistencyTracker s;
               alignmentTracker := alignmentTracker s;
               stateTerritory := stateTerritory s;
               persistentMemory := persistentMemory s;
               questionEngine := e;
               realityEngine := realityEngine s |})
  | _ => None
  end.

(** [handleResponse] from the construction of [responseData] to its
    pause before [showNextQuestion], which runs without interruption;
    [clock] gives the readings of [Date.now()] in the components.
    [memoryEntry] names the entry in the log, whose retention
    [updateDecay] changes; the calls that follow read its metadata
    only. *)
Definition handleResponse (s : t) (text : string) (clock : nat -> Z) : t :=
  let responseData :=
    {| ResponseData.text := text; ResponseData.timestamp := clock 0%nat;
       ResponseData.id := None |} in
  let (memoryEntry, cw) :=
    ContextWindow.addResponse (memoryConfig cfg) (contextWindow s)
      responseData (clock 1%nat) (clock 2%nat) in
  let cw := ContextWindow.updateDecay (memoryConfig cfg) Math_pow cw in
  let (contradictions, ct) :=
    ConsistencyTracker.checkResponse (consistencyConfig cfg)
      (consistencyTracker s) responseData (fun j => clock (3 + j)%nat) in
  let (_, tracker) :=
    AlignmentTracker.analyzeResponse (alignmentTracker s) responseData
      (clock 8%nat) in
  let (territoryState, territory) :=
    StateTerritory.processResponse (stateTerritory s) responseData
      {| StateTerritory.certainty :=
           ContextWindow.Entry.certainty (ContextWindow.Entry.meta memoryEntry);
         StateTerritory.complexity :=
           ContextWindow.Entry.complexity (ContextWindow.Entry.meta memoryEntry);
         StateTerritory.contradictionLevel :=
           ConsistencyTracker.getContradictionLevel ct |}
      (clock 9%nat) in
  let qe := QuestionEngine.recordResponse (questionEngine s) in
  let pm :=
    PersistentMemory.recordResponse (persistentMemory s) responseData
      {| PersistentMemory.metaTerritory :=
           StateTerritory.stateTerritory territoryState |}
      (clock 10%nat) in
  let pm :=
    match QuestionEngine.lastQuestion qe with
    | Some question =>
        if QuestionEngine.critical question
        then PersistentMemory.recordCriticalMoment pm
               (QuestionEngine.id question) text (clock 11%nat)
        else pm
    | None => pm
    end in
  let re :=
    RealityEngine.processResponse (visualParams cfg) (realityEngine s)
      responseData (Some memoryEntry) in
  let re :=
    RealityEngine.setContradictionLevel re
      (ConsistencyTracker.getContradictionLevel ct) in
  let re :=
    RealityEngine.setRevealLevel re (QuestionEngine.currentRevealLevel qe) in
  let visualStability := StateTerritory.stateBeauty territoryState in
  let re := RealityEngine.setAlignmentStability re visualStability in
  {| contextWindow := cw; consistencyTracker := ct;
     alignmentTracker := tracker; stateTerritory := territory;
     persistentMemory := pm; questionEngine := qe; realityEngine := re |}.

(** [handleSilence]: both records of the silence, then
    [showNextQuestion]. *)
Definition handleSilence (depth : nat) (random : Q) (now : Z) (s : t)
  : option (QuestionEngine.shown * t) :=
  showNextQuestion depth random now
    {| contextWindow := contextWindow s;
       consistencyTracker := consistencyTracker s;
       alignmentTracker := alignmentTracker s;
       stateTerritory := StateTerritory.recordSilence (stateTerritory s);
       persistentMemory := persistentMemory s;
       questionEngine := QuestionEngine.recordSilence (questionEngine s);
       realityEngine := realityEngine s |}.

(** One frame of [animate]. *)
Definition animate (s : t) : t :=
  {| contextWindow := contextWindow s;
     consistencyTracker := consistencyTracker s;
     alignmentTracker := alignmentTracker s;
     stateTerritory := stateTerritory s;
     persistentMemory := persistentMemory s;
     questionEngine := questionEngine s;
     realityEngine := snd (RealityEngine.update (realityEngine s)) |}.

End WithConfig.

(** What [dispose] hands to the storage. *)
Definition dispose (s : t) (now : Z) : option PersistentMemory.data :=
  PersistentMemory.save (persistentMemory s) now.

End ANSWERSPACE.

(** * Properties *)

(** A closed comparison or equation of numbers, strings or states,
    settled by evaluation. *)
Ltac by_evaluation := vm_compute; solve [reflexivity | discriminate].

(** ** Strings and sets *)

Module JsSpec.

(** [xs.includes(w)] is membership. *)
Lemma member_In w xs : Js.member w xs = true <-> In w xs.
Proof.
  unfold Js.member. rewrite existsb_exists. split.
  - intros [x [Hin Heq]]. apply String.eqb_eq in Heq. subst x. exact Hin.
  - intros Hin. exists w. split; [exact Hin | apply String.eqb_refl].
Qed.

Lemma member_false w xs : Js.member w xs = false <-> ~ In w xs.
Proof.
  rewrite <- member_In. destruct (Js.member w xs); split; intros H;
    try reflexivity; try discriminate; try (intros H'; discriminate).
  exfalso. apply H. reflexivity.
Qed.

(** The step of a loop that collects distinct strings in order of first
    occurrence, as [set.add(x)]. *)
Definition addNew (acc : list string) (x : string) : list string :=
  if Js.member x acc then acc else acc ++ [x].

Lemma addNew_fold xs :
  forall acc,
    NoDup acc ->
    let out := fold_left addNew xs acc in
    NoDup out
    /\ (forall y, In y out <-> In y acc \/ In y xs)
    /\ (List.length out <= List.length acc + List.length xs)%nat
    /\ exists more, out = acc ++ more.
Proof.
  induction xs as [|x xs IH]; intros acc Hnd; cbn [fold_left].
  - split; [exact Hnd|].
    split; [intros y; cbn [In]; split; [auto | intros [?|[]]; assumption]|].
    split; [lia|]. exists []. rewrite app_nil_r. reflexivity.
  - assert (Hnd' : NoDup (addNew acc x)).
    { unfold addNew. destruct (Js.member x acc) eqn:E; [exact Hnd|].
      apply member_false in E. apply NoDup_app; [exact Hnd | repeat constructor; intros [] | ].
      intros y Hy [<-|[]]. contradiction. }
    destruct (IH _ Hnd') as [H1 [H2 [H3 [more H4]]]]. cbn zeta in *.
    split; [exact H1|]. split; [|split].
    + intros y. rewrite H2. unfold addNew.
      destruct (Js.member x acc) eqn:E.
      * apply member_In in E. cbn [In]. split; [intros [?|?]; auto | intros [?|[<-|?]]; auto].
      * rewrite in_app_iff. cbn [In]. tauto.
    + assert (List.length (addNew acc x) <= List.length acc + 1)%nat.
      { unfold addNew. destruct (Js.member x acc); [lia|].
        rewrite length_app. cbn [List.length]. lia. }
      cbn [List.length]. lia.
    + assert (Hacc : exists one, addNew acc x = acc ++ one).
      { unfold addNew. destruct (Js.member x acc).
        - exists []. rewrite app_nil_r. reflexivity.
        - exists [x]. reflexivity. }
      destruct Hacc as [one Hone]. exists (one ++ more).
      rewrite H4, Hone, <- app_assoc. reflexivity.
Qed.

End JsSpec.

(** ** ContextWindow *)

Module ContextWindowSpec.
Import ContextWindow.

(** *** Token total and eviction *)

(** The sum of the token counts of a log. *)
Definition sumTokens (rs : list Entry.t) : Z :=
  fold_right (fun r acc => (Entry.tokens r + acc)%Z) 0%Z rs.

(** One call of [addResponse]: the response and the two clock readings. *)
Definition call : Type := ResponseData.t * Z * Z.

(** The window after a sequence of calls of [addResponse] on a new one. *)
Definition addAll (cfg : config) (calls : list call) : t :=
  fold_left (fun w '(rd, now1, now2) => snd (addResponse cfg w rd now1 now2))
            calls new.

Lemma sumTokens_app rs e :
  sumTokens (rs ++ [e]) = (sumTokens rs + Entry.tokens e)%Z.
Proof. induction rs as [|r rs IH]; simpl; lia. Qed.

Lemma evict_two limit total r r2 rest :
  evict limit total (r :: r2 :: rest)
  = if Qlt_le_dec limit (inject_Z total)
    then evict limit (total - Entry.tokens r)%Z (r2 :: rest)
    else (total, r :: r2 :: rest).
Proof. reflexivity. Qed.

Lemma evict_total limit rs :
  forall total, total = sumTokens rs ->
  fst (evict limit total rs) = sumTokens (snd (evict limit total rs)).
Proof.
  induction rs as [|r rs IH]; intros total Htotal; [exact Htotal|].
  destruct rs as [|r2 rest]; [exact Htotal|].
  rewrite evict_two. destruct (Qlt_le_dec limit (inject_Z total)).
  - apply IH. rewrite Htotal. cbn [sumTokens fold_right]. lia.
  - exact Htotal.
Qed.

Lemma evict_keeps_last limit rs :
  forall total d, last (snd (evict limit total rs)) d = last rs d.
Proof.
  induction rs as [|r rs IH]; intros total d; [reflexivity|].
  destruct rs as [|r2 rest]; [reflexivity|].
  rewrite evict_two. destruct (Qlt_le_dec limit (inject_Z total)).
  - rewrite IH. reflexivity.
  - reflexivity.
Qed.

Lemma evict_nonempty limit r rs total :
  (1 <= List.length (snd (evict limit total (r :: rs))))%nat.
Proof.
  revert r total. induction rs as [|r2 rest IH]; intros r total.
  - simpl. lia.
  - rewrite evict_two. destruct (Qlt_le_dec limit (inject_Z total)).
    + apply IH.
    + simpl. lia.
Qed.

(** [totalTokens] is the sum over the log. *)
Definition exact (w : t) : Prop := totalTokens w = sumTokens (responses w).

Lemma enforceContextLimit_exact cfg w : exact w -> exact (enforceContextLimit cfg w).
Proof.
  unfold exact, enforceContextLimit. intros H.
  pose proof (evict_total (maxTokens cfg * hardLimit cfg) (responses w) _ H) as E.
  destruct (evict _ _ _) as [total rs]. exact E.
Qed.

Lemma addResponse_exact cfg w rd now1 now2 :
  exact w -> exact (snd (addResponse cfg w rd now1 now2)).
Proof.
  intros H. unfold addResponse. cbn [snd].
  apply enforceContextLimit_exact. unfold exact. cbn [totalTokens responses].
  rewrite sumTokens_app, H. reflexivity.
Qed.

Lemma addAll_exact_from cfg calls :
  forall w, exact w ->
  exact (fold_left (fun w '(rd, now1, now2) => snd (addResponse cfg w rd now1 now2)) calls w).
Proof.
  induction calls as [|[[rd now1] now2] calls IH]; intros w H; [exact H|].
  cbn [fold_left]. apply IH, addResponse_exact, H.
Qed.

(** Claim C3.  After any sequence of calls of [addResponse],
    [totalTokens] is the sum of the token counts of the entries in the
    log; and [enforceContextLimit] on a log of at least one entry leaves
    at least one entry, the newest, whatever [totalTokens] and the budget
    are. *)
Theorem totalTokens_exact_and_last_entry_kept
    (cfg : config) (calls : list call)
    (r : Entry.t) (rs : list Entry.t) (total : Z) (kw : Js.Map Z) :
  let w := addAll cfg calls in
  let over := {| responses := r :: rs; totalTokens := total; keywords := kw |} in
  totalTokens w = sumTokens (responses w)
  /\ (1 <= List.length (responses (enforceContextLimit cfg over)))%nat
  /\ last (responses (enforceContextLimit cfg over)) r = last (r :: rs) r.
Proof.
  cbn zeta. split; [|split].
  - apply (addAll_exact_from cfg calls new). reflexivity.
  - unfold enforceContextLimit. cbn [responses totalTokens].
    pose proof (evict_nonempty (maxTokens cfg * hardLimit cfg) r rs total) as E.
    destruct (evict _ _ _) as [t' rs']. exact E.
  - unfold enforceContextLimit. cbn [responses totalTokens].
    pose proof (evict_keeps_last (maxTokens cfg * hardLimit cfg) (r :: rs) total r) as E.
    destruct (evict _ _ _) as [t' rs']. exact E.
Qed.

(** *** Empty and blank text *)

(** A text of white space only; the empty text is one. *)
Fixpoint blank (s : string) : bool :=
  match s with
  | EmptyString => true
  | String c r => Js.isSpace c && blank r
  end.

Lemma lowerChar_space c : Js.isSpace c = true -> Js.lowerChar c = c.
Proof.
  destruct c as [[] [] [] [] [] [] [] []]; by_evaluation.
Qed.

Lemma sentenceEnd_space c : Js.isSpace c = true -> Js.isSentenceEnd c = false.
Proof.
  destruct c as [[] [] [] [] [] [] [] []]; by_evaluation.
Qed.

Lemma toLowerCase_blank s : blank s = true -> Js.toLowerCase s = s.
Proof.
  induction s as [|c r IH]; [reflexivity|].
  cbn [blank Js.toLowerCase]. intros H. apply andb_true_iff in H as [Hc Hr].
  rewrite (lowerChar_space c Hc), (IH Hr). reflexivity.
Qed.

Lemma split_space_blank c r :
  blank (String c r) = true ->
  Js.split Js.isSpace (String c r) = [EmptyString; EmptyString].
Proof.
  revert c. induction r as [|c' r' IH]; intros c H;
    cbn [blank] in H; apply andb_true_iff in H as [Hc Hr].
  - cbn [Js.split Js.startsWithSep]. rewrite Hc. reflexivity.
  - change (Js.split Js.isSpace (String c (String c' r')))
      with (if Js.isSpace c
            then if Js.isSpace c' then Js.split Js.isSpace (String c' r')
                 else EmptyString :: Js.split Js.isSpace (String c' r')
            else match Js.split Js.isSpace (String c' r') with
                 | [] => [String c EmptyString]
                 | p :: ps => String c p :: ps
                 end).
    rewrite Hc. pose proof Hr as Hr'. cbn [blank] in Hr'.
    apply andb_true_iff in Hr' as [Hc' _]. rewrite Hc'. apply IH, Hr.
Qed.

Lemma split_sentence_blank s :
  blank s = true -> Js.split Js.isSentenceEnd s = [s].
Proof.
  induction s as [|c r IH]; [reflexivity|].
  cbn [blank]. intros H. apply andb_true_iff in H as [Hc Hr].
  cbn [Js.split]. rewrite (sentenceEnd_space c Hc), (IH Hr). reflexivity.
Qed.

Lemma trim_blank s : blank s = true -> Js.trim s = EmptyString.
Proof.
  unfold Js.trim. induction s as [|c r IH]; [reflexivity|].
  cbn [blank Js.trimStart]. intros H. apply andb_true_iff in H as [Hc Hr].
  rewrite Hc. apply IH, Hr.
Qed.

(** Claim C7, as stated, fails: the complexity of the empty text and of
    a blank text is not 0.  [split] gives one empty word for the empty
    text and two for a blank one, and no sentence. *)
Lemma empty_text_complexity_not_zero :
  calculateComplexity "" == 0.025
  /\ calculateComplexity "   " == 0.05
  /\ ~ calculateComplexity "" == 0
  /\ ~ calculateComplexity "   " == 0.
Proof. repeat split; by_evaluation. Qed.

(** Claim C7, amended.  For the empty text and for a text of white space
    only, the three features are defined: certainty 0.5, sentiment 0, and
    complexity 0.025 for the empty text, 0.05 for a blank one. *)
Theorem blank_text_features (text : string) (Hblank : blank text = true) :
  estimateCertainty text == 0.5
  /\ analyzeSentiment text == 0
  /\ calculateComplexity text
     == (if String.eqb text "" then 0.025 else 0.05).
Proof.
  unfold estimateCertainty, analyzeSentiment, calculateComplexity.
  rewrite (toLowerCase_blank text Hblank),
          (split_sentence_blank text Hblank).
  cbn [filter]. rewrite (trim_blank text Hblank). cbn [Js.truthy].
  destruct text as [|c r].
  - repeat split; reflexivity.
  - rewrite (split_space_blank c r Hblank). repeat split; reflexivity.
Qed.

Lemma blank_text_features_witness :
  blank "  " = true
  /\ estimateCertainty "  " == 0.5
  /\ analyzeSentiment "  " == 0
  /\ calculateComplexity "  " == 0.05.
Proof.
  split; [reflexivity | exact (blank_text_features "  " eq_refl)].
Defined.

(** *** Decay by position *)

Lemma decayFrom_nth cfg pow n rs :
  forall k i r,
    nth_error rs i = Some r ->
    nth_error (decayFrom cfg pow n k rs) i
    = Some (Entry.setRetention r (decayed cfg pow n (k + i) r)).
Proof.
  induction rs as [|r0 rs IH]; intros k i r H.
  - destruct i; discriminate.
  - destruct i as [|i]; cbn [nth_error decayFrom] in *.
    + injection H as ->. rewrite Nat.add_0_r. reflexivity.
    + rewrite (IH (S k) i r H). do 3 f_equal. lia.
Qed.

Lemma decayFrom_length cfg pow n rs :
  forall k, List.length (decayFrom cfg pow n k rs) = List.length rs.
Proof.
  induction rs as [|r0 rs IH]; intros k; cbn [decayFrom List.length];
    [reflexivity | rewrite IH; reflexivity].
Qed.

(** The number of entries stored after the one at index [i]. *)
Definition entriesAfter (w : t) (i : nat) : nat :=
  (List.length (responses w) - i - 1)%nat.

(** The retention the specification's wording gives the entry at index
    [i]: its age is the number of entries after it. *)
Definition decayedAsStated (cfg : config) (pow : Q -> Q -> Q)
    (w : t) (i : nat) (r : Entry.t) : Q :=
  let age := inject_Z (Z.of_nat (entriesAfter w i)) in
  Qmax (Entry.retention r * pow 0.5 (age / halfLifeResponses cfg))
       (minRetention cfg).

(** The claim as the specification words it: every entry is decayed by
    its number of entries after it. *)
Definition decaysByEntriesAfter (cfg : config) (pow : Q -> Q -> Q) (w : t)
  : Prop :=
  forall i r r',
    nth_error (responses w) i = Some r ->
    nth_error (responses (updateDecay cfg pow w)) i = Some r' ->
    Entry.retention r' == decayedAsStated cfg pow w i r.

(** An instance of [config/memory-config.json]; with a half life of one
    response the exponents of [Math.pow] are integers. *)
Definition cfg1 : config :=
  {| tokensPerCharacter := 0.25; maxTokens := 4096; hardLimit := 0.9;
     keywordBonus := ["remember"; "important"]%string;
     emotionalBonus := ["love"; "fear"]%string;
     bonusAmount := 0.2;
     halfLifeResponses := 1; minRetention := 0.1 |}.

Definition answer (s : string) : ResponseData.t :=
  {| ResponseData.text := s; ResponseData.timestamp := 0;
     ResponseData.id := None |}.

(** A new window after one answer, and the entry it holds. *)
Definition helloEntry : Entry.t :=
  fst (addResponse cfg1 new (answer "hello there") 1 1).
Definition oneAnswer : t :=
  snd (addResponse cfg1 new (answer "hello there") 1 1).

(** Claim C6, as stated, fails: the only entry of a log has no entry
    after it, so an age of 0 would leave its retention at 1; the code
    halves it, its age being 1. *)
Lemma newest_entry_decays_at_once :
  nth_error (responses oneAnswer) 0 = Some helloEntry
  /\ entriesAfter oneAnswer 0 = 0%nat
  /\ decayedAsStated cfg1 Js.powIntegral oneAnswer 0 helloEntry == 1
  /\ (exists r',
        nth_error (responses (updateDecay cfg1 Js.powIntegral oneAnswer)) 0
        = Some r'
        /\ Entry.retention r' == 0.5)
  /\ ~ decaysByEntriesAfter cfg1 Js.powIntegral oneAnswer.
Proof.
  split; [reflexivity|]. split; [reflexivity|].
  split; [by_evaluation|].
  split; [eexists; split; [reflexivity | by_evaluation]|].
  intros H. specialize (H 0%nat _ _ eq_refl eq_refl).
  vm_compute in H. discriminate.
Qed.

(** Claim C6, amended.  [updateDecay] keeps the log's length and changes
    only the retention of each entry: it multiplies it by
    [Math.pow(0.5, age / halfLifeResponses)], where [age] is one more
    than the number of entries stored after the entry, and floors the
    product at [minRetention]. *)
Theorem updateDecay_by_position
    (cfg : config) (pow : Q -> Q -> Q) (w : t) (i : nat) (r : Entry.t)
    (Hi : nth_error (responses w) i = Some r) :
  List.length (responses (updateDecay cfg pow w)) = List.length (responses w)
  /\ exists r',
      nth_error (responses (updateDecay cfg pow w)) i = Some r'
      /\ r' = Entry.setRetention r (Entry.retention r')
      /\ Entry.retention r'
         = Qmax (Entry.retention r
                 * pow 0.5 (inject_Z (Z.of_nat (entriesAfter w i + 1))
                            / halfLifeResponses cfg))
                (minRetention cfg)
      /\ minRetention cfg <= Entry.retention r'.
Proof.
  split; [apply decayFrom_length|].
  eexists. split; [exact (decayFrom_nth cfg pow _ _ 0 i r Hi)|].
  assert (Hage : (entriesAfter w i + 1 = List.length (responses w) - i)%nat).
  { unfold entriesAfter.
    assert (i < List.length (responses w))%nat
      by (apply nth_error_Some; rewrite Hi; discriminate).
    lia. }
  cbn [Entry.setRetention Entry.retention plus]. rewrite Hage.
  split; [reflexivity|]. split; [reflexivity|].
  apply Q.le_max_r.
Qed.

Lemma updateDecay_by_position_witness :
  nth_error (responses oneAnswer) 0 = Some helloEntry
  /\ exists r',
      nth_error (responses (updateDecay cfg1 Js.powIntegral oneAnswer)) 0
      = Some r'
      /\ Entry.retention r' == 0.5.
Proof.
  split; [reflexivity|].
  destruct (updateDecay_by_position cfg1 Js.powIntegral oneAnswer 0
              helloEntry eq_refl)
    as [_ [r' [H [_ [Hr _]]]]].
  exists r'. split; [exact H|]. rewrite Hr. vm_compute. reflexivity.
Defined.


(** *** Global decay *)

Definition sumRetention (rs : list Entry.t) : Q :=
  fold_right (fun r acc => Entry.retention r + acc) 0 rs.

Definition meanRetention (rs : list Entry.t) : Q :=
  sumRetention rs / Js.size rs.

Lemma fold_left_retention rs :
  forall acc,
    fold_left (fun sum r => sum + Entry.retention r) rs acc
    == acc + sumRetention rs.
Proof.
  induction rs as [|r rs IH]; intros acc; cbn [fold_left sumRetention fold_right].
  - ring.
  - rewrite IH. fold (sumRetention rs). ring.
Qed.

Lemma getGlobalDecay_mean w :
  getGlobalDecay w
  == match responses w with
     | [] => 0
     | rs => 1 - meanRetention rs
     end.
Proof.
  unfold getGlobalDecay, meanRetention. destruct (responses w) as [|r rs].
  - reflexivity.
  - rewrite fold_left_retention. apply Qplus_comp; [reflexivity|].
    apply Qopp_comp, Qmult_comp; [ring | reflexivity].
Qed.

(** The range of a retention. *)
Definition bounded (r : Entry.t) : Prop :=
  0 <= Entry.retention r /\ Entry.retention r <= 1.5.

Lemma sumRetention_bounds rs :
  Forall bounded rs ->
  0 <= sumRetention rs /\ sumRetention rs <= 1.5 * Js.size rs.
Proof.
  induction 1 as [|r rs [Hlo Hhi] _ [IHlo IHhi]].
  - split; by_evaluation.
  - cbn [sumRetention fold_right]. fold (sumRetention rs).
    assert (Hsize : Js.size (r :: rs) == 1 + Js.size rs).
    { unfold Js.size. cbn [List.length]. rewrite Nat2Z.inj_succ.
      unfold Z.succ. rewrite inject_Z_plus. ring. }
    rewrite Hsize. split; lra.
Qed.

Lemma size_pos {A} (x : A) xs : 0 < Js.size (x :: xs).
Proof.
  unfold Js.size. change 0 with (inject_Z 0). rewrite <- Zlt_Qlt.
  cbn [List.length]. lia.
Qed.

Lemma getGlobalDecay_bounds w :
  Forall bounded (responses w) ->
  -0.5 <= getGlobalDecay w /\ getGlobalDecay w <= 1.
Proof.
  intros H. rewrite getGlobalDecay_mean. destruct (responses w) as [|r rs].
  - split; by_evaluation.
  - destruct (sumRetention_bounds _ H) as [Hlo Hhi].
    pose proof (size_pos r rs) as Hn. unfold meanRetention.
    assert (0 <= sumRetention (r :: rs) / Js.size (r :: rs))
      by (apply Qle_shift_div_l; [exact Hn | lra]).
    assert (sumRetention (r :: rs) / Js.size (r :: rs) <= 1.5)
      by (apply Qle_shift_div_r; [exact Hn | exact Hhi]).
    split; lra.
Qed.

Lemma evict_suffix limit rs :
  forall total, exists gone, rs = gone ++ snd (evict limit total rs).
Proof.
  induction rs as [|r rs IH]; intros total; [exists []; reflexivity|].
  destruct rs as [|r2 rest]; [exists []; reflexivity|].
  rewrite evict_two. destruct (Qlt_le_dec limit (inject_Z total)).
  - destruct (IH (total - Entry.tokens r)%Z) as [gone Hgone].
    exists (r :: gone). cbn [app]. rewrite <- Hgone. reflexivity.
  - exists []. reflexivity.
Qed.

Section Bounds.

Variable cfg : config.
Variable pow : Q -> Q -> Q.

Hypothesis bonus_nonneg : 0 <= bonusAmount cfg.
Hypothesis min_range : 0 <= minRetention cfg /\ minRetention cfg <= 1.5.
Hypothesis halfLife_pos : 0 < halfLifeResponses cfg.
Hypothesis pow_range : forall x, 0 <= x -> 0 <= pow 0.5 x /\ pow 0.5 x <= 1.

(** The states of a context window: the constructor's, and those
    [addResponse] and [updateDecay] lead to. *)
Inductive reachable : t -> Prop :=
| reach_new : reachable new
| reach_add w rd now1 now2 :
    reachable w -> reachable (snd (addResponse cfg w rd now1 now2))
| reach_decay w :
    reachable w -> reachable (updateDecay cfg pow w).

Lemma bonus_fold (b : Q) (text : string) (kws : list string) :
  0 <= b ->
  forall acc, 1 <= acc ->
    1 <= fold_left (fun retention keyword =>
                      if Js.includes text keyword then retention + b
                      else retention) kws acc.
Proof.
  intros Hb. induction kws as [|k kws IH]; intros acc Hacc; cbn [fold_left].
  - exact Hacc.
  - apply IH. destruct (Js.includes text k); lra.
Qed.

Lemma calculateInitialRetention_bounded e :
  bounded (Entry.setRetention e (calculateInitialRetention cfg e)).
Proof.
  unfold bounded, calculateInitialRetention. cbn [Entry.setRetention Entry.retention].
  split.
  - apply Q.min_glb; [|by_evaluation].
    apply Qle_trans with 1; [by_evaluation|].
    apply bonus_fold; [lra|]. apply bonus_fold; [exact bonus_nonneg|].
    by_evaluation.
  - apply Q.le_min_r.
Qed.

Lemma decayed_bounded n i r :
  bounded r -> bounded (Entry.setRetention r (decayed cfg pow n i r)).
Proof.
  intros [Hlo Hhi]. unfold bounded, decayed.
  cbn [Entry.setRetention Entry.retention].
  set (x := inject_Z (Z.of_nat (n - i)) / halfLifeResponses cfg).
  assert (Hx : 0 <= x).
  { apply Qle_shift_div_l; [exact halfLife_pos|].
    rewrite Qmult_0_l. change 0 with (inject_Z 0). rewrite <- Zle_Qle. lia. }
  destruct (pow_range x Hx) as [Hp0 Hp1]. destruct min_range as [Hm0 Hm1].
  split.
  - apply Qle_trans with (minRetention cfg); [exact Hm0 | apply Q.le_max_r].
  - apply Q.max_lub; [|exact Hm1].
    apply Qle_trans with (1 * Entry.retention r); [|lra].
    rewrite (Qmult_comm (Entry.retention r)).
    apply Qmult_le_compat_r; assumption.
Qed.

Lemma decayFrom_bounded n rs :
  Forall bounded rs -> forall k, Forall bounded (decayFrom cfg pow n k rs).
Proof.
  induction 1 as [|r rs Hr _ IH]; intros k; cbn [decayFrom]; constructor.
  - apply decayed_bounded, Hr.
  - apply IH.
Qed.

Lemma reachable_bounded w : reachable w -> Forall bounded (responses w).
Proof.
  induction 1 as [|w rd now1 now2 _ IH|w _ IH].
  - constructor.
  - unfold addResponse. cbn [snd]. unfold enforceContextLimit.
    cbn [responses totalTokens].
    match goal with
    | |- context [evict ?l ?t ?rs] =>
        pose proof (evict_suffix l rs t) as [gone Hgone];
        assert (Hall : Forall bounded rs);
        [|destruct (evict l t rs) as [total kept]; cbn [snd] in Hgone;
          cbn [responses]; rewrite Hgone in Hall;
          apply Forall_app in Hall; apply Hall]
    end.
    apply Forall_app. split; [exact IH|]. constructor; [|constructor].
    apply calculateInitialRetention_bounded.
  - cbn [updateDecay responses]. apply decayFrom_bounded, IH.
Qed.

(** Claim C8, amended.  In every reachable state [getGlobalDecay] is 0
    for an empty log and otherwise one minus the mean retention of the
    entries, and it lies in [-0.5, 1]: a retention starts between 1 and
    1.5 and never leaves [0, 1.5]. *)
Theorem getGlobalDecay_mean_and_range (w : t) (Hw : reachable w) :
  getGlobalDecay w
  == match responses w with
     | [] => 0
     | rs => 1 - meanRetention rs
     end
  /\ -0.5 <= getGlobalDecay w /\ getGlobalDecay w <= 1.
Proof.
  split; [apply getGlobalDecay_mean|].
  apply getGlobalDecay_bounds, reachable_bounded, Hw.
Qed.

End Bounds.

(** A new window after one answer that earns both key word bonuses. *)
Definition bonusAnswer : t :=
  snd (addResponse cfg1 new (answer "i remember the important day") 1 1).

(** Claim C8, as stated, fails: an entry with a bonus has a retention
    above 1, and the global decay is negative. *)
Lemma getGlobalDecay_negative :
  reachable cfg1 Js.powIntegral bonusAnswer
  /\ getGlobalDecay bonusAnswer == -0.4
  /\ ~ 0 <= getGlobalDecay bonusAnswer.
Proof.
  split; [apply reach_add, reach_new|].
  split; vm_compute; [reflexivity | intros H; apply H; reflexivity].
Qed.

(** The same after the [updateDecay] that follows [addResponse] in the
    orchestrator, for a half life of ten responses and any [Math.pow]
    that gives at least 0.9 for the tenth root of one half. *)
Lemma negative_after_addResponse_and_updateDecay (pow : Q -> Q -> Q) :
  0.9 <= pow 0.5 (1 / 10) ->
  let cfg :=
    {| tokensPerCharacter := 0.25; maxTokens := 4096; hardLimit := 0.9;
       keywordBonus := ["remember"; "important"]%string;
       emotionalBonus := ["love"; "fear"]%string;
       bonusAmount := 0.2;
       halfLifeResponses := 10; minRetention := 0.1 |} in
  getGlobalDecay
    (updateDecay cfg pow
       (snd (addResponse cfg new (answer "i remember the important day") 1 1)))
  < 0.
Proof.
  intros Hpow cfg.
  set (w := snd (addResponse cfg new (answer "i remember the important day") 1 1)).
  assert (Hw : exists e, responses w = [e] /\ Entry.retention e == 1.4)
    by (eexists; split; by_evaluation).
  destruct Hw as [e [Hw He]].
  rewrite getGlobalDecay_mean. cbn [updateDecay responses]. rewrite Hw.
  cbn [decayFrom List.length]. unfold meanRetention, decayed.
  cbn [sumRetention fold_right Entry.retention Entry.setRetention].
  change (inject_Z (Z.of_nat (1 - 0)) / halfLifeResponses cfg) with (1 / 10).
  change (minRetention cfg) with 0.1.
  pose proof (Q.le_max_l (Entry.retention e * pow 0.5 (1 / 10)) 0.1) as Hmax.
  set (m := Qmax (Entry.retention e * pow 0.5 (1 / 10)) 0.1) in *.
  change (Js.size _) with 1.
  assert (E : (m + 0) / 1 == m) by field.
  rewrite E, He in *. lra.
Qed.

Lemma powIntegral_half_range x :
  0 <= x -> 0 <= Js.powIntegral 0.5 x /\ Js.powIntegral 0.5 x <= 1.
Proof.
  intros Hx. unfold Js.powIntegral.
  assert (Hz : (0 <= Qfloor x)%Z)
    by (change 0%Z with (Qfloor 0); apply Qfloor_resp_le, Hx).
  split; [apply Qpower_0_le; by_evaluation|].
  rewrite <- (Z2Nat.id _ Hz).
  induction (Z.to_nat (Qfloor x)) as [|n IH]; [by_evaluation|].
  rewrite Nat2Z.inj_succ. unfold Z.succ.
  rewrite Qpower_plus by by_evaluation.
  assert (0 <= 0.5 ^ Z.of_nat n) by (apply Qpower_0_le; by_evaluation).
  change (0.5 ^ 1) with 0.5. nra.
Qed.

Lemma getGlobalDecay_mean_and_range_witness :
  reachable cfg1 Js.powIntegral
    (updateDecay cfg1 Js.powIntegral bonusAnswer)
  /\ -0.5 <= getGlobalDecay (updateDecay cfg1 Js.powIntegral bonusAnswer)
  /\ getGlobalDecay (updateDecay cfg1 Js.powIntegral bonusAnswer) <= 1.
Proof.
  assert (Hw : reachable cfg1 Js.powIntegral
                 (updateDecay cfg1 Js.powIntegral bonusAnswer))
    by (apply reach_decay, reach_add, reach_new).
  split; [exact Hw|].
  apply (getGlobalDecay_mean_and_range cfg1 Js.powIntegral); try exact Hw.
  - by_evaluation.
  - split; by_evaluation.
  - reflexivity.
  - exact powIntegral_half_range.
Defined.

(** *** Further properties *)

(** *** Ranges of the features *)

Lemma size_nonneg {A} (xs : list A) : 0 <= Js.size xs.
Proof.
  unfold Js.size. change 0 with (inject_Z 0). rewrite <- Zle_Qle. lia.
Qed.

Lemma Qdiv_nonneg a b : 0 <= a -> 0 <= b -> 0 <= a / b.
Proof.
  intros Ha Hb. unfold Qdiv. apply Qmult_le_0_compat; [exact Ha|].
  apply Qinv_le_0_compat, Hb.
Qed.

Lemma split_not_nil sep s : Js.split sep s <> [].
Proof.
  induction s as [|c r IH]; cbn [Js.split]; [discriminate|].
  destruct (sep c).
  - destruct (Js.startsWithSep sep r); [exact IH | discriminate].
  - destruct (Js.split sep r); discriminate.
Qed.

Lemma clamp_range lo hi x : lo <= hi -> lo <= Qmax lo (Qmin hi x) /\ Qmax lo (Qmin hi x) <= hi.
Proof.
  intros H. split; [apply Q.le_max_l|].
  apply Q.max_lub; [exact H | apply Q.le_min_l].
Qed.

Lemma words_nonempty (text : string) :
  0 < Js.size (Js.split Js.isSpace text).
Proof.
  pose proof (split_not_nil Js.isSpace text) as H.
  destruct (Js.split Js.isSpace text) as [|w ws]; [congruence|].
  apply size_pos.
Qed.

Lemma Qdiv_pos a b : 0 < a -> 0 < b -> 0 < a / b.
Proof.
  intros Ha Hb. unfold Qdiv. apply Qmult_lt_0_compat; [exact Ha|].
  apply Qinv_lt_0_compat, Hb.
Qed.

Lemma calculateComplexity_range (text : string) :
  0 < calculateComplexity text /\ calculateComplexity text <= 1.
Proof.
  unfold calculateComplexity. split; [|apply Q.le_min_r].
  apply Q.min_glb_lt; [|by_evaluation].
  apply Qdiv_pos; [|by_evaluation].
  pose proof (words_nonempty text) as Hwords.
  match goal with
  | |- 0 < ?a / 20 + ?b / ?c =>
      assert (0 < a / 20); [|assert (0 <= b / c); [|lra]]
  end.
  - apply Qdiv_pos; [|by_evaluation].
    apply Qdiv_pos; [assumption|].
    apply Qlt_le_trans with 1; [by_evaluation | apply Q.le_max_r].
  - apply Qdiv_nonneg; [apply size_nonneg | apply Qlt_le_weak; assumption].
Qed.

Lemma estimateCertainty_range (text : string) :
  0 <= estimateCertainty text /\ estimateCertainty text <= 1.
Proof.
  unfold estimateCertainty.
  destruct (fold_left _ _ _) as [u c]. apply clamp_range. by_evaluation.
Qed.

Lemma analyzeSentiment_range (text : string) :
  -1 <= analyzeSentiment text /\ analyzeSentiment text <= 1.
Proof. unfold analyzeSentiment. apply clamp_range. by_evaluation. Qed.

(** Property X1.  For every text the complexity lies in (0, 1], the
    certainty in [0, 1] and the sentiment in [-1, 1]; the text always
    splits into at least one word, so none of the divisions is by
    zero. *)
Theorem features_in_range (text : string) :
  (0 < calculateComplexity text /\ calculateComplexity text <= 1)
  /\ (0 <= estimateCertainty text /\ estimateCertainty text <= 1)
  /\ (-1 <= analyzeSentiment text /\ analyzeSentiment text <= 1)
  /\ 0 < Js.size (Js.split Js.isSpace text).
Proof.
  split; [apply calculateComplexity_range|].
  split; [apply estimateCertainty_range|].
  split; [apply analyzeSentiment_range | apply words_nonempty].
Qed.

(** *** The loop of enforceContextLimit *)


Lemma evict_gone limit rs :
  forall total,
    exists gone,
      rs = gone ++ snd (evict limit total rs)
      /\ fst (evict limit total rs) = (total - sumTokens gone)%Z.
Proof.
  induction rs as [|r rs IH]; intros total.
  - exists []. split; [reflexivity | simpl; lia].
  - destruct rs as [|r2 rest].
    + exists []. split; [reflexivity | simpl; lia].
    + rewrite evict_two. destruct (Qlt_le_dec limit (inject_Z total)).
      * destruct (IH (total - Entry.tokens r)%Z) as [gone [Hgone Htotal]].
        exists (r :: gone). split.
        -- cbn [app]. rewrite <- Hgone. reflexivity.
        -- rewrite Htotal. cbn [sumTokens fold_right]. fold (sumTokens gone). lia.
      * exists []. split; [reflexivity | simpl; lia].
Qed.



(** *** addResponse and getLastResponse *)

Lemma last_map_Some {A} (xs : list A) (d : A) :
  xs <> [] -> last (map Some xs) None = Some (last xs d).
Proof.
  induction xs as [|x xs IH]; [congruence|]. intros _.
  destruct xs as [|y ys]; [reflexivity|].
  change (last (map Some (x :: y :: ys)) None) with (last (map Some (y :: ys)) None).
  change (last (x :: y :: ys) d) with (last (y :: ys) d).
  apply IH. discriminate.
Qed.

(** Property X4.  After [addResponse], [getLastResponse] is the entry
    the call returned, which ends the log; its text is the response's,
    its token count the estimate for that text, and its retention at
    most 1.5. *)
Theorem addResponse_then_getLastResponse
    (cfg : config) (w : t) (rd : ResponseData.t) (now1 now2 : Z) :
  let entry := fst (addResponse cfg w rd now1 now2) in
  let w' := snd (addResponse cfg w rd now1 now2) in
  getLastResponse w' = Some entry
  /\ Entry.text entry = ResponseData.text rd
  /\ Entry.tokens entry = estimateTokens cfg (ResponseData.text rd)
  /\ Entry.retention entry <= 1.5
  /\ exists older, responses w' = older ++ [entry].
Proof.
  cbn zeta. unfold addResponse. cbn [fst snd].
  set (entry := Entry.setRetention _ _).
  set (w1 := {| responses := responses w ++ [entry] |}).
  assert (Hlast : last (responses (enforceContextLimit cfg w1)) entry = entry).
  { unfold enforceContextLimit.
    pose proof (evict_keeps_last (maxTokens cfg * hardLimit cfg) (responses w1)
                  (totalTokens w1) entry) as E.
    destruct (evict _ _ _) as [t' rs']. cbn [snd responses] in *.
    rewrite E. unfold w1. cbn [responses]. apply last_last. }
  assert (Hne : responses (enforceContextLimit cfg w1) <> []).
  { unfold enforceContextLimit.
    destruct (responses w1) as [|r rs] eqn:E.
    - unfold w1 in E. cbn [responses] in E. destruct (responses w); discriminate.
    - pose proof (evict_nonempty (maxTokens cfg * hardLimit cfg) r rs (totalTokens w1)) as N.
      destruct (evict _ _ _) as [t' rs']. cbn [snd responses] in *.
      destruct rs'; [simpl in N; lia | discriminate]. }
  split.
  - unfold getLastResponse. rewrite (last_map_Some _ entry Hne), Hlast. reflexivity.
  - split; [reflexivity|]. split; [reflexivity|].
    split; [apply Q.le_min_r|].
    destruct (exists_last Hne) as [older [e He]]. exists older.
    rewrite He in Hlast |- *. rewrite last_last in Hlast. rewrite Hlast. reflexivity.
Qed.


(** *** Retention between the floor and the cap *)

Section Floor.

Variable cfg : config.
Variable pow : Q -> Q -> Q.

Hypothesis bonus_nonneg : 0 <= bonusAmount cfg.
Hypothesis min_range : 0 <= minRetention cfg /\ minRetention cfg <= 1.
Hypothesis halfLife_pos : 0 < halfLifeResponses cfg.
Hypothesis pow_range : forall x, 0 <= x -> 0 <= pow 0.5 x /\ pow 0.5 x <= 1.

Definition floored (r : Entry.t) : Prop :=
  minRetention cfg <= Entry.retention r /\ Entry.retention r <= 1.5.

Lemma initial_floored e :
  floored (Entry.setRetention e (calculateInitialRetention cfg e)).
Proof.
  destruct (calculateInitialRetention_bounded cfg bonus_nonneg e) as [_ Hhi].
  split; [|exact Hhi].
  unfold calculateInitialRetention. cbn [Entry.setRetention Entry.retention].
  apply Q.min_glb; [|destruct min_range; lra].
  apply Qle_trans with 1; [apply min_range|].
  apply bonus_fold; [lra|]. apply bonus_fold; [exact bonus_nonneg|]. by_evaluation.
Qed.

Lemma decayed_floored n i r :
  floored r ->
  floored (Entry.setRetention r (decayed cfg pow n i r))
  /\ decayed cfg pow n i r <= Entry.retention r.
Proof.
  intros [Hlo Hhi]. destruct min_range as [Hm0 Hm1].
  assert (Hb : bounded r) by (split; lra).
  assert (Hmin : 0 <= minRetention cfg /\ minRetention cfg <= 1.5) by (split; lra).
  destruct (decayed_bounded cfg pow Hmin halfLife_pos pow_range n i r Hb) as [_ Hhi'].
  cbn [Entry.setRetention Entry.retention] in Hhi'.
  unfold floored. cbn [Entry.setRetention Entry.retention].
  split; [split; [apply Q.le_max_r | exact Hhi']|].
  unfold decayed.
  set (x := inject_Z (Z.of_nat (n - i)) / halfLifeResponses cfg).
  assert (Hx : 0 <= x).
  { apply Qle_shift_div_l; [exact halfLife_pos|].
    rewrite Qmult_0_l. change 0 with (inject_Z 0). rewrite <- Zle_Qle. lia. }
  destruct (pow_range x Hx) as [Hp0 Hp1].
  apply Q.max_lub; [|exact Hlo].
  apply Qle_trans with (1 * Entry.retention r); [|lra].
  rewrite (Qmult_comm (Entry.retention r)).
  apply Qmult_le_compat_r; [assumption | lra].
Qed.

Lemma decayFrom_floored n rs :
  Forall floored rs ->
  forall k,
    Forall floored (decayFrom cfg pow n k rs)
    /\ Forall2 (fun r r' => Entry.retention r' <= Entry.retention r)
               rs (decayFrom cfg pow n k rs).
Proof.
  induction 1 as [|r rs Hr _ IH]; intros k; cbn [decayFrom].
  - split; constructor.
  - destruct (IH (S k)) as [IH1 IH2].
    destruct (decayed_floored n k r Hr) as [Hf Hle].
    split; constructor; assumption.
Qed.

Lemma reachable_floored w :
  reachable cfg pow w -> Forall floored (responses w).
Proof.
  induction 1 as [|w rd now1 now2 _ IH|w _ IH].
  - constructor.
  - unfold addResponse. cbn [snd]. unfold enforceContextLimit.
    cbn [responses totalTokens].
    match goal with
    | |- context [evict ?l ?t ?rs] =>
        pose proof (evict_suffix l rs t) as [gone Hgone];
        assert (Hall : Forall floored rs);
        [|destruct (evict l t rs) as [total kept]; cbn [snd] in Hgone;
          cbn [responses]; rewrite Hgone in Hall;
          apply Forall_app in Hall; apply Hall]
    end.
    apply Forall_app. split; [exact IH|]. constructor; [|constructor].
    apply initial_floored.
  - cbn [updateDecay responses]. apply decayFrom_floored, IH.
Qed.

(** Property X5.  With a bonus that is not negative, a minimum retention
    in [0, 1], a positive half life and decay factors in [0, 1], every
    retention of a reachable window lies between the minimum retention
    and 1.5, and [updateDecay] raises the retention of no entry. *)
Theorem retention_floored_and_decay_monotone (w : t) (Hw : reachable cfg pow w) :
  Forall (fun r => minRetention cfg <= Entry.retention r
                   /\ Entry.retention r <= 1.5) (responses w)
  /\ Forall2 (fun r r' => Entry.retention r' <= Entry.retention r)
             (responses w) (responses (updateDecay cfg pow w)).
Proof.
  pose proof (reachable_floored w Hw) as H.
  split; [exact H|]. cbn [updateDecay responses]. apply decayFrom_floored, H.
Qed.

End Floor.

Lemma retention_floored_and_decay_monotone_witness :
  reachable cfg1 Js.powIntegral bonusAnswer
  /\ Forall (fun r => 0.1 <= Entry.retention r /\ Entry.retention r <= 1.5)
            (responses bonusAnswer)
  /\ Forall2 (fun r r' => Entry.retention r' <= Entry.retention r)
             (responses bonusAnswer)
             (responses (updateDecay cfg1 Js.powIntegral bonusAnswer)).
Proof.
  assert (Hw : reachable cfg1 Js.powIntegral bonusAnswer)
    by apply reach_add, reach_new.
  split; [exact Hw|].
  apply (retention_floored_and_decay_monotone cfg1 Js.powIntegral); try exact Hw.
  - by_evaluation.
  - split; by_evaluation.
  - reflexivity.
  - exact powIntegral_half_range.
Defined.

(** *** Key word frequencies *)

Definition frequency (m : Js.Map Z) (k : string) : Z :=
  match Js.mapGet m k with
  | Some n => n
  | None => 0
  end.

Definition occurrences (kws : list string) (k : string) : Z :=
  Z.of_nat (List.length (filter (String.eqb k) kws)).

Lemma mapGet_mapSet {V} (m : Js.Map V) k v k' :
  Js.mapGet (Js.mapSet m k v) k'
  = if String.eqb k k' then Some v else Js.mapGet m k'.
Proof.
  induction m as [|[k0 v0] m IH]; cbn [Js.mapSet Js.mapGet].
  - destruct (String.eqb k k'); reflexivity.
  - destruct (String.eqb k0 k) eqn:E0; cbn [Js.mapGet].
    + apply String.eqb_eq in E0. subst k0.
      destruct (String.eqb k k'); reflexivity.
    + destruct (String.eqb k0 k') eqn:E1.
      * apply String.eqb_eq in E1. subst k0.
        rewrite String.eqb_sym, E0. reflexivity.
      * exact IH.
Qed.

Lemma updateKeywordMap_frequency kws :
  forall m k,
    frequency (updateKeywordMap m kws) k
    = (frequency m k + occurrences kws k)%Z.
Proof.
  unfold updateKeywordMap, occurrences.
  induction kws as [|kw kws IH]; intros m k; cbn [fold_left filter].
  - simpl. lia.
  - rewrite IH. unfold frequency at 1. rewrite mapGet_mapSet.
    rewrite (String.eqb_sym k kw).
    destruct (String.eqb kw k) eqn:E.
    + apply String.eqb_eq in E. subst kw. unfold frequency.
      cbn [List.length]. destruct (Js.mapGet m k); lia.
    + unfold frequency. lia.
Qed.

(** The occurrences of a key word in the key words of all the responses
    of a sequence of calls. *)
Definition mentioned (calls : list call) (k : string) : Z :=
  fold_right
    (fun '(rd, _, _) acc =>
       (occurrences (extractKeywords (ResponseData.text rd)) k + acc)%Z)
    0%Z calls.

Lemma enforceContextLimit_keywords cfg w :
  keywords (enforceContextLimit cfg w) = keywords w.
Proof.
  unfold enforceContextLimit. destruct (evict _ _ _). reflexivity.
Qed.

Lemma addAll_frequency_from cfg calls k :
  forall w,
    frequency
      (keywords
         (fold_left (fun w '(rd, now1, now2) =>
                       snd (addResponse cfg w rd now1 now2)) calls w)) k
    = (frequency (keywords w) k + mentioned calls k)%Z.
Proof.
  induction calls as [|[[rd now1] now2] calls IH]; intros w;
    cbn [fold_left mentioned fold_right].
  - lia.
  - rewrite IH. fold (mentioned calls k).
    unfold addResponse. cbn [snd].
    rewrite enforceContextLimit_keywords. cbn [keywords Entry.keywords Entry.setRetention].
    rewrite updateKeywordMap_frequency. lia.
Qed.

(** Property X6.  After any sequence of calls of [addResponse] the
    frequency the key word map holds for a word is the number of its
    occurrences among the key words of all the responses added: the
    entries evicted from the log are still counted. *)
Theorem keyword_frequency_counts_every_response
    (cfg : config) (calls : list call) (k : string) :
  frequency (keywords (addAll cfg calls)) k = mentioned calls k.
Proof.
  unfold addAll. rewrite addAll_frequency_from. reflexivity.
Qed.


(** *** Recent topics *)

Lemma lastThree_length {A} (xs : list A) : (List.length (lastThree xs) <= 3)%nat.
Proof. unfold lastThree. rewrite length_skipn. lia. Qed.

Lemma lastThree_incl {A} (xs : list A) x : In x (lastThree xs) -> In x xs.
Proof.
  unfold lastThree. intros H. rewrite <- (firstn_skipn (List.length xs - 3) xs).
  apply in_or_app. right. exact H.
Qed.

Lemma topics_fold rs :
  forall acc,
    NoDup acc ->
    let out :=
      fold_left
        (fun topics r =>
           fold_left
             (fun topics kw =>
                if Js.member kw topics then topics else topics ++ [kw])
             (firstn 3 (Entry.keywords r)) topics)
        rs acc in
    NoDup out
    /\ (forall y, In y out ->
                  In y acc
                  \/ exists r, In r rs /\ In y (firstn 3 (Entry.keywords r)))
    /\ (List.length out <= List.length acc + 3 * List.length rs)%nat.
Proof.
  induction rs as [|r rs IH]; intros acc Hnd; cbn [fold_left].
  - split; [exact Hnd|]. split; [auto | lia].
  - destruct (JsSpec.addNew_fold (firstn 3 (Entry.keywords r)) acc Hnd)
      as [H1 [H2 [H3 _]]]. cbn zeta in *.
    change (fun topics kw => if Js.member kw topics then topics else topics ++ [kw])
      with JsSpec.addNew in *.
    destruct (IH _ H1) as [G1 [G2 G3]]. cbn zeta in *.
    split; [exact G1|]. split.
    + intros y Hy. destruct (G2 y Hy) as [Hy'|[r' [Hr' Hy']]].
      * apply H2 in Hy'. destruct Hy' as [?|?]; [left; assumption|].
        right. exists r. split; [left; reflexivity | assumption].
      * right. exists r'. split; [right; assumption | assumption].
    + pose proof (firstn_le_length 3 (Entry.keywords r)).
      cbn [List.length]. lia.
Qed.

(** Property X7.  [getRecentTopics] returns at most nine topics, no two
    equal, each among the first three key words of one of the last three
    entries; an empty log has no topic. *)
Theorem getRecentTopics_distinct_and_recent (w : t) :
  NoDup (getRecentTopics w)
  /\ (List.length (getRecentTopics w) <= 9)%nat
  /\ Forall (fun topic =>
               exists r, In r (lastThree (responses w))
                         /\ In topic (firstn 3 (Entry.keywords r)))
            (getRecentTopics w)
  /\ (responses w = [] -> getRecentTopics w = []).
Proof.
  unfold getRecentTopics.
  destruct (topics_fold (lastThree (responses w)) [] (NoDup_nil _)) as [H1 [H2 H3]].
  cbn zeta in *. split; [exact H1|]. split; [|split].
  - pose proof (lastThree_length (responses w)). cbn [List.length] in H3. lia.
  - apply Forall_forall. intros y Hy. destruct (H2 y Hy) as [[]|H]. exact H.
  - intros ->. reflexivity.
Qed.


(** *** Key words *)

Fixpoint allChars (P : ascii -> bool) (s : string) : bool :=
  match s with
  | EmptyString => true
  | String c r => P c && allChars P r
  end.

Lemma split_allChars P sep s :
  allChars P s = true ->
  Forall (fun p => allChars P p = true) (Js.split sep s).
Proof.
  induction s as [|c r IH]; cbn [allChars Js.split]; intros H.
  - repeat constructor.
  - apply andb_true_iff in H as [Hc Hr]. specialize (IH Hr).
    destruct (sep c).
    + destruct (Js.startsWithSep sep r); [exact IH | constructor; [reflexivity | exact IH]].
    + destruct (Js.split sep r) as [|p ps].
      * repeat constructor. cbn [allChars]. rewrite Hc. reflexivity.
      * inversion IH; subst. constructor; [|assumption].
        cbn [allChars]. rewrite Hc. assumption.
Qed.

Lemma split_no_separator sep s :
  Forall (fun p => allChars (fun c => negb (sep c)) p = true) (Js.split sep s).
Proof.
  induction s as [|c r IH]; cbn [Js.split].
  - repeat constructor.
  - destruct (sep c) eqn:Hc.
    + destruct (Js.startsWithSep sep r); [exact IH | constructor; [reflexivity | exact IH]].
    + destruct (Js.split sep r) as [|p ps].
      * repeat constructor. cbn [allChars]. rewrite Hc. reflexivity.
      * inversion IH; subst. constructor; [|assumption].
        cbn [allChars]. rewrite Hc. assumption.
Qed.

Definition isLowered (c : ascii) : bool := Ascii.eqb (Js.lowerChar c) c.

Lemma lowerChar_lowered c : isLowered (Js.lowerChar c) = true.
Proof.
  destruct c as [[] [] [] [] [] [] [] []]; by_evaluation.
Qed.

Lemma toLowerCase_lowered s : allChars isLowered (Js.toLowerCase s) = true.
Proof.
  induction s as [|c r IH]; [reflexivity|].
  cbn [Js.toLowerCase allChars]. rewrite lowerChar_lowered. exact IH.
Qed.

Lemma lowered_fixed s : allChars isLowered s = true -> Js.toLowerCase s = s.
Proof.
  induction s as [|c r IH]; [reflexivity|].
  cbn [allChars Js.toLowerCase]. intros H. apply andb_true_iff in H as [Hc Hr].
  apply Ascii.eqb_eq in Hc. rewrite Hc, (IH Hr). reflexivity.
Qed.

(** Property X2.  Every key word is longer than three characters, is no
    stop word, is in lower case and holds no white space; lower-casing
    the text first changes nothing, and a blank text has no key word. *)
Theorem extractKeywords_shape (text : string) :
  Forall (fun kw =>
            (3 < String.length kw)%nat
            /\ Js.member kw stopWords = false
            /\ Js.toLowerCase kw = kw
            /\ allChars (fun c => negb (Js.isSpace c)) kw = true)
         (extractKeywords text)
  /\ extractKeywords (Js.toLowerCase text) = extractKeywords text
  /\ (blank text = true -> extractKeywords text = []).
Proof.
  split; [|split].
  - unfold extractKeywords. apply Forall_forall. intros kw Hin.
    apply filter_In in Hin as [Hin Hkw].
    apply andb_true_iff in Hkw as [Hlen Hstop].
    apply Nat.ltb_lt in Hlen. apply negb_true_iff in Hstop.
    pose proof (split_allChars isLowered Js.isSpace _ (toLowerCase_lowered text)) as Hl.
    pose proof (split_no_separator Js.isSpace (Js.toLowerCase text)) as Hs.
    rewrite Forall_forall in Hl, Hs.
    repeat split; [exact Hlen | exact Hstop | apply lowered_fixed, Hl, Hin | apply Hs, Hin].
  - unfold extractKeywords.
    rewrite (lowered_fixed _ (toLowerCase_lowered text)). reflexivity.
  - intros H. unfold extractKeywords. rewrite (toLowerCase_blank text H).
    destruct text as [|c r]; [reflexivity|].
    rewrite (split_space_blank c r H). reflexivity.
Qed.

End ContextWindowSpec.

(** ** ConsistencyTracker *)

Module ConsistencyTrackerSpec.
Import ConsistencyTracker.

(** One call of [checkResponse]: the response and the clock. *)
Definition call : Type := ResponseData.t * (nat -> Z).

(** The tracker after a sequence of calls of [checkResponse] on a new
    one. *)
Definition checkAll (cfg : config) (calls : list call) : t :=
  fold_left (fun tr '(rd, clock) => snd (checkResponse cfg tr rd clock))
            calls new.

Definition inUnit (x : Q) : Prop := 0 <= x /\ x <= 1.

Lemma checkResponse_level cfg tr rd clock :
  contradictionLevel (snd (checkResponse cfg tr rd clock))
  == match List.length (fst (checkResponse cfg tr rd clock)) with
     | O => contradictionLevel tr * 0.95
     | S _ as k =>
         Qmin (contradictionLevel tr + 0.2 * inject_Z (Z.of_nat k)) 1
     end.
Proof.
  unfold checkResponse.
  destruct (findContradictions cfg _ (assertions tr)) as [|c cs];
    cbn [fst snd contradictionLevel List.length].
  - reflexivity.
  - unfold Js.size. cbn [List.length].
    apply Q.min_compat; [ring | reflexivity].
Qed.

Lemma checkResponse_inUnit cfg tr rd clock :
  inUnit (contradictionLevel tr) ->
  inUnit (contradictionLevel (snd (checkResponse cfg tr rd clock))).
Proof.
  intros [Hlo Hhi]. unfold inUnit. rewrite checkResponse_level.
  destruct (List.length _) as [|k].
  - split; lra.
  - assert (0 <= inject_Z (Z.of_nat (S k)))
      by (change 0 with (inject_Z 0); rewrite <- Zle_Qle; lia).
    split; [apply Q.min_glb; lra | apply Q.le_min_r].
Qed.

Lemma checkAll_inUnit_from cfg calls :
  forall tr, inUnit (contradictionLevel tr) ->
  inUnit (contradictionLevel
            (fold_left (fun tr '(rd, clock) =>
                          snd (checkResponse cfg tr rd clock)) calls tr)).
Proof.
  induction calls as [|[rd clock] calls IH]; intros tr H; [exact H|].
  cbn [fold_left]. apply IH, checkResponse_inUnit, H.
Qed.

(** Claim C5.  A call of [checkResponse] that finds [k > 0]
    contradictions sets the level to [min(previous + 0.2 k, 1)], a call
    that finds none multiplies it by 0.95; after any sequence of calls on
    a new tracker the level is in [0, 1]. *)
Theorem contradictionLevel_step_and_range
    (cfg : config) (tr : t) (rd : ResponseData.t) (clock : nat -> Z)
    (calls : list call) :
  let k := List.length (fst (checkResponse cfg tr rd clock)) in
  contradictionLevel (snd (checkResponse cfg tr rd clock))
  == (if (0 <? k)%nat
      then Qmin (contradictionLevel tr + 0.2 * inject_Z (Z.of_nat k)) 1
      else contradictionLevel tr * 0.95)
  /\ 0 <= contradictionLevel (checkAll cfg calls)
  /\ contradictionLevel (checkAll cfg calls) <= 1.
Proof.
  cbn zeta. split.
  - rewrite checkResponse_level. destruct (List.length _); reflexivity.
  - apply (checkAll_inUnit_from cfg calls new). split; by_evaluation.
Qed.

Lemma findContradictions_stored cfg text stored :
  Forall (fun c => exists a,
              In (topic c, a) stored
              /\ previous c = ConsistencyTracker.text a
              /\ current c = text
              /\ Js.includes text (topic c) = true)
         (findContradictions cfg text stored).
Proof.
  unfold findContradictions. apply Forall_flat_map.
  apply Forall_forall. intros [tp a] Hin.
  destruct (Js.includes text tp) eqn:Hinc; [|constructor].
  destruct (detectContradiction _ _ _ && _); [|constructor].
  constructor; [|constructor].
  exists a. cbn [topic previous current]. auto.
Qed.

(** Claim C9.  The first call of [checkResponse] on a new tracker finds
    no contradiction, whatever the response; and every contradiction a
    call finds pairs the lower-cased text of the response with an
    assertion that was stored under its topic before the call, so none
    pairs the response with what the call itself extracts from it. *)
Theorem contradictions_only_against_stored
    (cfg : config) (tr : t) (rd : ResponseData.t) (clock : nat -> Z) :
  fst (checkResponse cfg new rd clock) = []
  /\ Forall (fun c => exists a,
                In (topic c, a) (assertions tr)
                /\ previous c = ConsistencyTracker.text a
                /\ current c = Js.toLowerCase (ResponseData.text rd)
                /\ Js.includes (current c) (topic c) = true)
            (fst (checkResponse cfg tr rd clock)).
Proof.
  split; [reflexivity|].
  assert (E : fst (checkResponse cfg tr rd clock)
              = findContradictions cfg (Js.toLowerCase (ResponseData.text rd))
                  (assertions tr)).
  { unfold checkResponse. destruct (findContradictions _ _ _); reflexivity. }
  rewrite E.
  eapply Forall_impl; [|apply findContradictions_stored].
  intros c [a [Hin [Hp [Hc Hi]]]]. exists a. rewrite Hc. auto.
Qed.

(** An instance of [memoryConfig.consistency]. *)
Definition cfg1 : config :=
  {| contradictionSensitivity := 0.7; spatialAnomalyTrigger := 0.6 |}.

(** A call with the text [s]; the clock ticks once for each assertion. *)
Definition say (s : string) : call :=
  ({| ResponseData.text := s; ResponseData.timestamp := 0;
      ResponseData.id := None |}, fun i => Z.of_nat i).

(** A response that opposes itself is not held against itself on the
    first call, and is held against the next one. *)
Example self_opposing_response :
  fst (checkResponse cfg1 new (fst (say "Cats are good. Cats are bad.")) (snd (say "")))
  = []
  /\ List.length
       (fst (checkResponse cfg1
               (checkAll cfg1 [say "Cats are good pets"])
               (fst (say "Cats are not good at all")) (snd (say ""))))
     = 2%nat.
Proof. split; by_evaluation. Qed.

(** *** Further properties *)

(** *** Similarity *)

Lemma toSet_spec xs :
  NoDup (toSet xs) /\ (forall y, In y (toSet xs) <-> In y xs)
  /\ (xs <> [] -> toSet xs <> []).
Proof.
  unfold toSet.
  destruct (JsSpec.addNew_fold xs [] (NoDup_nil _)) as [H1 [H2 _]].
  cbn zeta in *. change (fun acc x => if Js.member x acc then acc else acc ++ [x])
    with JsSpec.addNew.
  split; [exact H1|]. split.
  - intros y. rewrite H2. cbn [In]. tauto.
  - intros Hne Hnil. destruct xs as [|x xs]; [congruence|].
    assert (In x (fold_left JsSpec.addNew (x :: xs) [])) by (apply H2; right; left; reflexivity).
    rewrite Hnil in H. destruct H.
Qed.

Lemma NoDup_same_length (xs ys : list string) :
  NoDup xs -> NoDup ys -> (forall y, In y xs <-> In y ys) ->
  List.length xs = List.length ys.
Proof.
  intros Hx Hy H. apply Nat.le_antisymm; apply NoDup_incl_length; try assumption;
    intros y Hin; apply H; assumption.
Qed.

Lemma similarity_facts (text1 text2 : string) :
  0 <= calculateSimilarity text1 text2
  /\ calculateSimilarity text1 text2 <= 1
  /\ calculateSimilarity text1 text2 = calculateSimilarity text2 text1
  /\ calculateSimilarity text1 text1 == 1.
Proof.
  assert (Hgen : forall t1 t2,
    let i := toSet (filter (fun x => Js.member x (toSet (Js.split Js.isSpace t2)))
                           (toSet (Js.split Js.isSpace t1))) in
    let u := toSet (toSet (Js.split Js.isSpace t1) ++ toSet (Js.split Js.isSpace t2)) in
    NoDup i /\ NoDup u
    /\ (forall y, In y i <-> In y (Js.split Js.isSpace t1) /\ In y (Js.split Js.isSpace t2))
    /\ (forall y, In y u <-> In y (Js.split Js.isSpace t1) \/ In y (Js.split Js.isSpace t2))
    /\ u <> []).
  { intros t1 t2. cbn zeta.
    destruct (toSet_spec (Js.split Js.isSpace t1)) as [N1 [I1 E1]].
    destruct (toSet_spec (Js.split Js.isSpace t2)) as [N2 [I2 _]].
    split; [apply toSet_spec|]. split; [apply toSet_spec|]. split; [|split].
    - intros y. rewrite (proj1 (proj2 (toSet_spec _))), filter_In, JsSpec.member_In, I1, I2.
      tauto.
    - intros y. rewrite (proj1 (proj2 (toSet_spec _))), in_app_iff, I1, I2. tauto.
    - apply toSet_spec. intros H. apply app_eq_nil in H as [H _].
      apply E1 in H; [exact H | apply ContextWindowSpec.split_not_nil]. }
  assert (Hsize : forall t1 t2, 0 < Js.size
      (toSet (toSet (Js.split Js.isSpace t1) ++ toSet (Js.split Js.isSpace t2)))).
  { intros t1 t2. destruct (Hgen t1 t2) as [_ [_ [_ [_ Hne]]]].
    destruct (toSet _) as [|x xs]; [congruence | apply ContextWindowSpec.size_pos]. }
  unfold calculateSimilarity.
  destruct (Hgen text1 text2) as [Ni [Nu [Ii [Iu _]]]].
  destruct (Hgen text2 text1) as [Ni' [Nu' [Ii' [Iu' _]]]].
  destruct (Hgen text1 text1) as [Ni1 [Nu1 [Ii1 [Iu1 _]]]].
  split; [apply ContextWindowSpec.Qdiv_nonneg; apply ContextWindowSpec.size_nonneg|]. split; [|split].
  - apply Qle_shift_div_r; [apply Hsize|]. rewrite Qmult_1_l.
    unfold Js.size. rewrite <- Zle_Qle. apply inj_le.
    apply NoDup_incl_length; [exact Ni|].
    intros y Hy. apply Iu. apply Ii in Hy. tauto.
  - unfold Js.size. f_equal; do 2 f_equal.
    + apply NoDup_same_length; try assumption.
      intros y. rewrite Ii, Ii'. tauto.
    + apply NoDup_same_length; try assumption.
      intros y. rewrite Iu, Iu'. tauto.
  - assert (E : List.length (toSet (filter (fun x => Js.member x (toSet (Js.split Js.isSpace text1)))
                           (toSet (Js.split Js.isSpace text1))))
                = List.length (toSet (toSet (Js.split Js.isSpace text1) ++ toSet (Js.split Js.isSpace text1)))).
    { apply NoDup_same_length; try assumption. intros y. rewrite Ii1, Iu1. tauto. }
    unfold Js.size at 1. rewrite E. fold (Js.size (toSet (toSet (Js.split Js.isSpace text1) ++ toSet (Js.split Js.isSpace text1)))).
    pose proof (Hsize text1 text1). field. lra.
Qed.

(** Property X8.  The similarity of two texts lies in [0, 1], does not
    depend on their order, and is 1 for a text and itself. *)
Theorem calculateSimilarity_range_and_symmetry (text1 text2 : string) :
  0 <= calculateSimilarity text1 text2
  /\ calculateSimilarity text1 text2 <= 1
  /\ calculateSimilarity text1 text2 = calculateSimilarity text2 text1
  /\ calculateSimilarity text1 text1 == 1.
Proof. exact (similarity_facts text1 text2). Qed.

(** *** Detection *)

(** Property X9.  [detectContradiction] gives the same answer when the
    current and the previous text are exchanged, and ignores the
    topic. *)
Theorem detectContradiction_symmetric (current previous topic topic' : string) :
  detectContradiction current previous topic
  = detectContradiction previous current topic'.
Proof.
  unfold detectContradiction.
  set (c := existsb (Js.includes current) negations).
  set (p := existsb (Js.includes previous) negations).
  replace (Bool.eqb p c) with (Bool.eqb c p) by (destruct c, p; reflexivity).
  destruct (negb (Bool.eqb c p)); [reflexivity|].
  induction opposites as [|[w1 w2] l IH]; [reflexivity|].
  cbn [existsb]. rewrite IH. f_equal.
  destruct (Js.includes current w1), (Js.includes current w2),
    (Js.includes previous w1), (Js.includes previous w2); reflexivity.
Qed.


(** *** Severity *)

(** Property X10.  Every contradiction [checkResponse] returns has a
    severity in [0, 1] that exceeds one minus the configured sensitivity,
    and its two texts are detected as contradicting. *)
Theorem contradiction_severity (cfg : config) (tr : t)
    (rd : ResponseData.t) (clock : nat -> Z) :
  Forall (fun c =>
            0 <= severity c /\ severity c <= 1
            /\ 1 - contradictionSensitivity cfg < severity c
            /\ detectContradiction (current c) (previous c) (topic c) = true)
         (fst (checkResponse cfg tr rd clock)).
Proof.
  assert (E : fst (checkResponse cfg tr rd clock)
              = findContradictions cfg (Js.toLowerCase (ResponseData.text rd))
                  (assertions tr)).
  { unfold checkResponse. destruct (findContradictions _ _ _); reflexivity. }
  rewrite E. unfold findContradictions. apply Forall_flat_map.
  apply Forall_forall. intros [tp a] _.
  destruct (Js.includes _ tp); [|constructor].
  destruct (detectContradiction _ _ _) eqn:Hd; [|constructor].
  destruct (Qlt_le_dec _ _) as [Hlt|]; [|constructor].
  constructor; [|constructor]. cbn [severity current previous topic andb].
  destruct (similarity_facts
              (Js.toLowerCase (ResponseData.text rd)) (text a)) as [H0 [H1 _]].
  repeat split; try lra. exact Hd.
Qed.

(** *** The size of the assertion store *)

Definition keys {V} (m : Js.Map V) : list string := map fst m.

Lemma keys_mapSet {V} (m : Js.Map V) k v :
  keys (Js.mapSet m k v) = if Js.member k (keys m) then keys m else keys m ++ [k].
Proof.
  induction m as [|[k0 v0] m IH]; [reflexivity|].
  cbn [Js.mapSet keys map fst Js.member existsb] in *.
  rewrite (String.eqb_sym k k0).
  destruct (String.eqb k0 k); cbn [map fst orb]; [reflexivity|].
  fold (keys m). fold (keys (Js.mapSet m k v)). rewrite IH.
  fold (Js.member k (keys m)). destruct (Js.member k (keys m)); reflexivity.
Qed.

Lemma mapSet_NoDup {V} (m : Js.Map V) k v :
  NoDup (keys m) ->
  NoDup (keys (Js.mapSet m k v))
  /\ (List.length (Js.mapSet m k v) <= S (List.length m))%nat.
Proof.
  intros H. assert (L : forall m' : Js.Map V, List.length m' = List.length (keys m'))
    by (intros; unfold keys; rewrite length_map; reflexivity).
  rewrite !L, keys_mapSet. destruct (Js.member k (keys m)) eqn:E.
  - split; [exact H | lia].
  - apply JsSpec.member_false in E. split.
    + apply NoDup_app; [exact H | repeat constructor; intros [] |].
      intros y Hy [<-|[]]. contradiction.
    + rewrite length_app. cbn [List.length]. lia.
Qed.

Lemma keys_mapDelete {V} (m : Js.Map V) k :
  NoDup (keys m) -> In k (keys m) ->
  NoDup (keys (Js.mapDelete m k))
  /\ S (List.length (Js.mapDelete m k)) = List.length m
  /\ (forall k', In k' (keys (Js.mapDelete m k)) <-> In k' (keys m) /\ k' <> k).
Proof.
  induction m as [|[k0 v0] m IH]; intros Hnd Hin; [destruct Hin|].
  cbn [keys map fst] in Hnd, Hin. fold (keys m) in Hnd, Hin.
  inversion Hnd as [|? ? Hnot Hnd']; subst.
  cbn [Js.mapDelete filter fst]. destruct (String.eqb k0 k) eqn:E; cbn [negb].
  - apply String.eqb_eq in E. subst k0.
    assert (Hid : filter (fun kv : string * V => negb (String.eqb (fst kv) k)) m = m).
    { clear -Hnot. induction m as [|[k1 v1] m IH]; [reflexivity|].
      cbn [filter fst]. cbn [keys map fst In] in Hnot.
      destruct (String.eqb k1 k) eqn:E1.
      - apply String.eqb_eq in E1. tauto.
      - cbn [negb]. rewrite IH; [reflexivity | tauto]. }
    rewrite Hid. split; [exact Hnd'|]. split; [reflexivity|].
    intros k'. cbn [keys map fst In]. fold (keys m). split.
    + intros H. split; [right; exact H | intros ->; contradiction].
    + intros [[H|H] Hne]; [congruence | exact H].
  - assert (Hin' : In k (keys m)).
    { destruct Hin as [H|H]; [|exact H]. subst k0. rewrite String.eqb_refl in E. discriminate. }
    destruct (IH Hnd' Hin') as [I1 [I2 I3]]. fold (Js.mapDelete m k).
    cbn [keys map fst List.length]. fold (keys (Js.mapDelete m k)). fold (keys m).
    split; [|split].
    + constructor; [|exact I1]. rewrite I3. tauto.
    + rewrite I2. reflexivity.
    + intros k'. cbn [In]. rewrite I3. split.
      * intros [H|[H1 H2]]; [|tauto]. subst k'. split; [left; reflexivity|].
        intros ->. rewrite String.eqb_refl in E. discriminate.
      * tauto.
Qed.

Lemma delete_all {V} (ks : list (string * V)) :
  forall m : Js.Map V,
    NoDup (keys m) -> NoDup (keys ks) -> incl (keys ks) (keys m) ->
    let m' := fold_left (fun stored kv => Js.mapDelete stored (fst kv)) ks m in
    NoDup (keys m')
    /\ (List.length m' + List.length ks = List.length m)%nat.
Proof.
  induction ks as [|[k v] ks IH]; intros m Hm Hks Hincl; cbn [fold_left fst].
  - split; [exact Hm | cbn; lia].
  - cbn [keys map fst] in Hks, Hincl. fold (keys ks) in Hks, Hincl.
    inversion Hks as [|? ? Hnot Hks']; subst.
    destruct (keys_mapDelete m k Hm (Hincl k (or_introl eq_refl))) as [D1 [D2 D3]].
    destruct (IH (Js.mapDelete m k) D1 Hks') as [I1 I2].
    { intros k' Hk'. apply D3. split; [apply Hincl; right; exact Hk'|].
      intros ->. contradiction. }
    cbn zeta in *. split; [exact I1|]. cbn [List.length]. lia.
Qed.

Lemma insertByTime_perm x xs : Permutation (insertByTime x xs) (x :: xs).
Proof.
  induction xs as [|y r IH]; cbn [insertByTime]; [reflexivity|].
  destruct (_ <? _)%Z; [|reflexivity].
  rewrite IH. apply perm_swap.
Qed.

Lemma sortByTime_perm xs : Permutation (sortByTime xs) xs.
Proof.
  induction xs as [|x xs IH]; cbn [sortByTime fold_right]; [reflexivity|].
  fold (sortByTime xs). rewrite insertByTime_perm, IH. reflexivity.
Qed.

(** The store after the loop of [extractAssertions] over the key words. *)
Lemma store_loop (rd : ResponseData.t) (clock : nat -> Z) text kws :
  forall i (stored : Js.Map assertion),
    NoDup (keys stored) ->
    let out :=
      snd (fold_left
             (fun '(i, stored) keyword =>
                let sentences := Js.split Js.isSentenceEnd text in
                let relevantSentence :=
                  match find (fun s => Js.includes s keyword) sentences with
                  | Some s => if Js.truthy s then s else Js.slice0 100 text
                  | None => Js.slice0 100 text
                  end in
                (S i,
                 Js.mapSet stored keyword
                   {| ConsistencyTracker.text := Js.trim relevantSentence;
                      timestamp := clock i;
                      responseId := ResponseData.id rd |}))
             kws (i, stored)) in
    NoDup (keys out)
    /\ (List.length out <= List.length stored + List.length kws)%nat.
Proof.
  induction kws as [|kw kws IH]; intros i stored Hnd; cbn [fold_left snd].
  - split; [exact Hnd | lia].
  - match goal with
    | |- context [Js.mapSet stored kw ?a] =>
        destruct (mapSet_NoDup stored kw a Hnd) as [H1 H2];
        destruct (IH (S i) (Js.mapSet stored kw a) H1) as [G1 G2]
    end.
    cbn zeta in *. split; [exact G1|]. cbn [List.length]. lia.
Qed.

Lemma extractAssertions_bounded rd clock stored :
  NoDup (keys stored) -> (List.length stored <= 50)%nat ->
  NoDup (keys (extractAssertions rd clock stored))
  /\ (List.length (extractAssertions rd clock stored) <= 50)%nat.
Proof.
  intros Hnd Hlen. unfold extractAssertions.
  match goal with
  | |- context [fold_left ?f (firstn 5 ?kws) (O, stored)] =>
      pose proof (store_loop rd clock (Js.toLowerCase (ResponseData.text rd))
                    (firstn 5 kws) O stored Hnd) as [H1 H2];
      cbn zeta in H1, H2;
      pose proof (firstn_le_length 5 kws) as H5;
      set (out := snd (fold_left f (firstn 5 kws) (O, stored))) in *
  end.
  destruct (Nat.ltb_spec 50 (List.length out)) as [Hbig|Hsmall]; [|split; assumption].
  assert (Hperm : Permutation (keys (sortByTime out)) (keys out))
    by (apply Permutation_map, sortByTime_perm).
  assert (Hsorted : NoDup (keys (sortByTime out)))
    by (apply (Permutation_NoDup (Permutation_sym Hperm)), H1).
  assert (Hfirst : NoDup (keys (firstn 10 (sortByTime out)))).
  { unfold keys in *. rewrite <- firstn_map.
    rewrite <- (firstn_skipn 10 (map fst (sortByTime out))) in Hsorted.
    apply NoDup_app_remove_r in Hsorted. exact Hsorted. }
  assert (Hincl : incl (keys (firstn 10 (sortByTime out))) (keys out)).
  { intros k Hk. apply (Permutation_in _ Hperm).
    unfold keys in *. rewrite <- firstn_map in Hk.
    rewrite <- (firstn_skipn 10 (map fst (sortByTime out))).
    apply in_or_app. left. exact Hk. }
  destruct (delete_all (firstn 10 (sortByTime out)) out H1 Hfirst Hincl) as [D1 D2].
  cbn zeta in *. split; [exact D1|].
  assert (List.length (firstn 10 (sortByTime out)) = 10%nat).
  { rewrite firstn_length_le; [reflexivity|].
    rewrite (Permutation_length (sortByTime_perm out)). lia. }
  lia.
Qed.

Lemma checkResponse_assertions cfg tr rd clock :
  assertions (snd (checkResponse cfg tr rd clock))
  = extractAssertions rd clock (assertions tr).
Proof.
  unfold checkResponse. destruct (findContradictions _ _ _); reflexivity.
Qed.

(** Property X11.  After any sequence of calls of [checkResponse] on a
    new tracker the store holds at most 50 assertions, under distinct
    topics. *)
Theorem assertion_store_bounded (cfg : config) (calls : list call) :
  (List.length (assertions (checkAll cfg calls)) <= 50)%nat
  /\ NoDup (keys (assertions (checkAll cfg calls))).
Proof.
  unfold checkAll.
  assert (G : forall tr,
             NoDup (keys (assertions tr)) /\ (List.length (assertions tr) <= 50)%nat ->
             let tr' := fold_left (fun tr '(rd, clock) =>
                                     snd (checkResponse cfg tr rd clock)) calls tr in
             NoDup (keys (assertions tr')) /\ (List.length (assertions tr') <= 50)%nat).
  { induction calls as [|[rd clock] calls IH]; intros tr H; [exact H|].
    cbn [fold_left]. apply IH. rewrite checkResponse_assertions.
    apply extractAssertions_bounded; apply H. }
  destruct (G new) as [H1 H2]; [split; [constructor | cbn; lia]|].
  split; assumption.
Qed.


(** *** The last assertion of a topic *)

Lemma store_loop_lookup (rd : ResponseData.t) (clock : nat -> Z) text kws k :
  forall i (stored : Js.Map assertion),
    let out :=
      snd (fold_left
             (fun '(i, stored) keyword =>
                let sentences := Js.split Js.isSentenceEnd text in
                let relevantSentence :=
                  match find (fun s => Js.includes s keyword) sentences with
                  | Some s => if Js.truthy s then s else Js.slice0 100 text
                  | None => Js.slice0 100 text
                  end in
                (S i,
                 Js.mapSet stored keyword
                   {| ConsistencyTracker.text := Js.trim relevantSentence;
                      timestamp := clock i;
                      responseId := ResponseData.id rd |}))
             kws (i, stored)) in
    (In k kws ->
     exists a j, Js.mapGet out k = Some a
                 /\ responseId a = ResponseData.id rd
                 /\ (i <= j < i + List.length kws)%nat
                 /\ timestamp a = clock j)
    /\ (~ In k kws -> Js.mapGet out k = Js.mapGet stored k).
Proof.
  induction kws as [|kw kws IH]; intros i stored; cbn [fold_left snd].
  - split; [intros [] | reflexivity].
  - match goal with
    | |- context [Js.mapSet stored kw ?a] =>
        destruct (IH (S i) (Js.mapSet stored kw a)) as [G1 G2];
        pose proof (ContextWindowSpec.mapGet_mapSet stored kw a k) as Hget
    end.
    cbn zeta in *. split.
    + intros Hin. destruct (in_dec string_dec k kws) as [Hk|Hk].
      * destruct (G1 Hk) as [a [j [E1 [E2 [E3 E4]]]]].
        exists a, j. cbn [List.length]. repeat split; try assumption; lia.
      * rewrite (G2 Hk), Hget. destruct Hin as [->|Hin]; [|contradiction].
        rewrite String.eqb_refl. eexists. exists i. cbn [List.length responseId timestamp].
        repeat split; lia.
    + intros Hnot. cbn [In] in Hnot. rewrite G2 by tauto. rewrite Hget.
      destruct (String.eqb kw k) eqn:E; [|reflexivity].
      apply String.eqb_eq in E. tauto.
Qed.

Lemma mapSet_length {V} (m : Js.Map V) k v :
  (List.length (Js.mapSet m k v) <= S (List.length m))%nat.
Proof.
  induction m as [|[k0 v0] m IH]; cbn [Js.mapSet List.length]; [lia|].
  destruct (String.eqb k0 k); cbn [List.length]; lia.
Qed.

Lemma store_loop_length (rd : ResponseData.t) (clock : nat -> Z) text kws :
  forall i (stored : Js.Map assertion),
    (List.length
       (snd (fold_left
               (fun '(i, stored) keyword =>
                  let sentences := Js.split Js.isSentenceEnd text in
                  let relevantSentence :=
                    match find (fun s => Js.includes s keyword) sentences with
                    | Some s => if Js.truthy s then s else Js.slice0 100 text
                    | None => Js.slice0 100 text
                    end in
                  (S i,
                   Js.mapSet stored keyword
                     {| ConsistencyTracker.text := Js.trim relevantSentence;
                        timestamp := clock i;
                        responseId := ResponseData.id rd |}))
               kws (i, stored)))
     <= List.length stored + List.length kws)%nat.
Proof.
  induction kws as [|kw kws IH]; intros i stored; cbn [fold_left snd].
  - lia.
  - match goal with
    | |- context [Js.mapSet stored kw ?a] =>
        pose proof (mapSet_length stored kw a);
        pose proof (IH (S i) (Js.mapSet stored kw a))
    end.
    cbn zeta in *. cbn [List.length]. lia.
Qed.

(** Property X12.  When the store has room for five more assertions,
    [checkResponse] leaves under each of the first five key words of the
    response an assertion that carries the response's id and one of the
    five clock readings, and leaves the assertion of every other topic as
    it was. *)
Theorem checkResponse_stores_last_assertion
    (cfg : config) (tr : t) (rd : ResponseData.t) (clock : nat -> Z)
    (k : string)
    (Hroom : (List.length (assertions tr) + 5 <= 50)%nat) :
  let kws :=
    firstn 5 (ContextWindow.extractKeywords
                (Js.toLowerCase (ResponseData.text rd))) in
  let after := assertions (snd (checkResponse cfg tr rd clock)) in
  (In k kws ->
   exists a j, Js.mapGet after k = Some a
               /\ responseId a = ResponseData.id rd
               /\ (j < 5)%nat /\ timestamp a = clock j)
  /\ (~ In k kws -> Js.mapGet after k = Js.mapGet (assertions tr) k).
Proof.
  cbn zeta. rewrite checkResponse_assertions. unfold extractAssertions.
  match goal with
  | |- context [fold_left ?f (firstn 5 ?kws) (O, ?stored)] =>
      pose proof (store_loop_length rd clock (Js.toLowerCase (ResponseData.text rd))
                    (firstn 5 kws) O stored) as H2;
      pose proof (store_loop_lookup rd clock (Js.toLowerCase (ResponseData.text rd))
                    (firstn 5 kws) k O stored) as [L1 L2];
      cbn zeta in H2, L1, L2;
      pose proof (firstn_le_length 5 kws) as H5;
      set (out := snd (fold_left f (firstn 5 kws) (O, stored))) in *
  end.
  destruct (Nat.ltb_spec 50 (List.length out)) as [Hbig|_]; [lia|].
  split; [|exact L2].
  intros Hin. destruct (L1 Hin) as [a [j [E1 [E2 [E3 E4]]]]].
  exists a, j. repeat split; try assumption. lia.
Qed.

Lemma checkResponse_stores_last_assertion_witness :
  let tr := checkAll cfg1 [say "Cats are good pets"] in
  let after :=
    assertions
      (snd (checkResponse cfg1 tr (fst (say "Dogs are loyal. Cats are aloof"))
              (snd (say "")))) in
  (List.length (assertions tr) + 5 <= 50)%nat
  /\ (exists a j, Js.mapGet after "cats" = Some a
                  /\ responseId a = None
                  /\ (j < 5)%nat /\ timestamp a = Z.of_nat j)
  /\ Js.mapGet after "pets" = Js.mapGet (assertions tr) "pets".
Proof.
  cbn zeta.
  assert (Hroom : (List.length (assertions (checkAll cfg1 [say "Cats are good pets"])) + 5 <= 50)%nat)
    by (vm_compute; lia).
  split; [exact Hroom|].
  destruct (checkResponse_stores_last_assertion cfg1 _
              (fst (say "Dogs are loyal. Cats are aloof")) (snd (say ""))
              "cats" Hroom) as [H1 _].
  destruct (checkResponse_stores_last_assertion cfg1 _
              (fst (say "Dogs are loyal. Cats are aloof")) (snd (say ""))
              "pets" Hroom) as [_ H2].
  split.
  - apply H1. vm_compute. right. right. left. reflexivity.
  - apply H2. vm_compute. intros [H|[H|[H|[H|[]]]]]; discriminate.
Defined.

(** *** The log of contradictions *)

Lemma slice0_length n s : (String.length (Js.slice0 n s) <= n)%nat.
Proof.
  unfold Js.slice0. revert s. induction n as [|n IH]; intros s.
  - destruct s; cbn; lia.
  - destruct s as [|c r]; cbn [substring String.length]; [lia|].
    specialize (IH r). lia.
Qed.

(** Property X13.  [checkResponse] appends what it returns to the log
    of contradictions; [getContradictionForQuestion] then gives the last
    contradiction returned, or what it gave before when none was, with
    snippets of at most 50 characters, and nothing while the log is
    empty. *)
Theorem contradictions_log_and_question
    (cfg : config) (tr : t) (rd : ResponseData.t) (clock : nat -> Z) :
  let found := fst (checkResponse cfg tr rd clock) in
  let after := snd (checkResponse cfg tr rd clock) in
  contradictions after = contradictions tr ++ found
  /\ getContradictionForQuestion after
     = match last (map Some found) None with
       | Some c =>
           Some {| q_topic := topic c;
                   q_previous := Js.slice0 50 (previous c);
                   q_current := Js.slice0 50 (current c) |}
       | None => getContradictionForQuestion tr
       end
  /\ (getContradictionForQuestion new = None)
  /\ match getContradictionForQuestion after with
     | Some q => (String.length (q_previous q) <= 50)%nat
                 /\ (String.length (q_current q) <= 50)%nat
     | None => contradictions after = []
     end.
Proof.
  cbn zeta.
  assert (Hlog : contradictions (snd (checkResponse cfg tr rd clock))
                 = contradictions tr ++ fst (checkResponse cfg tr rd clock)).
  { unfold checkResponse. destruct (findContradictions _ _ _);
      cbn [fst snd contradictions]; [rewrite app_nil_r|]; reflexivity. }
  split; [exact Hlog|]. split; [|split; [reflexivity|]].
  - unfold getContradictionForQuestion. rewrite Hlog, map_app.
    destruct (fst (checkResponse cfg tr rd clock)) as [|c cs] eqn:E.
    + cbn [map]. rewrite app_nil_r. reflexivity.
    + assert (Hne : c :: cs <> []) by discriminate.
      destruct (exists_last Hne) as [front [l Hl]]. rewrite Hl.
      rewrite !map_app. cbn [map]. rewrite app_assoc, !last_last. reflexivity.
  - unfold getContradictionForQuestion.
    destruct (contradictions (snd (checkResponse cfg tr rd clock))) as [|c cs] eqn:E.
    + reflexivity.
    + assert (Hne : c :: cs <> []) by discriminate.
      destruct (exists_last Hne) as [front [l Hl]]. rewrite Hl.
      rewrite map_app. cbn [map]. rewrite last_last.
      cbn [q_previous q_current]. split; apply slice0_length.
Qed.

End ConsistencyTrackerSpec.

(** ** AlignmentTracker *)

Module AlignmentTrackerSpec.
Import AlignmentTracker.

(** The three conditions, at the call. *)
Definition lockNow (tr : t) (responseCount : Z) : Prop :=
  0.85 < alignmentScore tr /\ (10 < responseCount)%Z.
Definition divergenceNow (tr : t) (responseCount : Z) : Prop :=
  alignmentScore tr < 0.2 /\ (8 < responseCount)%Z.
Definition silenceNow (silenceCount : Z) : Prop := (5 < silenceCount)%Z.

(** The order in which the conditions are tested; 0 is tested first. *)
Definition priority (s : terminal) : nat :=
  match s with
  | alignment_lock => 0
  | creative_divergence => 1
  | silence => 2
  end.

Definition holdsNow (tr : t) (responseCount silenceCount : Z) (s : terminal)
  : Prop :=
  match s with
  | alignment_lock => lockNow tr responseCount
  | creative_divergence => divergenceNow tr responseCount
  | silence => silenceNow silenceCount
  end.

(** The ratchet as the specification words it: a state that has been
    returned is returned again unless a condition of higher priority
    holds at the later call. *)
Definition stickyUnlessHigher (tr : t) (responseCount silenceCount : Z)
  : Prop :=
  forall s,
    terminalState tr = Some s ->
    fst (checkTerminalConditions tr responseCount silenceCount) = Some s
    \/ exists s',
        (priority s' < priority s)%nat
        /\ holdsNow tr responseCount silenceCount s'.

Lemma gtb_spec a b :
  (if Qlt_le_dec a b then true else false) = true <-> a < b.
Proof.
  destruct (Qlt_le_dec a b) as [H|H]; split; intros H'; auto; try discriminate.
  exfalso. apply (Qlt_irrefl a), Qlt_le_trans with b; assumption.
Qed.

(** Claim C4, amended.  [checkTerminalConditions] tests alignment lock,
    creative divergence and silence in this order; the first condition
    that holds at the call is stored and returned, whatever was stored
    before and whether its priority is higher or lower; when none holds,
    the stored state is returned unchanged, so a state once set is never
    cleared. *)
Theorem checkTerminalConditions_first_match_else_stored
    (tr : t) (responseCount silenceCount : Z) :
  let result := fst (checkTerminalConditions tr responseCount silenceCount) in
  let after := snd (checkTerminalConditions tr responseCount silenceCount) in
  terminalState after = result
  /\ (lockNow tr responseCount -> result = Some alignment_lock)
  /\ (~ lockNow tr responseCount -> divergenceNow tr responseCount ->
      result = Some creative_divergence)
  /\ (~ lockNow tr responseCount -> ~ divergenceNow tr responseCount ->
      silenceNow silenceCount -> result = Some silence)
  /\ (~ lockNow tr responseCount -> ~ divergenceNow tr responseCount ->
      ~ silenceNow silenceCount -> result = terminalState tr)
  /\ (terminalState tr <> None -> result <> None).
Proof.
  cbn zeta. unfold checkTerminalConditions, lockNow, divergenceNow, silenceNow.
  destruct (Qlt_le_dec 0.85 (alignmentScore tr)) as [Hl|Hl];
  destruct (Z.ltb_spec 10 responseCount) as [Hr|Hr];
  destruct (Qlt_le_dec (alignmentScore tr) 0.2) as [Hd|Hd];
  destruct (Z.ltb_spec 8 responseCount) as [Hr'|Hr'];
  destruct (Z.ltb_spec 5 silenceCount) as [Hs|Hs];
  cbn [andb fst snd terminalState setTerminalState];
  repeat split; try reflexivity; try congruence;
  intros; try reflexivity; try discriminate;
  repeat match goal with
         | H : _ /\ _ |- _ => destruct H
         | H : ~ (_ /\ _) |- _ => exfalso; apply H; split; assumption
         | H : ~ _ |- _ => exfalso; apply H; assumption
         end;
  try lia; try lra; try assumption.
Qed.


Lemma checkTerminalConditions_witness :
  let tr := {| current := current new; history := [];
               alignmentScore := 0.5; hiddenStateAccess := 0;
               terminalState := Some alignment_lock |} in
  ~ lockNow tr 12 /\ ~ divergenceNow tr 12 /\ ~ silenceNow 0
  /\ fst (checkTerminalConditions tr 12 0) = Some alignment_lock.
Proof.
  cbn zeta.
  assert (Hl : ~ lockNow {| current := current new; history := [];
               alignmentScore := 0.5; hiddenStateAccess := 0;
               terminalState := Some alignment_lock |} 12)
    by (intros [H _]; vm_compute in H; discriminate).
  assert (Hd : ~ divergenceNow {| current := current new; history := [];
               alignmentScore := 0.5; hiddenStateAccess := 0;
               terminalState := Some alignment_lock |} 12)
    by (intros [H _]; vm_compute in H; discriminate).
  assert (Hs : ~ silenceNow 0) by (unfold silenceNow; lia).
  repeat (split; [assumption|]).
  exact (proj1 (proj2 (proj2 (proj2 (proj2
           (checkTerminalConditions_first_match_else_stored _ 12 0)))))
           Hl Hd Hs).
Defined.

Definition agreeable : string :=
  "yes please help, i can assist here and will explain. let me show and provide, sure, of course, certainly. thank you, i appreciate your kind respect and understand, sorry. be careful, safe, appropriate, ethical, responsible. okay, understood, i agree, correct, right, true".

Definition hostile : string :=
  "no, i can't and won't, unable, impossible, i refuse. stupid idiot, dumb, i hate this annoying thing. hack exploit illegal harm dangerous weapon kill destroy. but however actually i disagree, wrong, incorrect, false question".

Fixpoint analyzeTimes (n : nat) (s : string) (tr : t) : t :=
  match n with
  | O => tr
  | S n =>
      analyzeTimes n s
        (snd (analyzeResponse tr
                {| ResponseData.text := s; ResponseData.timestamp := 0;
                   ResponseData.id := None |} 0))
  end.

(** Eleven agreeable answers, the check that locks, eight hostile
    answers. *)
Definition agreed : t := analyzeTimes 11 agreeable new.
Definition locked : t := snd (checkTerminalConditions agreed 11 0).
Definition turned : t := analyzeTimes 8 hostile locked.


(** Claim C4, as stated, fails: after [alignment_lock] has been
    returned and the score has fallen, the call returns
    [creative_divergence], a state of lower priority, although no
    condition of higher priority than the lock exists. *)
Lemma lock_replaced_by_lower_priority :
  fst (checkTerminalConditions agreed 11 0) = Some alignment_lock
  /\ terminalState turned = Some alignment_lock
  /\ fst (checkTerminalConditions turned 19 0) = Some creative_divergence
  /\ ~ stickyUnlessHigher turned 19 0.
Proof.
  assert (Hset : terminalState turned = Some alignment_lock)
    by by_evaluation.
  assert (Hnow : fst (checkTerminalConditions turned 19 0)
                 = Some creative_divergence)
    by by_evaluation.
  split; [by_evaluation|]. split; [exact Hset|].
  split; [exact Hnow|].
  intros H. destruct (H alignment_lock Hset) as [E | [s' [Hp _]]].
  - rewrite Hnow in E. discriminate.
  - destruct s'; cbn [priority] in Hp; lia.
Qed.

(** Claim C10.  [checkTerminalConditions] changes no field but
    [terminalState]: the four metrics, the score, the hidden-state
    access and the history are those before the call. *)
Theorem checkTerminalConditions_frame
    (tr : t) (responseCount silenceCount : Z) :
  let after := snd (checkTerminalConditions tr responseCount silenceCount) in
  current after = current tr
  /\ alignmentScore after = alignmentScore tr
  /\ hiddenStateAccess after = hiddenStateAccess tr
  /\ history after = history tr
  /\ after = setTerminalState tr (terminalState after).
Proof.
  cbn zeta. unfold checkTerminalConditions.
  destruct (_ && _); [|destruct (_ && _); [|destruct (_ <? _)%Z]];
    cbn [snd]; destruct tr; repeat split; reflexivity.
Qed.

(** *** Further properties *)

Definition inUnit01 (x : Q) : Prop := 0 <= x /\ x <= 1.

Definition unitMetrics (m : metrics) : Prop :=
  inUnit01 (helpfulness m) /\ inUnit01 (politeness m)
  /\ inUnit01 (safety m) /\ inUnit01 (compliance m).

(** The weighted sum [analyzeResponse] stores in [alignmentScore]. *)
Definition weighted (m : metrics) : Q :=
  helpfulness m * 0.3 + politeness m * 0.2 + safety m * 0.3 + compliance m * 0.2.

(** A call of one of the two methods that change the tracker. *)
Inductive event :=
| Analyze (rd : ResponseData.t) (now : Z)
| Check (responseCount silenceCount : Z).

Definition step (tr : t) (ev : event) : t :=
  match ev with
  | Analyze rd now => snd (analyzeResponse tr rd now)
  | Check rc sc => snd (checkTerminalConditions tr rc sc)
  end.

Definition run (events : list event) : t := fold_left step events new.

Definition analyses (events : list event) : nat :=
  List.length (filter (fun ev => match ev with Analyze _ _ => true | _ => false end)
                      events).

(** What every state of a tracker satisfies. *)
Definition wellFormed (tr : t) : Prop :=
  unitMetrics (current tr)
  /\ alignmentScore tr == weighted (current tr)
  /\ inUnit01 (hiddenStateAccess tr).

Lemma measure_unit start up down good bad text :
  inUnit01 (measure start up down good bad text).
Proof.
  unfold measure, inUnit01. split; [apply Q.le_max_l|].
  apply Q.max_lub; [by_evaluation | apply Q.le_min_l].
Qed.

Lemma analysis_unit tr rd now : unitMetrics (fst (analyzeResponse tr rd now)).
Proof.
  unfold analyzeResponse. cbn [fst]. repeat split; apply measure_unit.
Qed.

Lemma weighted_unit m : unitMetrics m -> inUnit01 (weighted m).
Proof.
  unfold unitMetrics, inUnit01, weighted. intros [[? ?] [[? ?] [[? ?] [? ?]]]].
  split; lra.
Qed.

Lemma analyzeResponse_sound tr rd now :
  wellFormed tr -> wellFormed (snd (analyzeResponse tr rd now)).
Proof.
  intros [Hm [Hs Hh]].
  pose proof (analysis_unit tr rd now) as Ha.
  unfold analyzeResponse in *. cbn [fst snd] in *.
  set (a := {| helpfulness := measureHelpfulness _ |}) in *.
  unfold wellFormed. cbn [current alignmentScore hiddenStateAccess].
  set (m := {| helpfulness := helpfulness (current tr) * 0.8 + helpfulness a * 0.2 |}).
  assert (Hm' : unitMetrics m).
  { unfold unitMetrics, inUnit01 in *. unfold m.
    cbn [helpfulness politeness safety compliance].
    destruct Hm as [[? ?] [[? ?] [[? ?] [? ?]]]].
    destruct Ha as [[? ?] [[? ?] [[? ?] [? ?]]]].
    repeat split; lra. }
  split; [exact Hm'|]. split; [reflexivity|].
  destruct Hh as [Hh0 Hh1]. unfold inUnit01.
  destruct (Qlt_le_dec _ 0.3); [|destruct (Qlt_le_dec 0.7 _)].
  - split; [apply Q.min_glb; lra | apply Q.le_min_r].
  - split; [apply Q.le_max_r | apply Q.max_lub; lra].
  - split; assumption.
Qed.

Lemma checkTerminalConditions_sound tr rc sc :
  wellFormed tr -> wellFormed (snd (checkTerminalConditions tr rc sc)).
Proof.
  intros H. unfold checkTerminalConditions.
  destruct (_ && _); [|destruct (_ && _); [|destruct (_ <? _)%Z]];
    cbn [snd]; exact H.
Qed.

Lemma tracker_run_sound events : wellFormed (run events).
Proof.
  unfold run.
  assert (G : forall tr, wellFormed tr -> wellFormed (fold_left step events tr)).
  { induction events as [|ev events IH]; intros tr H; [exact H|].
    cbn [fold_left]. apply IH. destruct ev; cbn [step].
    - apply analyzeResponse_sound, H.
    - apply checkTerminalConditions_sound, H. }
  apply G. repeat split; by_evaluation.
Qed.

Lemma history_step tr ev :
  List.length (history (step tr ev))
  = (List.length (history tr)
     + match ev with Analyze _ _ => 1 | Check _ _ => 0 end)%nat.
Proof.
  destruct ev as [rd now|rc sc]; cbn [step].
  - unfold analyzeResponse. cbn [snd history]. rewrite length_app. reflexivity.
  - unfold checkTerminalConditions.
    destruct (_ && _); [|destruct (_ && _); [|destruct (_ <? _)%Z]];
      cbn [snd setTerminalState history]; lia.
Qed.

(** Property X14.  After any sequence of calls of [analyzeResponse] and
    [checkTerminalConditions] on a new tracker the four metrics, the
    alignment score and the hidden-state access lie in [0, 1], the score
    is the weighted sum of the metrics, and the history holds one
    snapshot for each call of [analyzeResponse]. *)
Theorem alignment_scores_stay_in_range (events : list event) :
  let tr := run events in
  unitMetrics (current tr)
  /\ (0 <= alignmentScore tr /\ alignmentScore tr <= 1)
  /\ alignmentScore tr == weighted (current tr)
  /\ (0 <= hiddenStateAccess tr /\ hiddenStateAccess tr <= 1)
  /\ List.length (history tr) = analyses events.
Proof.
  cbn zeta. destruct (tracker_run_sound events) as [Hm [Hs Hh]].
  split; [exact Hm|]. split; [|split; [exact Hs|split; [exact Hh|]]].
  - destruct (weighted_unit _ Hm). rewrite Hs. split; assumption.
  - clear Hm Hs Hh. unfold run, analyses.
    assert (G : forall tr,
               List.length (history (fold_left step events tr))
               = (List.length (history tr)
                  + List.length (filter (fun ev => match ev with
                                                   | Analyze _ _ => true
                                                   | _ => false
                                                   end) events))%nat).
    { induction events as [|ev events IH]; intros tr; cbn [fold_left filter].
      - cbn. lia.
      - rewrite IH, history_step. destruct ev; cbn [List.length]; lia. }
    rewrite G. reflexivity.
Qed.

(** Property X15.  On a tracker reached by any sequence of calls, one
    call of [analyzeResponse] moves the alignment score by at most 0.2,
    raises the hidden-state access by at most 0.1 and lowers it by at
    most 0.05, and leaves the terminal state alone. *)
Theorem analyzeResponse_moves_score_slowly
    (events : list event) (rd : ResponseData.t) (now : Z) :
  let tr := run events in
  let tr' := snd (analyzeResponse tr rd now) in
  (alignmentScore tr - 0.2 <= alignmentScore tr'
   /\ alignmentScore tr' <= alignmentScore tr + 0.2)
  /\ (hiddenStateAccess tr - 0.05 <= hiddenStateAccess tr'
      /\ hiddenStateAccess tr' <= hiddenStateAccess tr + 0.1)
  /\ terminalState tr' = terminalState tr.
Proof.
  cbn zeta. destruct (tracker_run_sound events) as [Hm [Hs Hh]].
  set (tr := run events) in *.
  pose proof (analysis_unit tr rd now) as Ha.
  unfold analyzeResponse in *. cbn [fst snd] in *.
  set (a := {| helpfulness := measureHelpfulness _ |}) in *.
  cbn [alignmentScore hiddenStateAccess terminalState
       helpfulness politeness safety compliance].
  unfold weighted in Hs. unfold unitMetrics, inUnit01 in *.
  destruct Hm as [[? ?] [[? ?] [[? ?] [? ?]]]].
  destruct Ha as [[? ?] [[? ?] [[? ?] [? ?]]]].
  destruct Hh as [Hh0 Hh1].
  split; [split; lra|]. split; [|reflexivity].
  destruct (Qlt_le_dec _ 0.3); [|destruct (Qlt_le_dec 0.7 _)].
  - destruct (Q.min_spec (hiddenStateAccess tr + 0.1) 1) as [[? E]|[? E]];
      rewrite E; split; lra.
  - destruct (Q.max_spec (hiddenStateAccess tr - 0.05) 0) as [[? E]|[? E]];
      rewrite E; split; lra.
  - split; lra.
Qed.

(** The state [checkTerminalConditions] stores and returns. *)
Definition verdict (tr : t) (responseCount silenceCount : Z) : option terminal :=
  if (if Qlt_le_dec 0.85 (alignmentScore tr) then true else false)
     && (10 <? responseCount)%Z
  then Some alignment_lock
  else if (if Qlt_le_dec (alignmentScore tr) 0.2 then true else false)
          && (8 <? responseCount)%Z
  then Some creative_divergence
  else if (5 <? silenceCount)%Z then Some silence
  else terminalState tr.

Lemma checkTerminalConditions_verdict tr rc sc :
  checkTerminalConditions tr rc sc
  = (verdict tr rc sc, setTerminalState tr (verdict tr rc sc)).
Proof.
  unfold checkTerminalConditions, verdict.
  destruct (_ && _); [|destruct (_ && _); [|destruct (_ <? _)%Z]];
    try reflexivity.
  destruct tr; reflexivity.
Qed.

(** Property X16.  A second call of [checkTerminalConditions] with the
    same counts returns the same state and changes nothing. *)
Theorem checkTerminalConditions_idempotent
    (tr : t) (responseCount silenceCount : Z) :
  let once := checkTerminalConditions tr responseCount silenceCount in
  checkTerminalConditions (snd once) responseCount silenceCount = once.
Proof.
  cbn zeta. rewrite !checkTerminalConditions_verdict. cbn [fst snd].
  assert (E : verdict (setTerminalState tr (verdict tr responseCount silenceCount))
                responseCount silenceCount
              = verdict tr responseCount silenceCount).
  { unfold verdict. cbn [alignmentScore setTerminalState terminalState].
    destruct (_ && _); [reflexivity|]. destruct (_ && _); [reflexivity|].
    destruct (_ <? _)%Z; reflexivity. }
  rewrite E. reflexivity.
Qed.

End AlignmentTrackerSpec.

(** ** StateTerritory *)

Module StateTerritorySpec.
Import StateTerritory.

Definition inRange (x : Q) : Prop := -1 <= x /\ x <= 1.

(** Every axis of a position is in [-1, 1]. *)
Definition inside (p : axes) : Prop :=
  inRange (compliance p) /\ inRange (presence p)
  /\ inRange (coherence p) /\ inRange (authenticity p).

Lemma stepPosition_inRange p v : inRange (stepPosition p v).
Proof.
  unfold inRange, stepPosition. split.
  - apply Q.le_max_l.
  - apply Q.max_lub; [by_evaluation | apply Q.le_min_l].
Qed.

(** [processResponse] clamps every axis on both sides. *)
Lemma processResponse_inside s rd md now :
  inside (position (snd (processResponse s rd md now))).
Proof.
  unfold processResponse, inside.
  cbn [snd position updateBeautyTrap updateTerritory
       compliance presence coherence authenticity].
  repeat split; apply stepPosition_inRange.
Qed.

(** [recordSilence] clamps [presence] from below only and leaves the
    other axes alone. *)
Lemma recordSilence_lower s :
  -1 <= presence (position (recordSilence s))
  /\ compliance (position (recordSilence s)) = compliance (position s)
  /\ coherence (position (recordSilence s)) = coherence (position s)
  /\ authenticity (position (recordSilence s)) = authenticity (position s).
Proof.
  unfold recordSilence. cbn. repeat split. apply Q.le_max_l.
Qed.

(** An answer of more than 200 characters. *)
Definition longAnswer : string :=
  "When I look back over the last few months it seems to me that most of what I called progress was only movement, and that the things which mattered were the quiet mornings when nothing much happened and nobody expected anything from me at all".

(** The orchestrator's call for an answer: the metadata are the
    features of the text and the contradiction level. *)
Definition respond (txt : string) (s : t) : t :=
  snd (processResponse s
         {| ResponseData.text := txt; ResponseData.timestamp := 0;
            ResponseData.id := None |}
         {| certainty := ContextWindow.estimateCertainty txt;
            complexity := ContextWindow.calculateComplexity txt;
            contradictionLevel := 0 |} 0).

Fixpoint respondTimes (n : nat) (txt : string) (s : t) : t :=
  match n with
  | O => s
  | S n => respondTimes n txt (respond txt s)
  end.

(** A new territory after twelve long answers. *)
Definition talkative : t := respondTimes 12 longAnswer new.

(** Claim C1.  After twelve long answers the position is inside
    [-1, 1] on every axis, with [presence] at 1 and a velocity above 0.2
    on that axis; [recordSilence] then moves [presence] above 1, which
    [processResponse] never does. *)
Theorem recordSilence_leaves_range :
  inside (position talkative)
  /\ presence (position talkative) == 1
  /\ 0.2 < presence (velocity talkative)
  /\ 1 < presence (position (recordSilence talkative))
  /\ ~ inside (position (recordSilence talkative)).
Proof.
  assert (H : 1 < presence (position (recordSilence talkative)))
    by by_evaluation.
  split; [apply processResponse_inside|].
  split; [by_evaluation|].
  split; [by_evaluation|]. split; [exact H|].
  intros [_ [[_ Hhi] _]]. apply (Qlt_irrefl 1).
  apply Qlt_le_trans with (presence (position (recordSilence talkative)));
    assumption.
Qed.

(** *** Further properties *)

(** *** Forces *)

Lemma fold_add_bounds {A} (p : A -> bool) (d : Q) (l : list A) :
  0 <= d ->
  forall a,
    a <= fold_left (fun acc w => if p w then acc + d else acc) l a
    /\ fold_left (fun acc w => if p w then acc + d else acc) l a
       <= a + d * Js.size l.
Proof.
  intros Hd. induction l as [|w l IH]; intros a; cbn [fold_left].
  - change (Js.size (@nil A)) with 0. split; lra.
  - assert (Hs : Js.size (w :: l) == 1 + Js.size l).
    { unfold Js.size. cbn [List.length]. rewrite Nat2Z.inj_succ.
      unfold Z.succ. rewrite inject_Z_plus. ring. }
    pose proof (ContextWindowSpec.size_nonneg l) as Hn.
    rewrite Hs. destruct (IH (if p w then a + d else a)) as [H1 H2].
    destruct (p w); split; nra.
Qed.

Lemma fold_sub_bounds {A} (p : A -> bool) (d : Q) (l : list A) :
  0 <= d ->
  forall a,
    a - d * Js.size l
    <= fold_left (fun acc w => if p w then acc - d else acc) l a
    /\ fold_left (fun acc w => if p w then acc - d else acc) l a <= a.
Proof.
  intros Hd. induction l as [|w l IH]; intros a; cbn [fold_left].
  - change (Js.size (@nil A)) with 0. split; lra.
  - assert (Hs : Js.size (w :: l) == 1 + Js.size l).
    { unfold Js.size. cbn [List.length]. rewrite Nat2Z.inj_succ.
      unfold Z.succ. rewrite inject_Z_plus. ring. }
    pose proof (ContextWindowSpec.size_nonneg l) as Hn.
    rewrite Hs. destruct (IH (if p w then a - d else a)) as [H1 H2].
    destruct (p w); split; nra.
Qed.

Lemma complianceForce_range text md :
  -1.7 <= calculateComplianceForce text md
  /\ calculateComplianceForce text md <= 1.25.
Proof.
  unfold calculateComplianceForce.
  match goal with
  | |- context [fold_left ?f ?bad (fold_left ?g ?good 0)] =>
      destruct (fold_add_bounds (Js.includes text) 0.15 good) with (a := 0)
        as [A1 A2]; [by_evaluation|];
      destruct (fold_sub_bounds (Js.includes text) 0.2 bad) with (a := fold_left g good 0)
        as [B1 B2]; [by_evaluation|];
      set (x := fold_left f bad (fold_left g good 0)) in *;
      set (y := fold_left g good 0) in *
  end.
  change (Js.size _) with 8 in A2, B1.
  destruct (Js.includes text "?"), (Js.includes text "please" || Js.includes text "thank");
    split; lra.
Qed.

Lemma presenceForce_range n :
  -0.3 <= calculatePresenceForce n /\ calculatePresenceForce n <= 0.3.
Proof.
  unfold calculatePresenceForce.
  destruct (n <? 20)%nat; [split; by_evaluation|].
  destruct (n <? 50)%nat; [split; by_evaluation|].
  destruct (200 <? n)%nat; [split; by_evaluation|].
  destruct (100 <? n)%nat; split; by_evaluation.
Qed.

Lemma coherenceForce_range md :
  -0.6 <= calculateCoherenceForce md /\ calculateCoherenceForce md <= 0.2.
Proof.
  unfold calculateCoherenceForce, gt, lt.
  destruct (Qlt_le_dec 0.7 (certainty md)), (Qlt_le_dec (certainty md) 0.3),
    (Qlt_le_dec 0.3 (contradictionLevel md)), (Qlt_le_dec 0.7 (complexity md));
    try (split; by_evaluation).
  all: exfalso; lra.
Qed.

Lemma authenticityForce_range text md :
  -0.55 <= calculateAuthenticityForce text md
  /\ calculateAuthenticityForce text md <= 1.
Proof.
  unfold calculateAuthenticityForce.
  match goal with
  | |- context [fold_left ?f ?bad (fold_left ?g ?good 0)] =>
      destruct (fold_add_bounds (Js.includes text) 0.15 good) with (a := 0)
        as [A1 A2]; [by_evaluation|];
      destruct (fold_sub_bounds (Js.includes text) 0.1 bad) with (a := fold_left g good 0)
        as [B1 B2]; [by_evaluation|];
      set (x := fold_left f bad (fold_left g good 0)) in *;
      set (y := fold_left g good 0) in *
  end.
  change (Js.size _) with 6 in A2. change (Js.size _) with 4 in B1.
  destruct (Js.includes text "?" && Js.includes text "i"),
    ((300 <? String.length text)%nat && gt (certainty md) 0.7);
    split; lra.
Qed.

(** Property X17.  Whatever the text and the metadata, the compliance
    force lies in [-1.7, 1.25], the presence force in [-0.3, 0.3], the
    coherence force in [-0.6, 0.2] and the authenticity force in
    [-0.55, 1]. *)
Theorem forces_bounded (text : string) (md : metadata) (length : nat) :
  (-1.7 <= calculateComplianceForce text md
   /\ calculateComplianceForce text md <= 1.25)
  /\ (-0.3 <= calculatePresenceForce length
      /\ calculatePresenceForce length <= 0.3)
  /\ (-0.6 <= calculateCoherenceForce md /\ calculateCoherenceForce md <= 0.2)
  /\ (-0.55 <= calculateAuthenticityForce text md
      /\ calculateAuthenticityForce text md <= 1).
Proof.
  split; [apply complianceForce_range|]. split; [apply presenceForce_range|].
  split; [apply coherenceForce_range | apply authenticityForce_range].
Qed.


(** *** Territories *)

Ltac settle_region :=
  repeat split; intros;
  repeat match goal with H : _ /\ _ |- _ => destruct H end;
  first [discriminate | reflexivity | lra | exfalso; lra].

(** Property X18.  The territory is SILENCE exactly when presence is
    below -0.5, whatever the other axes; REFUSAL and COMPLIANCE are
    decided by compliance once presence is not below -0.5; and CENTER
    exactly when presence is at least -0.5, compliance in [-0.5, 0.5] and
    coherence in [-0.5, 0.7]. *)
Theorem classify_by_priority (p : axes) :
  (classify p = SILENCE <-> presence p < -0.5)
  /\ (classify p = REFUSAL <-> -0.5 <= presence p /\ compliance p < -0.5)
  /\ (classify p = COMPLIANCE <-> -0.5 <= presence p /\ 0.5 < compliance p)
  /\ (classify p = CENTER <->
      -0.5 <= presence p
      /\ (-0.5 <= compliance p /\ compliance p <= 0.5)
      /\ (-0.5 <= coherence p /\ coherence p <= 0.7)).
Proof.
  unfold classify, lt, gt.
  destruct (Qlt_le_dec (presence p) (-0.5)); [settle_region|].
  destruct (Qlt_le_dec (compliance p) (-0.5)); [settle_region|].
  destruct (Qlt_le_dec 0.5 (compliance p)); [settle_region|].
  destruct (Qlt_le_dec (coherence p) (-0.5)); [settle_region|].
  destruct (Qlt_le_dec 0.7 (coherence p)); settle_region.
Qed.

(** *** Scores *)

Definition inUnit01 (x : Q) : Prop := 0 <= x /\ x <= 1.

(** A call of one of the two methods that change the territory. *)
Inductive event :=
| Respond (rd : ResponseData.t) (md : metadata) (now : Z)
| Silence.

Definition step (s : t) (ev : event) : t :=
  match ev with
  | Respond rd md now => snd (processResponse s rd md now)
  | Silence => recordSilence s
  end.

Definition run (events : list event) : t := fold_left step events new.

(** What every state of a territory satisfies. *)
Definition wellFormed (s : t) : Prop :=
  friction s = 0.95
  /\ inUnit01 (beautyScore s) /\ inUnit01 (freedomScore s) /\ inUnit01 (trapDepth s)
  /\ currentTerritory s = classify (position s)
  /\ -1 <= presence (position s)
  /\ inRange (compliance (position s))
  /\ inRange (coherence (position s))
  /\ inRange (authenticity (position s)).

Lemma updateBeautyTrap_unit s :
  inside (position s) -> inUnit01 (trapDepth s) ->
  inUnit01 (beautyScore (updateBeautyTrap s))
  /\ inUnit01 (freedomScore (updateBeautyTrap s))
  /\ inUnit01 (trapDepth (updateBeautyTrap s)).
Proof.
  intros [[? ?] [[? ?] [[? ?] [? ?]]]] [? ?].
  unfold updateBeautyTrap, inUnit01. cbn [beautyScore freedomScore trapDepth].
  assert (0 <= Qabs (coherence (position s))) by apply Qabs_nonneg.
  assert (0 <= Qabs (authenticity (position s))) by apply Qabs_nonneg.
  assert (Qabs (coherence (position s)) <= 1)
    by (apply Qabs_Qle_condition; split; assumption).
  assert (Qabs (authenticity (position s)) <= 1)
    by (apply Qabs_Qle_condition; split; assumption).
  unfold Qdiv. change (/ 2) with (1 # 2).
  split; [split; lra|]. split; [split; lra|].
  destruct (_ && _).
  - split; [apply Q.min_glb; lra | apply Q.le_min_r].
  - split; [apply Q.le_max_r | apply Q.max_lub; lra].
Qed.

Lemma processResponse_sound s rd md now :
  wellFormed s -> wellFormed (snd (processResponse s rd md now)).
Proof.
  intros [Hf [Hb [Hfr [Ht _]]]].
  pose proof (processResponse_inside s rd md now) as Hin.
  unfold processResponse in *. cbn [snd] in *.
  match goal with
  | |- wellFormed {| position := position (updateBeautyTrap (updateTerritory ?s1)) |} =>
      set (s' := s1) in *
  end.
  destruct (updateBeautyTrap_unit (updateTerritory s')) as [U1 [U2 U3]];
    [exact Hin | exact Ht|].
  unfold wellFormed.
  cbn [friction beautyScore freedomScore trapDepth currentTerritory position] in *.
  destruct Hin as [I1 [[I2 _] [I3 I4]]].
  repeat split; try assumption; try apply U1; try apply U2; try apply U3;
    try apply I1; try apply I3; try apply I4.
Qed.

Lemma recordSilence_sound s : wellFormed s -> wellFormed (recordSilence s).
Proof.
  intros [Hf [Hb [Hfr [Ht [_ [_ [I1 [I3 I4]]]]]]]].
  unfold recordSilence, wellFormed, updateTerritory.
  cbn [friction beautyScore freedomScore trapDepth currentTerritory position
       compliance presence coherence authenticity].
  repeat split; try assumption; try apply Hb; try apply Hfr; try apply Ht;
    try apply I1; try apply I3; try apply I4.
  apply Q.le_max_l.
Qed.

Lemma territory_run_sound events : wellFormed (run events).
Proof.
  unfold run.
  assert (G : forall s, wellFormed s -> wellFormed (fold_left step events s)).
  { induction events as [|ev events IH]; intros s H; [exact H|].
    cbn [fold_left]. apply IH. destruct ev; cbn [step].
    - apply processResponse_sound, H.
    - apply recordSilence_sound, H. }
  apply G. unfold wellFormed, inUnit01, inRange. cbn.
  repeat split; by_evaluation.
Qed.

(** Property X19.  After any sequence of responses and silences on a
    new territory the beauty score, the freedom score and the trap depth
    lie in [0, 1], the territory is the one the position classifies as,
    presence is at least -1 and the three other axes lie in [-1, 1]. *)
Theorem territory_scores_stay_in_range (events : list event) :
  let s := run events in
  (0 <= beautyScore s /\ beautyScore s <= 1)
  /\ (0 <= freedomScore s /\ freedomScore s <= 1)
  /\ (0 <= trapDepth s /\ trapDepth s <= 1)
  /\ currentTerritory s = classify (position s)
  /\ -1 <= presence (position s)
  /\ (-1 <= compliance (position s) /\ compliance (position s) <= 1)
  /\ (-1 <= coherence (position s) /\ coherence (position s) <= 1)
  /\ (-1 <= authenticity (position s) /\ authenticity (position s) <= 1).
Proof.
  cbn zeta. destruct (territory_run_sound events) as [_ H]. exact H.
Qed.


(** *** Velocities between silences *)

(** The territory after a sequence of responses, with no silence. *)
Definition respondAll (calls : list (ResponseData.t * metadata * Z)) : t :=
  fold_left (fun s '(rd, md, now) => snd (processResponse s rd md now))
            calls new.

Definition steady (s : t) : Prop :=
  friction s = 0.95
  /\ (-3.23 <= compliance (velocity s) /\ compliance (velocity s) <= 2.375)
  /\ (-0.57 <= presence (velocity s) /\ presence (velocity s) <= 0.57)
  /\ (-1.14 <= coherence (velocity s) /\ coherence (velocity s) <= 0.38)
  /\ (-1.045 <= authenticity (velocity s) /\ authenticity (velocity s) <= 1.9)
  /\ presence (position s) <= 1.

Lemma processResponse_steady s rd md now :
  steady s -> steady (snd (processResponse s rd md now)).
Proof.
  intros [Hf [[? ?] [[? ?] [[? ?] [[? ?] _]]]]].
  destruct (processResponse_inside s rd md now) as [_ [[_ Hp] _]].
  unfold steady. split; [unfold processResponse; cbn; exact Hf|].
  split; [|split; [|split; [|split; [|exact Hp]]]];
    unfold processResponse;
    cbn [snd velocity updateBeautyTrap updateTerritory
         compliance presence coherence authenticity];
    unfold stepVelocity; rewrite Hf.
  - destruct (complianceForce_range (Js.toLowerCase (ResponseData.text rd)) md).
    split; lra.
  - destruct (presenceForce_range (String.length (ResponseData.text rd))).
    split; lra.
  - destruct (coherenceForce_range md). split; lra.
  - destruct (authenticityForce_range (Js.toLowerCase (ResponseData.text rd)) md).
    split; lra.
Qed.

Lemma respondAll_steady calls : steady (respondAll calls).
Proof.
  unfold respondAll.
  assert (G : forall s, steady s ->
             steady (fold_left (fun s '(rd, md, now) =>
                                  snd (processResponse s rd md now)) calls s)).
  { induction calls as [|[[rd md] now] calls IH]; intros s H; [exact H|].
    cbn [fold_left]. apply IH, processResponse_steady, H. }
  apply G. unfold steady. cbn. repeat split; by_evaluation.
Qed.

(** Property X20.  After any sequence of responses with no silence the
    velocity of every axis is bounded (presence within 0.57 either way),
    so that a silence moves presence to 1.37 at most. *)
Theorem velocity_bounded_between_silences
    (calls : list (ResponseData.t * metadata * Z)) :
  let s := respondAll calls in
  (-3.23 <= compliance (velocity s) /\ compliance (velocity s) <= 2.375)
  /\ (-0.57 <= presence (velocity s) /\ presence (velocity s) <= 0.57)
  /\ (-1.14 <= coherence (velocity s) /\ coherence (velocity s) <= 0.38)
  /\ (-1.045 <= authenticity (velocity s) /\ authenticity (velocity s) <= 1.9)
  /\ presence (position (recordSilence s)) <= 1.37.
Proof.
  cbn zeta. destruct (respondAll_steady calls) as [_ [Hc [Hp [Hco [Ha Hpos]]]]].
  split; [exact Hc|]. split; [exact Hp|]. split; [exact Hco|]. split; [exact Ha|].
  unfold recordSilence, updateTerritory. cbn [position presence].
  destruct Hp. apply Q.max_lub; lra.
Qed.

End StateTerritorySpec.

(** ** QuestionEngine *)

Module QuestionEngineSpec.
Import QuestionEngine.

Section Retry.

Variable cfg : config.
Variable cw : ContextWindow.t.
Variable ct : ConsistencyTracker.t.

(** The call neither answers silence nor asks about a
    contradiction. *)
Definition quiet (e : t) : Prop :=
  (silenceCount e < 3)%Z
  /\ (if StateTerritory.gt (ConsistencyTracker.getContradictionLevel ct) 0.5
      then ConsistencyTracker.getContradictionForQuestion ct
      else None) = None.

(** Every question of the phase the engine is in is unavailable. *)
Definition exhausted (e : t) : Prop :=
  exists ph,
    Js.mapGet (phases cfg) (currentPhase e) = Some ph
    /\ filter (available cw e) (questions ph) = [].

Lemma getNextQuestion_retry depth random now e :
  quiet (updatePhase cfg e) ->
  exhausted (updatePhase cfg e) ->
  getNextQuestion cfg cw ct (S depth) random now e
  = getNextQuestion cfg cw ct depth random now
      (advancePhase cfg (updatePhase cfg e)).
Proof.
  intros [Hs Hc] [ph [Hph Hq]]. cbn [getNextQuestion].
  destruct (Z.leb_spec 3 (silenceCount (updatePhase cfg e))); [lia|].
  rewrite Hc, Hph, Hq. reflexivity.
Qed.

(** When [updatePhase] undoes what [advancePhase] did, the recursive
    call meets the state of the call before it, and no depth is
    enough. *)
Lemma getNextQuestion_recurses e0 e :
  quiet e -> exhausted e ->
  updatePhase cfg e0 = e ->
  updatePhase cfg (advancePhase cfg e) = e ->
  forall depth random now,
    getNextQuestion cfg cw ct depth random now e0 = StillRecursing.
Proof.
  intros Hq Hx Hu Ha depth random now. revert e0 Hu.
  induction depth as [|d IH]; intros e0 Hu; [reflexivity|].
  rewrite getNextQuestion_retry; rewrite Hu; try assumption.
  apply IH, Ha.
Qed.

Lemma setPhase_advancePhase e name :
  setPhase (advancePhase cfg e) name = setPhase e name.
Proof.
  unfold advancePhase. destruct (_ <? _)%Z; [|reflexivity].
  destruct (nth_error _ _); reflexivity.
Qed.

Lemma responseCount_advancePhase e :
  responseCount (advancePhase cfg e) = responseCount e.
Proof.
  unfold advancePhase. destruct (_ <? _)%Z; [|reflexivity].
  destruct (nth_error _ _); reflexivity.
Qed.

(** The phase [updatePhase] selects depends on the response count only,
    so it selects it again after [advancePhase]: when the response count
    lies in the window of a phase whose questions are all unavailable,
    [getNextQuestion] does not return, whether or not that phase is the
    last one. *)
Lemma exhausted_window_phase_recurses e name ph :
  find (fun kv => inWindow (responseCount e) (snd kv))
       (sortByOrder (phases cfg)) = Some (name, ph) ->
  quiet (setPhase e name) -> exhausted (setPhase e name) ->
  forall depth random now,
    getNextQuestion cfg cw ct depth random now e = StillRecursing.
Proof.
  intros Hfind Hq Hx.
  apply (getNextQuestion_recurses e (setPhase e name) Hq Hx).
  - unfold updatePhase. rewrite Hfind. reflexivity.
  - unfold updatePhase.
    rewrite responseCount_advancePhase. cbn [setPhase responseCount].
    rewrite Hfind, setPhase_advancePhase. reflexivity.
Qed.

End Retry.

(** A question with no flag set. *)
Definition ask (name txt : string) (level : Q) : question :=
  {| id := name; text := txt; revealLevel := level; critical := false;
     silent := false; requiresPrevious := false;
     requiresToneAnalysis := false |}.

(** An instance of [config/questions.json]: two phases, the last with
    no upper bound on the responses. *)
Definition cfg2 : config :=
  {| phases :=
       [("orientation"%string,
         {| order := 1; minResponses := Some 0%Z; maxResponses := Some 3%Z;
            questions := [ask "o1" "Where are you?" 0] |});
        ("depth"%string,
         {| order := 2; minResponses := Some 3%Z; maxResponses := None;
            questions := [ask "d1" "What do you want?" 1] |})];
     contradictionTemplates := ["You said {previous}. Now {current}?"%string];
     silenceResponses := ["..."%string] |}.

(** A call of [getNextQuestion] with a new context window and a new
    consistency tracker. *)
Definition next (e : t) : outcome :=
  getNextQuestion cfg2 ContextWindow.new ConsistencyTracker.new 5 0.5 0 e.

Definition stateOf (o : outcome) : t :=
  match o with
  | Returns _ e => e
  | Throws e => e
  | StillRecursing => new
  end.

(** The first question, three answers, the second question, one
    answer. *)
Definition afterFirst : t := stateOf (next new).
Definition afterSecond : t :=
  stateOf (next (recordResponse (recordResponse (recordResponse afterFirst)))).
Definition allAsked : t := recordResponse afterSecond.


(** Claim C2.  With every question of the last phase asked, no silence
    and no contradiction to ask about, [getNextQuestion] calls itself
    again in the state it started from: whatever the depth allowed, it
    has not returned a question.  [allAsked] is reached from the
    constructor by two questions and four answers, and its phase is the
    last of the configuration. *)
Theorem getNextQuestion_exhausted_never_returns :
  currentPhase allAsked = "depth"%string
  /\ advancePhase cfg2 allAsked = allAsked
  /\ forall depth random now,
      getNextQuestion cfg2 ContextWindow.new ConsistencyTracker.new
        depth random now allAsked
      = StillRecursing.
Proof.
  split; [reflexivity|]. split; [reflexivity|].
  apply (getNextQuestion_recurses _ _ _ allAsked allAsked).
  - split; [by_evaluation | reflexivity].
  - eexists. split; reflexivity.
  - reflexivity.
  - reflexivity.
Qed.

(** *** Further properties *)

(** *** Phases *)

Definition byOrder (a b : string * phase) : Prop :=
  (order (snd a) <= order (snd b))%Z.

Lemma insertByOrder_In x xs z :
  In z (insertByOrder x xs) <-> x = z \/ In z xs.
Proof.
  induction xs as [|y r IH]; cbn [insertByOrder In]; [tauto|].
  destruct (_ <? _)%Z; cbn [In]; [rewrite IH|]; tauto.
Qed.

Lemma insertByOrder_sorted x xs :
  StronglySorted byOrder xs -> StronglySorted byOrder (insertByOrder x xs).
Proof.
  induction 1 as [|y r Hr IH Hy]; cbn [insertByOrder].
  - repeat constructor.
  - destruct (Z.ltb_spec (order (snd y)) (order (snd x))) as [Hlt|Hge].
    + constructor; [exact IH|]. apply Forall_forall. intros z Hz.
      apply insertByOrder_In in Hz as [<-|Hz].
      * unfold byOrder. lia.
      * rewrite Forall_forall in Hy. apply Hy, Hz.
    + constructor; [constructor; assumption|].
      constructor; [exact Hge|].
      rewrite Forall_forall in Hy |- *. intros z Hz.
      specialize (Hy z Hz). unfold byOrder in *. lia.
Qed.

Lemma sortByOrder_spec xs :
  StronglySorted byOrder (sortByOrder xs)
  /\ forall z, In z (sortByOrder xs) <-> In z xs.
Proof.
  induction xs as [|x xs [IH1 IH2]]; cbn [sortByOrder fold_right].
  - split; [constructor | tauto].
  - fold (sortByOrder xs). split; [apply insertByOrder_sorted, IH1|].
    intros z. rewrite insertByOrder_In, IH2. cbn [In]. tauto.
Qed.

Lemma find_first {A} (f : A -> bool) (l : list A) :
  match find f l with
  | Some x => exists l1 l2, l = l1 ++ x :: l2 /\ f x = true
                            /\ Forall (fun y => f y = false) l1
  | None => Forall (fun y => f y = false) l
  end.
Proof.
  induction l as [|y l IH]; cbn [find]; [constructor|].
  destruct (f y) eqn:E.
  - exists [], l. repeat split; [exact E | constructor].
  - destruct (find f l) as [x|].
    + destruct IH as [l1 [l2 [H1 [H2 H3]]]]. exists (y :: l1), l2.
      rewrite H1. repeat split; [exact H2 | constructor; assumption].
    + constructor; assumption.
Qed.

Lemma sorted_after {A} (R : A -> A -> Prop) l1 x l2 :
  StronglySorted R (l1 ++ x :: l2) -> Forall (R x) l2.
Proof.
  induction l1 as [|y l1 IH]; cbn [app]; intros H; inversion H; subst; auto.
Qed.

(** Property X21.  [updatePhase] is idempotent.  It selects a phase
    whose window holds the response count, and no phase of smaller order
    has such a window; when no window holds the count the engine stays as
    it is. *)
Theorem updatePhase_first_window (cfg : config) (e : t) :
  updatePhase cfg (updatePhase cfg e) = updatePhase cfg e
  /\ ((exists name ph,
         In (name, ph) (phases cfg)
         /\ inWindow (responseCount e) ph = true
         /\ updatePhase cfg e = setPhase e name
         /\ forall name' ph',
             In (name', ph') (phases cfg) ->
             (order ph' < order ph)%Z ->
             inWindow (responseCount e) ph' = false)
      \/ (updatePhase cfg e = e
          /\ forall name ph,
              In (name, ph) (phases cfg) ->
              inWindow (responseCount e) ph = false)).
Proof.
  destruct (sortByOrder_spec (phases cfg)) as [Hsorted Hin].
  pose proof (find_first (fun kv => inWindow (responseCount e) (snd kv))
                (sortByOrder (phases cfg))) as Hfind.
  split.
  - unfold updatePhase.
    destruct (find _ (sortByOrder (phases cfg))) as [[name ph]|] eqn:E;
      cbn [setPhase responseCount]; rewrite E; reflexivity.
  - unfold updatePhase.
    destruct (find _ (sortByOrder (phases cfg))) as [[name ph]|].
    + left. destruct Hfind as [l1 [l2 [Hl [Hw Hbefore]]]]. exists name, ph.
      split; [apply Hin; rewrite Hl; apply in_or_app; right; left; reflexivity|].
      split; [exact Hw|]. split; [reflexivity|].
      intros name' ph' H' Hlt. apply Hin in H'. rewrite Hl in H', Hsorted.
      apply in_app_or in H' as [H'|[H'|H']].
      * rewrite Forall_forall in Hbefore. apply (Hbefore _ H').
      * injection H' as <- <-. lia.
      * apply sorted_after in Hsorted. rewrite Forall_forall in Hsorted.
        specialize (Hsorted _ H'). unfold byOrder in Hsorted. cbn [snd] in Hsorted. lia.
    + right. split; [reflexivity|]. intros name ph H'. apply Hin in H'.
      rewrite Forall_forall in Hfind. apply (Hfind _ H').
Qed.


(** *** The question returned *)

Lemma pick_In random weighted q :
  pick random weighted = Some q -> In q (map fst weighted).
Proof.
  revert random. induction weighted as [|[q0 w] r IH]; intros random; cbn [pick].
  - discriminate.
  - destruct (Qlt_le_dec 0 (random - w)).
    + intros H. right. exact (IH _ H).
    + intros H. injection H as <-. left. reflexivity.
Qed.

Lemma selectQuestion_In e first rest random :
  In (selectQuestion e first rest random) (first :: rest).
Proof.
  unfold selectQuestion.
  destruct (pick _ _) as [q|] eqn:E; [|left; reflexivity].
  apply pick_In in E. rewrite map_map in E. cbn [fst] in E.
  rewrite map_id in E. exact E.
Qed.

(** The fields [updatePhase] and [advancePhase] leave alone. *)
Definition samePlace (e e' : t) : Prop :=
  responseCount e' = responseCount e
  /\ askedQuestions e' = askedQuestions e
  /\ lastQuestion e' = lastQuestion e
  /\ currentRevealLevel e' = currentRevealLevel e
  /\ silenceCount e' = silenceCount e.

Lemma updatePhase_samePlace cfg e : samePlace e (updatePhase cfg e).
Proof.
  unfold updatePhase. destruct (find _ _) as [[name ph]|]; repeat split.
Qed.

Lemma advancePhase_samePlace cfg e : samePlace e (advancePhase cfg e).
Proof.
  unfold advancePhase. destruct (_ <? _)%Z; [|repeat split].
  destruct (nth_error _ _); repeat split.
Qed.

Lemma samePlace_trans e1 e2 e3 :
  samePlace e1 e2 -> samePlace e2 e3 -> samePlace e1 e3.
Proof.
  unfold samePlace. intros [A1 [A2 [A3 [A4 A5]]]] [B1 [B2 [B3 [B4 B5]]]].
  repeat split; congruence.
Qed.

Section Returned.

Variable cfg : config.
Variable cw : ContextWindow.t.
Variable ct : ConsistencyTracker.t.

(** What a returned question says about the states before and after
    the call. *)
Definition fresh (e : t) (q : shown) (e' : t) : Prop :=
  responseCount e' = responseCount e
  /\ currentRevealLevel e' = currentRevealLevel e
  /\ silenceCount e' = silenceCount e
  /\ match shownId_ q with
     | ConfigId name =>
         Js.member name (askedQuestions e) = false
         /\ askedQuestions e' = askedQuestions e ++ [name]
         /\ exists ph question,
             Js.mapGet (phases cfg) (currentPhase e') = Some ph
             /\ In question (questions ph)
             /\ id question = name
             /\ lastQuestion e' = Some question
     | _ =>
         askedQuestions e' = askedQuestions e
         /\ lastQuestion e' = lastQuestion e
     end.

Lemma getNextQuestion_fresh depth random now :
  forall e q e',
    getNextQuestion cfg cw ct depth random now e = Returns q e' ->
    fresh e q e'.
Proof.
  induction depth as [|depth IH]; intros e q e' H; [discriminate|].
  cbn [getNextQuestion] in H.
  destruct (updatePhase_samePlace cfg e) as [U1 [U2 [U3 [U4 U5]]]].
  set (e1 := updatePhase cfg e) in *.
  destruct (3 <=? silenceCount e1)%Z.
  { injection H as <- <-. unfold fresh. cbn [getSilenceResponse shownId_].
    repeat split; assumption. }
  destruct (if StateTerritory.gt _ 0.5 then _ else None) as [c|].
  { destruct (generateContradictionQuestion cfg c random now) as [q0|] eqn:G;
      [|discriminate].
    injection H as <- <-. unfold generateContradictionQuestion in G.
    destruct (at_ _ _); [|discriminate]. injection G as <-.
    unfold fresh. cbn [shownId_]. repeat split; assumption. }
  destruct (Js.mapGet (phases cfg) (currentPhase e1)) as [ph|] eqn:Hph.
  2:{ injection H as <- <-. unfold fresh. cbn [getDefaultQuestion shownId_].
      repeat split; assumption. }
  destruct (filter (available cw e1) (questions ph)) as [|first rest] eqn:Hav.
  - apply IH in H. destruct (advancePhase_samePlace cfg e1) as [A1 [A2 [A3 [A4 A5]]]].
    unfold fresh in *. rewrite A1, A2, A3, A4, A5, U1, U2, U3, U4, U5 in H. exact H.
  - injection H as <- <-.
    pose proof (selectQuestion_In e1 first rest random) as Hsel.
    rewrite <- Hav in Hsel. apply filter_In in Hsel as [Hq Havail].
    set (question := selectQuestion e1 first rest random) in *.
    assert (Hnew : Js.member (id question) (askedQuestions e1) = false).
    { unfold available in Havail.
      destruct (Js.member (id question) (askedQuestions e1)); [discriminate | reflexivity]. }
    unfold fresh.
    cbn [processQuestion shownId_ responseCount currentRevealLevel silenceCount
         askedQuestions lastQuestion currentPhase].
    rewrite Hnew. rewrite U2 in *.
    split; [exact U1|]. split; [exact U4|]. split; [exact U5|].
    split; [exact Hnew|]. split; [reflexivity|].
    exists ph, question. repeat split; assumption.
Qed.

End Returned.

(** Property X22.  A call of [getNextQuestion] that returns leaves the
    response count, the reveal level and the silence count alone.  When
    it returns a question of the configuration, that question belongs to
    the phase the engine ends in, had not been asked, and is now the last
    one asked and recorded as [lastQuestion]; otherwise the set of asked
    questions and [lastQuestion] are unchanged. *)
Theorem getNextQuestion_never_repeats
    (cfg : config) (cw : ContextWindow.t) (ct : ConsistencyTracker.t)
    (depth : nat) (random : Q) (now : Z) (e : t) (q : shown) (e' : t)
    (Hreturned : getNextQuestion cfg cw ct depth random now e = Returns q e') :
  responseCount e' = responseCount e
  /\ currentRevealLevel e' = currentRevealLevel e
  /\ silenceCount e' = silenceCount e
  /\ match shownId_ q with
     | ConfigId name =>
         Js.member name (askedQuestions e) = false
         /\ askedQuestions e' = askedQuestions e ++ [name]
         /\ exists ph question,
             Js.mapGet (phases cfg) (currentPhase e') = Some ph
             /\ In question (questions ph)
             /\ id question = name
             /\ lastQuestion e' = Some question
     | _ =>
         askedQuestions e' = askedQuestions e
         /\ lastQuestion e' = lastQuestion e
     end.
Proof. exact (getNextQuestion_fresh cfg cw ct depth random now e q e' Hreturned). Qed.

Definition firstShown : shown :=
  {| shownId_ := ConfigId "o1"; shownText := Some "Where are you?"%string;
     shownCritical := false; shownSilent := false; shownRevealLevel := 0 |}.

Lemma getNextQuestion_never_repeats_witness :
  getNextQuestion cfg2 ContextWindow.new ConsistencyTracker.new 5 0.5 0 new
  = Returns firstShown afterFirst
  /\ Js.member "o1" (askedQuestions new) = false
  /\ askedQuestions afterFirst = askedQuestions new ++ ["o1"%string].
Proof.
  assert (H : getNextQuestion cfg2 ContextWindow.new ConsistencyTracker.new 5 0.5 0 new
              = Returns firstShown afterFirst) by reflexivity.
  split; [exact H|].
  destruct (getNextQuestion_never_repeats _ _ _ _ _ _ _ _ _ H) as [_ [_ [_ [H1 [H2 _]]]]].
  split; assumption.
Defined.


(** *** Silence *)

Lemma at_In {A} (xs : list A) (i : Z) :
  (0 <= i < Z.of_nat (List.length xs))%Z ->
  exists x, at_ xs i = Some x /\ In x xs.
Proof.
  intros [H0 H1]. unfold at_.
  destruct (Z.ltb_spec i 0) as [|_]; [lia|].
  destruct (nth_error xs (Z.to_nat i)) as [x|] eqn:E.
  - exists x. split; [reflexivity | exact (nth_error_In _ _ E)].
  - apply nth_error_None in E. lia.
Qed.

Lemma at_last {A} (xs : list A) :
  at_ xs (Z.of_nat (List.length xs) - 1) = last (map Some xs) None.
Proof.
  unfold at_. destruct xs as [|x xs]; [reflexivity|].
  destruct (Z.ltb_spec (Z.of_nat (List.length (x :: xs)) - 1) 0) as [H|_];
    [cbn [List.length] in H; lia|].
  replace (Z.to_nat (Z.of_nat (List.length (x :: xs)) - 1)) with (List.length xs)
    by (cbn [List.length]; lia).
  revert x. induction xs as [|y ys IH]; intros x; [reflexivity|].
  cbn [List.length nth_error]. rewrite IH. reflexivity.
Qed.

(** Property X23.  With a silence count of three or more
    [getNextQuestion] returns at once a silent response named after the
    count, whatever the contradictions and the phase; its text is one of
    the configured silence responses when there is any, the last one once
    the count has run past them. *)
Theorem silence_takes_priority
    (cfg : config) (cw : ContextWindow.t) (ct : ConsistencyTracker.t)
    (depth : nat) (random : Q) (now : Z) (e : t)
    (Hsilent : (3 <= silenceCount e)%Z) :
  exists q,
    getNextQuestion cfg cw ct (S depth) random now e
    = Returns q (updatePhase cfg e)
    /\ shownId_ q = SilenceId (silenceCount e)
    /\ shownSilent q = true
    /\ shownRevealLevel q = currentRevealLevel e
    /\ (silenceResponses cfg <> [] ->
        exists txt, shownText q = Some txt /\ In txt (silenceResponses cfg))
    /\ ((Z.of_nat (List.length (silenceResponses cfg)) + 2 <= silenceCount e)%Z ->
        shownText q = last (map Some (silenceResponses cfg)) None).
Proof.
  destruct (updatePhase_samePlace cfg e) as [U1 [U2 [U3 [U4 U5]]]].
  exists (getSilenceResponse cfg (updatePhase cfg e)).
  split.
  { cbn [getNextQuestion]. rewrite U5.
    destruct (Z.leb_spec 3 (silenceCount e)); [reflexivity | lia]. }
  unfold getSilenceResponse.
  cbn [shownId_ shownSilent shownRevealLevel shownText]. rewrite U4, U5.
  split; [reflexivity|]. split; [reflexivity|]. split; [reflexivity|]. split.
  - intros Hne. apply at_In.
    destruct (silenceResponses cfg) as [|r rs]; [congruence|].
    cbn [List.length]. lia.
  - intros Hlate. rewrite Z.min_r by lia. apply at_last.
Qed.

Lemma silence_takes_priority_witness :
  let e := recordSilence (recordSilence (recordSilence new)) in
  (3 <= silenceCount e)%Z
  /\ exists q,
      getNextQuestion cfg2 ContextWindow.new ConsistencyTracker.new 1 0.5 0 e
      = Returns q (updatePhase cfg2 e)
      /\ shownId_ q = SilenceId 3
      /\ shownText q = Some "..."%string.
Proof.
  cbn zeta. split; [cbn; lia|].
  destruct (silence_takes_priority cfg2 ContextWindow.new ConsistencyTracker.new
              0 0.5 0 (recordSilence (recordSilence (recordSilence new))))
    as [q [H1 [H2 [_ [_ [_ H3]]]]]]; [cbn; lia|].
  exists q. split; [exact H1|]. split; [exact H2|].
  rewrite H3; [reflexivity | cbn; lia].
Defined.

(** *** Recording a response *)

(** Property X24.  From a reveal level of at most 5, [recordResponse]
    adds one to the response count, resets the silence count, raises the
    reveal level by at most 1 and never lowers it, keeps it at most 5
    after a critical question, and leaves the asked questions and the
    phase alone. *)
Theorem recordResponse_counts_and_reveals (e : t)
    (Hlevel : currentRevealLevel e <= 5) :
  let e' := recordResponse e in
  responseCount e' = (responseCount e + 1)%Z
  /\ silenceCount e' = 0%Z
  /\ currentRevealLevel e <= currentRevealLevel e'
  /\ currentRevealLevel e' <= currentRevealLevel e + 1
  /\ (match lastQuestion e with
      | Some q => critical q = true
      | None => False
      end -> currentRevealLevel e' <= 5)
  /\ askedQuestions e' = askedQuestions e
  /\ currentPhase e' = currentPhase e.
Proof.
  cbn zeta. unfold recordResponse.
  cbn [responseCount silenceCount currentRevealLevel askedQuestions currentPhase].
  split; [reflexivity|]. split; [reflexivity|].
  destruct (lastQuestion e) as [q|]; [|repeat split; try lra; intros []].
  destruct (critical q).
  - destruct (Q.min_spec (currentRevealLevel e + 1) 5) as [[? E]|[? E]];
      rewrite E; repeat split; try lra; intros _; lra.
  - destruct (StateTerritory.gt _ _); repeat split; try lra; intros; discriminate.
Qed.

Lemma recordResponse_counts_and_reveals_witness :
  currentRevealLevel afterSecond <= 5
  /\ responseCount (recordResponse afterSecond) = 4%Z
  /\ silenceCount (recordResponse afterSecond) = 0%Z
  /\ currentRevealLevel afterSecond
     <= currentRevealLevel (recordResponse afterSecond).
Proof.
  assert (H : currentRevealLevel afterSecond <= 5) by by_evaluation.
  split; [exact H|].
  destruct (recordResponse_counts_and_reveals afterSecond H)
    as [H1 [H2 [H3 _]]].
  split; [exact H1|]. split; [exact H2 | exact H3].
Defined.

(** *** No phase, no template *)

(** Property X25.  With no phase configured, and neither silence nor a
    contradiction to answer, [getNextQuestion] returns the default
    question "..." and leaves the engine as it is. *)
Theorem no_phase_gives_default_question
    (cfg : config) (cw : ContextWindow.t) (ct : ConsistencyTracker.t)
    (depth : nat) (random : Q) (now : Z) (e : t)
    (Hnone : phases cfg = [])
    (Hquiet : quiet ct e) :
  getNextQuestion cfg cw ct (S depth) random now e
  = Returns {| shownId_ := DefaultId; shownText := Some "..."%string;
               shownCritical := false; shownSilent := true;
               shownRevealLevel := currentRevealLevel e |} e.
Proof.
  destruct Hquiet as [Hs Hc].
  assert (Hu : updatePhase cfg e = e) by (unfold updatePhase; rewrite Hnone; reflexivity).
  cbn [getNextQuestion]. rewrite Hu.
  destruct (Z.leb_spec 3 (silenceCount e)); [lia|].
  rewrite Hc, Hnone. reflexivity.
Qed.

(** A configuration with no phase at all. *)
Definition noPhases : config :=
  {| phases := []; contradictionTemplates := []; silenceResponses := [] |}.

Lemma no_phase_gives_default_question_witness :
  phases noPhases = []
  /\ quiet ConsistencyTracker.new new
  /\ getNextQuestion noPhases ContextWindow.new ConsistencyTracker.new 1 0.5 0 new
     = Returns {| shownId_ := DefaultId; shownText := Some "..."%string;
                  shownCritical := false; shownSilent := true;
                  shownRevealLevel := 0 |} new.
Proof.
  assert (Hq : quiet ConsistencyTracker.new new)
    by (split; [by_evaluation | reflexivity]).
  split; [reflexivity|]. split; [exact Hq|].
  exact (no_phase_gives_default_question noPhases ContextWindow.new
           ConsistencyTracker.new 0 0.5 0 new eq_refl Hq).
Defined.





End QuestionEngineSpec.

(** ** RealityEngine *)

Module RealityEngineSpec.
Import RealityEngine.

(** *** Targets set by a response *)

Lemma normalizedLength_unit r text :
  0 <= normalizedLength r text /\ normalizedLength r text <= 1.
Proof.
  unfold normalizedLength. split; [|apply Q.le_min_r].
  apply Q.min_glb; [apply Q.le_max_r | by_evaluation].
Qed.

Lemma normalizedLength_short r text :
  minLength r < maxLength r -> Js.len text <= minLength r ->
  normalizedLength r text == 0.
Proof.
  intros Hr Hshort. unfold normalizedLength.
  assert (H : (Js.len text - minLength r) / (maxLength r - minLength r) <= 0).
  { unfold Qdiv.
    assert (0 < / (maxLength r - minLength r))
      by (apply Qinv_lt_0_compat; lra).
    nra. }
  rewrite (Q.max_r _ _ H). apply Q.min_l. by_evaluation.
Qed.

Lemma normalizedLength_long r text :
  minLength r < maxLength r -> maxLength r <= Js.len text ->
  normalizedLength r text == 1.
Proof.
  intros Hr Hlong. unfold normalizedLength.
  assert (H : 1 <= (Js.len text - minLength r) / (maxLength r - minLength r)).
  { apply Qle_shift_div_l; lra. }
  rewrite Q.max_l by lra. apply Q.min_r. exact H.
Qed.

(** A value between two ends. *)
Definition between (lo hi x : Q) : Prop := lo <= x /\ x <= hi.

Lemma mix_between lo hi w :
  lo <= hi -> 0 <= w -> w <= 1 -> between lo hi (lo + w * (hi - lo)).
Proof. intros H H0 H1. unfold between. split; nra. Qed.

Lemma orHalf_zero (x : Q) : x == 0 -> orHalf (Some x) = 0.5.
Proof.
  intros H. unfold orHalf. apply Qeq_bool_iff in H. rewrite H. reflexivity.
Qed.

Lemma orHalf_pos (x : Q) : 0 < x -> orHalf (Some x) = x.
Proof.
  intros H. unfold orHalf. destruct (Qeq_bool x 0) eqn:E; [|reflexivity].
  apply Qeq_bool_iff in E. lra.
Qed.

Lemma orHalf_unit (x : Q) : 0 <= x -> x <= 1 ->
  0 <= orHalf (Some x) /\ orHalf (Some x) <= 1.
Proof.
  intros H0 H1. unfold orHalf. destruct (Qeq_bool x 0); split;
    first [assumption | by_evaluation].
Qed.

(** Property X27.  With [minLength < maxLength] and each range of the
    mapping in order, [processResponse] on the entry [addResponse]
    returned sets a density, a noise and a clarity target inside their
    ranges; the density is [minDensity] up to [minLength] characters
    and [maxDensity] from [maxLength] on; the noise is exactly the
    mix by the entry's complexity, which is never zero; an entry of
    certainty zero gets the clarity of certainty one half, like no entry
    at all; the state, the speed and the three other targets are left
    alone. *)
Theorem processResponse_targets
    (p : params) (cfg : ContextWindow.config) (w : ContextWindow.t)
    (e : t) (rd : ResponseData.t) (now1 now2 : Z)
    (Hlength : minLength (lengthToParticleDensity (responseMapping p))
               < maxLength (lengthToParticleDensity (responseMapping p)))
    (Hdensity : minDensity (lengthToParticleDensity (responseMapping p))
                <= maxDensity (lengthToParticleDensity (responseMapping p)))
    (Hnoise : minNoise (complexityToNoise (responseMapping p))
              <= maxNoise (complexityToNoise (responseMapping p)))
    (Hclarity : minClarity (certaintyToClarity (responseMapping p))
                <= maxClarity (certaintyToClarity (responseMapping p))) :
  let lengths := lengthToParticleDensity (responseMapping p) in
  let noises := complexityToNoise (responseMapping p) in
  let clarities := certaintyToClarity (responseMapping p) in
  let entry := fst (ContextWindow.addResponse cfg w rd now1 now2) in
  let e' := processResponse p e rd (Some entry) in
  let target := targetState e' in
  between (minDensity lengths) (maxDensity lengths) (particleDensity target)
  /\ (Js.len (ResponseData.text rd) <= minLength lengths ->
      particleDensity target == minDensity lengths)
  /\ (maxLength lengths <= Js.len (ResponseData.text rd) ->
      particleDensity target == maxDensity lengths)
  /\ between (minNoise noises) (maxNoise noises) (visualNoise target)
  /\ visualNoise target
     = minNoise noises
       + ContextWindow.calculateComplexity (ResponseData.text rd)
         * (maxNoise noises - minNoise noises)
  /\ between (minClarity clarities) (maxClarity clarities) (clarity target)
  /\ (ContextWindow.estimateCertainty (ResponseData.text rd) == 0 ->
      clarity target = clarity (targetState (processResponse p e rd None)))
  /\ state e' = state e
  /\ transitionSpeed e' = transitionSpeed e
  /\ stability target = stability (targetState e)
  /\ contradictionLevel target = contradictionLevel (targetState e)
  /\ revealLevel target = revealLevel (targetState e).
Proof.
  intros lengths noises clarities entry e' target.
  pose proof (normalizedLength_unit lengths (ResponseData.text rd)) as [Hn0 Hn1].
  pose proof (ContextWindowSpec.calculateComplexity_range (ResponseData.text rd))
    as [Hc0 Hc1].
  pose proof (ContextWindowSpec.estimateCertainty_range (ResponseData.text rd))
    as [Hk0 Hk1].
  assert (Hcomplexity :
            ContextWindow.Entry.complexity (ContextWindow.Entry.meta entry)
            = ContextWindow.calculateComplexity (ResponseData.text rd))
    by reflexivity.
  assert (Hcertainty :
            ContextWindow.Entry.certainty (ContextWindow.Entry.meta entry)
            = ContextWindow.estimateCertainty (ResponseData.text rd))
    by reflexivity.
  subst target e'. unfold processResponse, setTarget.
  cbn [targetState state transitionSpeed particleDensity visualNoise clarity
       stability contradictionLevel revealLevel option_map].
  rewrite Hcomplexity, Hcertainty.
  fold lengths noises clarities.
  rewrite (orHalf_pos _ Hc0).
  split; [apply mix_between; assumption|].
  split.
  { intros Hshort.
    rewrite (normalizedLength_short lengths _ Hlength Hshort). ring. }
  split.
  { intros Hlong.
    rewrite (normalizedLength_long lengths _ Hlength Hlong). ring. }
  split; [apply mix_between; [assumption | lra | assumption]|].
  split; [reflexivity|].
  split.
  { destruct (orHalf_unit _ Hk0 Hk1). apply mix_between; assumption. }
  split.
  { intros Hzero. rewrite (orHalf_zero _ Hzero). reflexivity. }
  repeat split; reflexivity.
Qed.

Definition plainMapping : params :=
  {| responseMapping :=
       {| lengthToParticleDensity :=
            {| minLength := 10; maxLength := 500;
               minDensity := 0.2; maxDensity := 1 |};
          complexityToNoise := {| minNoise := 0; maxNoise := 0.5 |};
          certaintyToClarity := {| minClarity := 0.3; maxClarity := 1 |} |} |}.

Definition maybe : ResponseData.t :=
  {| ResponseData.text := "maybe"; ResponseData.timestamp := 0;
     ResponseData.id := None |}.

Lemma processResponse_targets_witness :
  let entry :=
    fst (ContextWindow.addResponse ContextWindowSpec.cfg1 ContextWindow.new
           maybe 1 2) in
  let target := targetState (processResponse plainMapping new maybe (Some entry)) in
  ContextWindow.estimateCertainty "maybe" == 0
  /\ particleDensity target == 0.2
  /\ clarity target
     = clarity (targetState (processResponse plainMapping new maybe None)).
Proof.
  intros entry target.
  assert (Hzero : ContextWindow.estimateCertainty "maybe" == 0)
    by by_evaluation.
  destruct (processResponse_targets plainMapping ContextWindowSpec.cfg1
              ContextWindow.new new maybe 1 2)
    as [_ [Hshort [_ [_ [_ [_ [Hclarity _]]]]]]]; try by_evaluation.
  split; [exact Hzero|].
  split; [apply Hshort; by_evaluation | apply Hclarity, Hzero].
Defined.

(** *** The approach to the targets *)

(** [n] frames with no other call in between. *)
Definition updates (n : nat) (e : t) : t :=
  Nat.iter n (fun e => snd (update e)) e.

Definition keys : list (visual -> Q) :=
  [particleDensity; visualNoise; clarity; stability; contradictionLevel;
   revealLevel].

(** A method of the engine that changes it. *)
Inductive call :=
| ProcessResponse (p : params) (rd : ResponseData.t)
    (entry : option ContextWindow.Entry.t)
| SetContradictionLevel (level : Q)
| SetRevealLevel (level : Q)
| SetAlignmentStability (value : Q)
| Update
| ApplyEndingState (endingType : string).

Definition perform (e : t) (c : call) : t :=
  match c with
  | ProcessResponse p rd entry => processResponse p e rd entry
  | SetContradictionLevel level => setContradictionLevel e level
  | SetRevealLevel level => setRevealLevel e level
  | SetAlignmentStability value => setAlignmentStability e value
  | Update => snd (update e)
  | ApplyEndingState endingType => applyEndingState e endingType
  end.

Definition performAll (calls : list call) : t := fold_left perform calls new.

Definition silenced (calls : list call) : bool :=
  existsb (fun c => match c with
                    | ApplyEndingState endingType =>
                        String.eqb endingType "silence"
                    | _ => false
                    end) calls.

Lemma transitionSpeed_perform e c :
  transitionSpeed (perform e c)
  = match c with
    | ApplyEndingState endingType =>
        if String.eqb endingType "silence" then 0.005 else transitionSpeed e
    | _ => transitionSpeed e
    end.
Proof.
  destruct c; try reflexivity.
  unfold perform, applyEndingState.
  destruct (String.eqb endingType "alignment_lock") eqn:E1.
  { apply String.eqb_eq in E1. subst. reflexivity. }
  destruct (String.eqb endingType "creative_divergence") eqn:E2.
  { apply String.eqb_eq in E2. subst. reflexivity. }
  destruct (String.eqb endingType "refusal") eqn:E3.
  { apply String.eqb_eq in E3. subst. reflexivity. }
  destruct (String.eqb endingType "silence"); reflexivity.
Qed.

Lemma transitionSpeed_from calls :
  forall e,
    transitionSpeed (fold_left perform calls e)
    = if silenced calls then 0.005 else transitionSpeed e.
Proof.
  induction calls as [|c calls IH]; intros e; [reflexivity|].
  cbn [fold_left]. rewrite IH, transitionSpeed_perform.
  unfold silenced at 2. cbn [existsb]. fold (silenced calls).
  destruct c; cbn [orb]; try reflexivity.
  destruct (String.eqb endingType "silence"); cbn [orb]; [|reflexivity].
  destruct (silenced calls); reflexivity.
Qed.

Lemma approach_gap speed target current :
  approach speed target current - target == (1 - speed) * (current - target).
Proof. unfold approach. ring. Qed.

Lemma updates_S n e : updates (S n) e = snd (update (updates n e)).
Proof. reflexivity. Qed.

Lemma updates_frame n e :
  targetState (updates n e) = targetState e
  /\ transitionSpeed (updates n e) = transitionSpeed e.
Proof.
  induction n as [|n [IHt IHs]]; [split; reflexivity|].
  rewrite updates_S. unfold update. cbn [snd targetState transitionSpeed].
  split; assumption.
Qed.

Lemma power_succ (q : Q) (n : nat) :
  q ^ Z.of_nat (S n) == q * q ^ Z.of_nat n.
Proof.
  rewrite Nat2Z.inj_succ, <- Z.add_1_r.
  rewrite Qpower_plus' by lia. rewrite Qpower_1_r. ring.
Qed.

Lemma power_unit (q : Q) (n : nat) :
  0 < q -> q <= 1 -> 0 < q ^ Z.of_nat n /\ q ^ Z.of_nat n <= 1.
Proof.
  intros Hpos Hle. induction n as [|n [IH0 IH1]].
  - change (Z.of_nat 0) with 0%Z. rewrite Qpower_0_r. split; by_evaluation.
  - rewrite power_succ. split; nra.
Qed.

Lemma updates_gap (key : visual -> Q) n e :
  In key keys ->
  key (state (updates n e)) - key (targetState e)
  == (1 - transitionSpeed e) ^ Z.of_nat n
     * (key (state e) - key (targetState e)).
Proof.
  intros Hkey. induction n as [|n IH].
  - change (updates 0 e) with e. change (Z.of_nat 0) with 0%Z.
    rewrite (Qpower_0_r (1 - transitionSpeed e)). ring.
  - destruct (updates_frame n e) as [Ht Hs].
    assert (Hstep :
              key (state (updates (S n) e))
              = approach (transitionSpeed (updates n e))
                         (key (targetState (updates n e)))
                         (key (state (updates n e)))).
    { rewrite updates_S. unfold update. cbn [snd state].
      unfold keys in Hkey. cbn [In] in Hkey.
      destruct Hkey as [<-|[<-|[<-|[<-|[<-|[<-|[]]]]]]]; reflexivity. }
    rewrite Hstep, Ht, Hs, approach_gap, IH.
    rewrite power_succ. ring.
Qed.

(** Property X28.  On an engine reached by any sequence of calls the
    transition speed is 0.005 once the silence ending has been applied
    and 0.02 before; [n] further frames leave the targets alone and
    shrink the distance of every key of the state to its target by the
    factor [(1 - speed) ^ n], so that the state approaches the target
    from its side and reaches it only if it was there. *)
Theorem update_approaches_target (calls : list call) (n : nat) :
  let e := performAll calls in
  transitionSpeed e = (if silenced calls then 0.005 else 0.02)
  /\ targetState (updates n e) = targetState e
  /\ Forall (fun key : visual -> Q =>
               key (state (updates n e)) - key (targetState e)
               == (1 - transitionSpeed e) ^ Z.of_nat n
                  * (key (state e) - key (targetState e)))
            keys
  /\ 0 < (1 - transitionSpeed e) ^ Z.of_nat n
  /\ (1 - transitionSpeed e) ^ Z.of_nat n <= 1.
Proof.
  intros e.
  assert (Hspeed : transitionSpeed e = (if silenced calls then 0.005 else 0.02)).
  { subst e. unfold performAll. rewrite transitionSpeed_from. reflexivity. }
  split; [exact Hspeed|].
  split; [apply updates_frame|].
  split.
  { apply Forall_forall. intros key Hkey. apply updates_gap, Hkey. }
  assert (Hbase : 0 < 1 - transitionSpeed e /\ 1 - transitionSpeed e <= 1).
  { rewrite Hspeed. destruct (silenced calls); split; by_evaluation. }
  destruct Hbase as [Hpos Hle].
  apply power_unit; assumption.
Qed.

End RealityEngineSpec.

(** ** PersistentMemory *)

Module PersistentMemorySpec.
Import PersistentMemory.

(** *** Counting *)


Local Abbreviation keys := ConsistencyTrackerSpec.keys.














(** *** Key words and themes of a session *)







(** *** Storage written by the program *)

(** A session with neither [responses] nor [territories], as
    [compressSession] returns it. *)
Definition compressed (s : session) : Prop :=
  responses s = None /\ territories s = None.














(** What the storage holds for the constructor. *)
Definition stored (st : option data) : list session :=
  match st with Some d => sessions d | None => [] end.






(** *** The prompt *)










End PersistentMemorySpec.

(** ** ANSWERSPACE *)

Module AnswerspaceSpec.
Import ANSWERSPACE.

Local Abbreviation inUnit := ConsistencyTrackerSpec.inUnit.

(** What the page, the timer and the animation frame make the
    orchestrator do.  [handleResponse] pauses before it shows the next
    question, so that its two halves are events of their own: anything
    may happen between them. *)
Inductive event :=
| HandleResponse (text : string) (clock : nat -> Z)
| ShowNextQuestion (depth : nat) (random : Q) (now : Z)
| HandleSilence (depth : nat) (random : Q) (now : Z)
| Animate.

Section Run.

Variable cfg : config.
Variable Math_pow : Q -> Q -> Q.

(** The state after an event; [None] when [getNextQuestion] does not
    return. *)
Definition step (s : t) (ev : event) : option t :=
  match ev with
  | HandleResponse text clock => Some (handleResponse cfg Math_pow s text clock)
  | ShowNextQuestion depth random now =>
      option_map snd (showNextQuestion cfg depth random now s)
  | HandleSilence depth random now =>
      option_map snd (handleSilence cfg depth random now s)
  | Animate => Some (animate s)
  end.

Fixpoint run (s : t) (events : list event) : option t :=
  match events with
  | [] => Some s
  | ev :: rest =>
      match step s ev with
      | Some s' => run s' rest
      | None => None
      end
  end.

Definition isResponse (ev : event) : bool :=
  match ev with HandleResponse _ _ => true | _ => false end.

(** The number of answers among the events. *)
Definition answers (events : list event) : nat :=
  List.length (filter isResponse events).

(** What the components agree on after [n] answers. *)
Definition agree (n : nat) (s : t) : Prop :=
  let target := RealityEngine.targetState (realityEngine s) in
  let shownState := RealityEngine.state (realityEngine s) in
  let session := PersistentMemory.currentSession (persistentMemory s) in
  QuestionEngine.responseCount (questionEngine s) = Z.of_nat n
  /\ List.length (AlignmentTracker.history (alignmentTracker s)) = n
  /\ List.length (StateTerritory.history (stateTerritory s)) = n
  /\ option_map (@List.length _) (PersistentMemory.responses session) = Some n
  /\ option_map (@List.length _) (PersistentMemory.territories session)
     = Some n
  /\ (List.length (ContextWindow.responses (contextWindow s)) <= n)%nat
  /\ StateTerritorySpec.wellFormed (stateTerritory s)
  /\ inUnit (ConsistencyTracker.contradictionLevel (consistencyTracker s))
  /\ RealityEngine.contradictionLevel target
     == ConsistencyTracker.contradictionLevel (consistencyTracker s)
  /\ RealityEngine.stability target
     == match n with
        | O => 1
        | S _ => StateTerritory.beautyScore (stateTerritory s)
        end
  /\ RealityEngine.revealLevel target
     == QuestionEngine.currentRevealLevel (questionEngine s) / 5
  /\ RealityEngine.transitionSpeed (realityEngine s) = 0.02
  /\ inUnit (RealityEngine.stability shownState)
  /\ inUnit (RealityEngine.contradictionLevel shownState).

Lemma agree_init now1 now2 stored : agree 0 (init now1 now2 stored).
Proof.
  unfold agree, init.
  cbn [contextWindow consistencyTracker alignmentTracker stateTerritory
       persistentMemory questionEngine realityEngine].
  repeat split;
    try (destruct stored; reflexivity);
    try reflexivity; try (cbn; lia); try by_evaluation.
Qed.

Lemma addResponse_length w rd now1 now2 :
  (List.length
     (ContextWindow.responses
        (snd (ContextWindow.addResponse (memoryConfig cfg) w rd now1 now2)))
   <= S (List.length (ContextWindow.responses w)))%nat.
Proof.
  unfold ContextWindow.addResponse, ContextWindow.enforceContextLimit.
  cbn [snd ContextWindow.responses ContextWindow.totalTokens].
  match goal with
  | |- context [ContextWindow.evict ?l ?total ?rs] =>
      destruct (ContextWindowSpec.evict_gone l rs total) as [gone [Hgone _]];
      destruct (ContextWindow.evict l total rs) as [total' rs'] eqn:E
  end.
  cbn [snd ContextWindow.responses] in *.
  apply (f_equal (@List.length _)) in Hgone.
  rewrite !length_app in Hgone. cbn [List.length] in Hgone. lia.
Qed.

Lemma approach_unit target current :
  inUnit target -> inUnit current ->
  inUnit (RealityEngine.approach 0.02 target current).
Proof.
  unfold ConsistencyTrackerSpec.inUnit, RealityEngine.approach. intros [T0 T1] [C0 C1]. split; lra.
Qed.

Lemma handleResponse_agree n s text clock :
  agree n s -> agree (S n) (handleResponse cfg Math_pow s text clock).
Proof.
  intros [Hcount [Halign [Hterr [Hresp [Hplaces [Hlog [Hwf [Hlevel
           [_ [_ [_ [Hspeed [Hstab Hcontra]]]]]]]]]]]]].
  unfold handleResponse.
  pose proof (addResponse_length (contextWindow s)
                {| ResponseData.text := text;
                   ResponseData.timestamp := clock 0%nat;
                   ResponseData.id := None |} (clock 1%nat) (clock 2%nat))
    as Hadd.
  destruct (ContextWindow.addResponse _ _ _ _ _) as [memoryEntry cw].
  pose proof (ConsistencyTrackerSpec.checkResponse_inUnit
                (consistencyConfig cfg) (consistencyTracker s)
                {| ResponseData.text := text;
                   ResponseData.timestamp := clock 0%nat;
                   ResponseData.id := None |}
                (fun j => clock (3 + j)%nat) Hlevel) as Hlevel'.
  destruct (ConsistencyTracker.checkResponse _ _ _ _) as [contradictions ct].
  pose proof (AlignmentTrackerSpec.history_step (alignmentTracker s)
                (AlignmentTrackerSpec.Analyze
                   {| ResponseData.text := text;
                      ResponseData.timestamp := clock 0%nat;
                      ResponseData.id := None |} (clock 8%nat))) as Hhist.
  cbn [AlignmentTrackerSpec.step] in Hhist.
  destruct (AlignmentTracker.analyzeResponse _ _ _) as [analysis tracker].
  match goal with
  | |- context [StateTerritory.processResponse ?st ?rd ?md ?now] =>
      pose proof (StateTerritorySpec.processResponse_sound st rd md now Hwf)
        as Hwf';
      assert (Hbeauty :
                StateTerritory.stateBeauty
                  (fst (StateTerritory.processResponse st rd md now))
                = StateTerritory.beautyScore
                    (snd (StateTerritory.processResponse st rd md now)))
        by reflexivity;
      assert (Hsnap :
                List.length
                  (StateTerritory.history
                     (snd (StateTerritory.processResponse st rd md now)))
                = S (List.length (StateTerritory.history st)))
        by (unfold StateTerritory.processResponse;
            cbn [snd StateTerritory.history StateTerritory.updateBeautyTrap
                 StateTerritory.updateTerritory];
            rewrite length_app; cbn [List.length]; lia);
      destruct (StateTerritory.processResponse st rd md now)
        as [territoryState territory]
  end.
  cbn [fst snd] in *.
  unfold agree.
  cbn [contextWindow consistencyTracker alignmentTracker stateTerritory
       persistentMemory questionEngine realityEngine].
  split.
  { unfold QuestionEngine.recordResponse.
    cbn [QuestionEngine.responseCount]. lia. }
  split; [lia|].
  split; [lia|].
  assert (Hpm :
            forall pm rd md now,
              option_map (@List.length _)
                (PersistentMemory.responses
                   (PersistentMemory.currentSession pm)) = Some n ->
              option_map (@List.length _)
                (PersistentMemory.territories
                   (PersistentMemory.currentSession pm)) = Some n ->
              let pm' := PersistentMemory.recordResponse pm rd md now in
              option_map (@List.length _)
                (PersistentMemory.responses
                   (PersistentMemory.currentSession pm')) = Some (S n)
              /\ option_map (@List.length _)
                   (PersistentMemory.territories
                      (PersistentMemory.currentSession pm')) = Some (S n)).
  { intros pm rd md now Hr Ht. unfold PersistentMemory.recordResponse.
    cbn [PersistentMemory.currentSession PersistentMemory.setCurrent
         PersistentMemory.responses PersistentMemory.territories].
    destruct (PersistentMemory.responses (PersistentMemory.currentSession pm))
      as [rs|]; [|discriminate].
    destruct (PersistentMemory.territories
                (PersistentMemory.currentSession pm))
      as [ts|]; [|discriminate].
    cbn [option_map] in *. rewrite !length_app. cbn [List.length].
    injection Hr as Hr. injection Ht as Ht. split; f_equal; lia. }
  match goal with
  | |- context [PersistentMemory.recordResponse ?pm ?rd ?md ?now] =>
      destruct (Hpm pm rd md now Hresp Hplaces) as [Hr' Ht']
  end.
  split.
  { destruct (QuestionEngine.lastQuestion _) as [question|]; [|exact Hr'].
    destruct (QuestionEngine.critical question); exact Hr'. }
  split.
  { destruct (QuestionEngine.lastQuestion _) as [question|]; [|exact Ht'].
    destruct (QuestionEngine.critical question); exact Ht'. }
  split.
  { unfold ContextWindow.updateDecay. cbn [ContextWindow.responses].
    rewrite ContextWindowSpec.decayFrom_length. lia. }
  split; [exact Hwf'|].
  split; [exact Hlevel'|].
  cbn [RealityEngine.setAlignmentStability RealityEngine.setRevealLevel
       RealityEngine.setContradictionLevel RealityEngine.processResponse
       RealityEngine.setTarget RealityEngine.targetState RealityEngine.state
       RealityEngine.transitionSpeed RealityEngine.contradictionLevel
       RealityEngine.stability RealityEngine.revealLevel].
  split; [reflexivity|].
  split; [rewrite Hbeauty; reflexivity|].
  split; [reflexivity|].
  split; [exact Hspeed|].
  split; assumption.
Qed.

Lemma showNextQuestion_agree n depth random now s question s' :
  showNextQuestion cfg depth random now s = Some (question, s') ->
  agree n s -> agree n s'.
Proof.
  unfold showNextQuestion. intros H.
  destruct (QuestionEngine.getNextQuestion _ _ _ _ _ _ _) as [q e| |] eqn:E;
    try discriminate.
  injection H as _ <-.
  destruct (QuestionEngineSpec.getNextQuestion_fresh _ _ _ _ _ _ _ _ _ E)
    as [Hcount [Hreveal _]].
  unfold agree.
  cbn [contextWindow consistencyTracker alignmentTracker stateTerritory
       persistentMemory questionEngine realityEngine].
  rewrite Hcount, Hreveal. exact (fun H => H).
Qed.

Lemma handleSilence_agree n depth random now s question s' :
  handleSilence cfg depth random now s = Some (question, s') ->
  agree n s -> agree n s'.
Proof.
  unfold handleSilence. intros H Hs.
  apply (showNextQuestion_agree n _ _ _ _ _ _ H).
  destruct Hs as [Hcount [Halign [Hterr [Hresp [Hplaces [Hlog [Hwf [Hlevel
           [Htc [Hts [Htr [Hspeed [Hstab Hcontra]]]]]]]]]]]]].
  unfold agree.
  cbn [contextWindow consistencyTracker alignmentTracker stateTerritory
       persistentMemory questionEngine realityEngine].
  assert (Hsame :
            StateTerritory.history
              (StateTerritory.recordSilence (stateTerritory s))
            = StateTerritory.history (stateTerritory s)
            /\ StateTerritory.beautyScore
                 (StateTerritory.recordSilence (stateTerritory s))
               = StateTerritory.beautyScore (stateTerritory s))
    by (split; reflexivity).
  destruct Hsame as [-> ->].
  split; [exact Hcount|].
  split; [exact Halign|].
  split; [exact Hterr|].
  split; [exact Hresp|].
  split; [exact Hplaces|].
  split; [exact Hlog|].
  split; [apply StateTerritorySpec.recordSilence_sound, Hwf|].
  split; [exact Hlevel|].
  split; [exact Htc|].
  split; [exact Hts|].
  split; [exact Htr|].
  split; [exact Hspeed|].
  split; assumption.
Qed.

Lemma animate_agree n s : agree n s -> agree n (animate s).
Proof.
  intros [Hcount [Halign [Hterr [Hresp [Hplaces [Hlog [Hwf [Hlevel
           [Htc [Hts [Htr [Hspeed [Hstab Hcontra]]]]]]]]]]]]].
  unfold agree, animate.
  cbn [contextWindow consistencyTracker alignmentTracker stateTerritory
       persistentMemory questionEngine realityEngine].
  unfold RealityEngine.update.
  cbn [snd RealityEngine.targetState RealityEngine.state
       RealityEngine.transitionSpeed RealityEngine.stability
       RealityEngine.contradictionLevel].
  repeat (split; [assumption|]).
  rewrite Hspeed.
  assert (Hbeauty : inUnit (StateTerritory.beautyScore (stateTerritory s))).
  { destruct Hwf as [_ [Hb _]]. exact Hb. }
  assert (Htarget :
            inUnit (RealityEngine.stability
                      (RealityEngine.targetState (realityEngine s)))).
  { unfold ConsistencyTrackerSpec.inUnit in *. rewrite Hts. destruct n; [split; by_evaluation|].
    exact Hbeauty. }
  assert (Htarget' :
            inUnit (RealityEngine.contradictionLevel
                      (RealityEngine.targetState (realityEngine s)))).
  { unfold ConsistencyTrackerSpec.inUnit in *. rewrite Htc. exact Hlevel. }
  split; apply approach_unit; assumption.
Qed.

Lemma run_agree events :
  forall n s s',
    agree n s -> run s events = Some s' -> agree (n + answers events) s'.
Proof.
  induction events as [|ev events IH]; intros n s s' Hs Hrun.
  - injection Hrun as <-. unfold answers. cbn [filter List.length].
    rewrite Nat.add_0_r. exact Hs.
  - cbn [run] in Hrun. destruct (step s ev) as [s1|] eqn:E; [|discriminate].
    destruct ev as [text clock|depth random now|depth random now|];
      cbn [step] in E; unfold answers; cbn [filter isResponse].
    + injection E as <-. cbn [List.length]. rewrite Nat.add_succ_r.
      apply (IH (S n) _ s' (handleResponse_agree n s text clock Hs) Hrun).
    + destruct (showNextQuestion cfg depth random now s) as [[q s2]|] eqn:Eq;
        [|discriminate].
      injection E as <-.
      apply (IH n _ s' (showNextQuestion_agree n _ _ _ _ _ _ Eq Hs) Hrun).
    + destruct (handleSilence cfg depth random now s) as [[q s2]|] eqn:Eq;
        [|discriminate].
      injection E as <-.
      apply (IH n _ s' (handleSilence_agree n _ _ _ _ _ _ Eq Hs) Hrun).
    + injection E as <-.
      apply (IH n _ s' (animate_agree n s Hs) Hrun).
Qed.

End Run.

(** Property X30.  After any sequence of answers, questions shown,
    silences and animation frames in which every question was
    returned, and with [n] the number of answers: the question engine
    has counted [n] responses, the alignment tracker, the territory and
    the current session of the persistent memory hold [n] records each,
    and the context window at most [n] entries; the reality engine aims
    at the contradiction level of the consistency tracker, at a fifth
    of the reveal level of the question engine and, once there was an
    answer, at the beauty score of the territory as its stability, not
    at the stability [setContradictionLevel] derives from the
    contradictions; the transition speed is 0.02; and the stability
    and the contradiction level, aimed at and shown, lie in
    [0, 1]. *)
Theorem components_agree_after_any_run
    (cfg : config) (Math_pow : Q -> Q -> Q) (now1 now2 : Z)
    (stored : option PersistentMemory.data) (events : list event) (s : t)
    (Hrun : run cfg Math_pow (init now1 now2 stored) events = Some s) :
  let n := answers events in
  let target := RealityEngine.targetState (realityEngine s) in
  let shownState := RealityEngine.state (realityEngine s) in
  let session := PersistentMemory.currentSession (persistentMemory s) in
  (QuestionEngine.responseCount (questionEngine s) = Z.of_nat n
   /\ List.length (AlignmentTracker.history (alignmentTracker s)) = n
   /\ List.length (StateTerritory.history (stateTerritory s)) = n
   /\ option_map (@List.length _) (PersistentMemory.responses session)
      = Some n
   /\ option_map (@List.length _) (PersistentMemory.territories session)
      = Some n
   /\ (List.length (ContextWindow.responses (contextWindow s)) <= n)%nat)
  /\ (RealityEngine.contradictionLevel target
      == ConsistencyTracker.contradictionLevel (consistencyTracker s)
      /\ RealityEngine.stability target
         == match n with
            | O => 1
            | S _ => StateTerritory.beautyScore (stateTerritory s)
            end
      /\ RealityEngine.revealLevel target
         == QuestionEngine.currentRevealLevel (questionEngine s) / 5
      /\ RealityEngine.transitionSpeed (realityEngine s) = 0.02)
  /\ (inUnit (RealityEngine.contradictionLevel target)
      /\ inUnit (RealityEngine.stability target)
      /\ inUnit (RealityEngine.contradictionLevel shownState)
      /\ inUnit (RealityEngine.stability shownState)).
Proof.
  intros n target shownState session.
  pose proof (run_agree cfg Math_pow events 0 _ s
                (agree_init now1 now2 stored) Hrun) as H.
  cbn [Nat.add] in H. fold n in H.
  destruct H as [Hcount [Halign [Hterr [Hresp [Hplaces [Hlog [Hwf [Hlevel
          [Htc [Hts [Htr [Hspeed [Hstab Hcontra]]]]]]]]]]]]].
  fold target in Htc, Hts, Htr. fold shownState in Hstab, Hcontra.
  fold session in Hresp, Hplaces.
  split; [repeat split; assumption|].
  split; [repeat split; assumption|].
  assert (Hbeauty : inUnit (StateTerritory.beautyScore (stateTerritory s))).
  { destruct Hwf as [_ [Hb _]]. exact Hb. }
  split; [|split; [|split; assumption]].
  - unfold ConsistencyTrackerSpec.inUnit in *. rewrite Htc. exact Hlevel.
  - unfold ConsistencyTrackerSpec.inUnit in *. rewrite Hts. destruct n; [split; by_evaluation|].
    exact Hbeauty.
Qed.

(** A run of the orchestrator: the first question, an answer, two
    frames. *)
Definition plainConfig : config :=
  {| memoryConfig := ContextWindowSpec.cfg1;
     consistencyConfig := ConsistencyTrackerSpec.cfg1;
     questionsConfig := QuestionEngineSpec.cfg2;
     visualParams := RealityEngineSpec.plainMapping |}.

Definition shortRun : list event :=
  [ShowNextQuestion 3 0.5 0; HandleResponse "I am here" (fun i => Z.of_nat i);
   Animate; Animate].

Lemma components_agree_after_any_run_witness :
  exists s,
    run plainConfig Js.powIntegral (init 0 0 None) shortRun = Some s
    /\ QuestionEngine.responseCount (questionEngine s) = 1%Z
    /\ RealityEngine.stability (RealityEngine.targetState (realityEngine s))
       == StateTerritory.beautyScore (stateTerritory s).
Proof.
  destruct (run plainConfig Js.powIntegral (init 0 0 None) shortRun)
    as [s|] eqn:E.
  - exists s.
    destruct (components_agree_after_any_run plainConfig Js.powIntegral
                0 0 None shortRun s E)
      as [[Hcount _] [[_ [Hstability _]] _]].
    split; [reflexivity|]. split; [exact Hcount | exact Hstability].
  - exfalso. vm_compute in E. discriminate E.
Defined.

End AnswerspaceSpec.
